(** * amai-status: the heartbeat aggregator and the status endpoints

    A shallow embedding of [api/utils.py] (aggregate_heartbeat_data) and
    [api/status.py] (get_monitor_status, get_all_status), together with the
    parts of the Python runtime these functions run on: binary64 floats,
    the built-in [sum], int/float arithmetic, [datetime] and [str]
    ordering. *)

From Stdlib Require Import ZArith Lia List String Ascii Bool SpecFloat.
From Stdlib Require Import Permutation Sorted.
From stdpp Require Import base option gmap strings list sorting.

Local Open Scope Z_scope.

(** ** Exceptions *)

Inductive exn :=
  | OverflowError
  | ZeroDivisionError
  | KeyError (key : string)
  | HTTPException (status_code : Z) (detail : string).

Inductive result (A : Type) :=
  | Ok (a : A)
  | Raise (e : exn).
Arguments Ok {A} a.
Arguments Raise {A} e.

#[global] Instance result_ret : MRet result := fun _ a => Ok a.
#[global] Instance result_bind : MBind result := fun _ _ f c =>
  match c with Ok a => f a | Raise e => Raise e end.

(** A [for] loop whose body may raise: the state is threaded from left to
    right and the first exception ends the loop. *)
Fixpoint for_each {S A : Type} (body : S -> A -> result S) (s : S) (l : list A)
  : result S :=
  match l with
  | [] => Ok s
  | x :: l' => s' ← body s x; for_each body s' l'
  end.

(** ** Python floats: IEEE 754 binary64 *)
Module Float64.

Definition prec : Z := 53.
Definition emax : Z := 1024.

Abbreviation float := spec_float.

Definition add : float -> float -> float := SFadd prec emax.
Definition sub : float -> float -> float := SFsub prec emax.
Definition mul : float -> float -> float := SFmul prec emax.
Definition div : float -> float -> float := SFdiv prec emax.
Definition abs : float -> float := SFabs.
Definition ltb : float -> float -> bool := SFltb.
Definition leb : float -> float -> bool := SFleb.

Definition zero : float := S754_zero false.

(** [float(n)] for an int [n] (PyLong_AsDouble): the nearest float, ties
    to even.  CPython raises OverflowError beyond the float range; the
    call sites below pass a [len()] or the literal 100, which are far
    inside it, and out there this function gives the rounded infinity. *)
Definition of_int (n : Z) : float := binary_normalize prec emax n 0 false.

(** [a / b] on two ints (long_true_divide): the correctly rounded
    quotient. *)
Definition int_truediv (a b : Z) : result float :=
  if b =? 0 then Raise ZeroDivisionError
  else if a =? 0 then Ok (S754_zero (b <? 0))
  else
    match div (S754_finite (a <? 0) (Z.to_pos (Z.abs a)) 0)
              (S754_finite (b <? 0) (Z.to_pos (Z.abs b)) 0) with
    | S754_infinity _ => Raise OverflowError
    | q => Ok q
    end.

(** Comparison of a float with an int is exact in Python
    (float_richcompare), not through a conversion of the int. *)
Definition compare_int (f : float) (n : Z) : option comparison :=
  match f with
  | S754_nan => None
  | S754_infinity s => Some (if s then Lt else Gt)
  | S754_zero _ => Some (0 ?= n)
  | S754_finite s m e =>
      let m' := cond_Zopp s (Zpos m) in
      Some (if 0 <=? e then (m' * 2 ^ e ?= n) else (m' ?= n * 2 ^ (- e)))
  end.


(** ... and CPython from 3.12 runs Neumaier's compensated summation and
    adds the compensation at the end when it is finite and not zero. *)
Fixpoint neumaier (f_result c : float) (l : list float) : float :=
  match l with
  | [] =>
      match c with
      | S754_finite _ _ _ => add f_result c
      | _ => f_result
      end
  | x :: l' =>
      let t := add f_result x in
      let c' :=
        if leb (abs x) (abs f_result)
        then add c (add (sub f_result t) x)
        else add c (add (sub x t) f_result) in
      neumaier t c' l'
  end.

Definition sum_neumaier (l : list float) : float :=
  match l with
  | [] => zero
  | x :: l' => neumaier (add zero x) zero l'
  end.

End Float64.

Abbreviation float := Float64.float.

(** ** Python numbers as a configuration file holds them *)

Inductive number :=
  | NInt (n : Z)
  | NFloat (f : float).

(** [x / d] for a number [x] and an int [d]. *)
Definition number_truediv_int (x : number) (d : Z) : result float :=
  match x with
  | NInt a => Float64.int_truediv a d
  | NFloat f =>
      if d =? 0 then Raise ZeroDivisionError
      else Ok (Float64.div f (Float64.of_int d))
  end.

(** [f > x] for a float [f] and a number [x]. *)
Definition float_gt_number (f : float) (x : number) : bool :=
  match x with
  | NInt n => match Float64.compare_int f n with Some Gt => true | _ => false end
  | NFloat g => Float64.ltb g f
  end.

(** ** Python's datetime (naive), after Lib/_pydatetime.py *)
Module Datetime.

Record datetime := mkdatetime {
  year : Z; month : Z; day : Z;
  hour : Z; minute : Z; second : Z; microsecond : Z
}.

Definition is_leap (y : Z) : bool :=
  (y mod 4 =? 0) && (negb (y mod 100 =? 0) || (y mod 400 =? 0)).

Definition days_before_year (y : Z) : Z :=
  let y := y - 1 in y * 365 + y / 4 - y / 100 + y / 400.

Definition DAYS_IN_MONTH : list Z :=
  [-1; 31; 28; 31; 30; 31; 30; 31; 31; 30; 31; 30; 31].

Definition DAYS_BEFORE_MONTH : list Z :=
  [-1; 0; 31; 59; 90; 120; 151; 181; 212; 243; 273; 304; 334].

Definition table (t : list Z) (i : Z) : Z := nth (Z.to_nat i) t 0.

Definition days_in_month (y m : Z) : Z :=
  if (m =? 2) && is_leap y then 29 else table DAYS_IN_MONTH m.

Definition days_before_month (y m : Z) : Z :=
  table DAYS_BEFORE_MONTH m + Z.b2z ((2 <? m) && is_leap y).

Definition ymd2ord (y m d : Z) : Z :=
  days_before_year y + days_before_month y m + d.

Definition DI400Y : Z := 146097.
Definition DI100Y : Z := 36524.
Definition DI4Y : Z := 1461.
Definition MAXORDINAL : Z := 3652059.

Definition ord2ymd (n : Z) : Z * Z * Z :=
  let n := n - 1 in
  let n400 := n / DI400Y in
  let n := n mod DI400Y in
  let year := n400 * 400 + 1 in
  let n100 := n / DI100Y in
  let n := n mod DI100Y in
  let n4 := n / DI4Y in
  let n := n mod DI4Y in
  let n1 := n / 365 in
  let n := n mod 365 in
  let year := year + (n100 * 100 + n4 * 4 + n1) in
  if (n1 =? 4) || (n100 =? 4) then (year - 1, 12, 31)
  else
    let leapyear := (n1 =? 3) && (negb (n4 =? 24) || (n100 =? 3)) in
    let month := Z.shiftr (n + 50) 5 in
    let preceding :=
      table DAYS_BEFORE_MONTH month + Z.b2z ((2 <? month) && leapyear) in
    if n <? preceding then
      let month := month - 1 in
      let preceding :=
        preceding
        - (table DAYS_IN_MONTH month + Z.b2z ((month =? 2) && leapyear)) in
      (year, month, n - preceding + 1)
    else (year, month, n - preceding + 1).

Definition toordinal (t : datetime) : Z := ymd2ord (year t) (month t) (day t).

(** Monday is 0, Sunday is 6. *)
Definition weekday (t : datetime) : Z := (toordinal t + 6) mod 7.

(** What the constructor of a datetime checks. *)
Definition valid (t : datetime) : bool :=
  (1 <=? year t) && (year t <=? 9999)
  && (1 <=? month t) && (month t <=? 12)
  && (1 <=? day t) && (day t <=? days_in_month (year t) (month t))
  && (0 <=? hour t) && (hour t <=? 23)
  && (0 <=? minute t) && (minute t <=? 59)
  && (0 <=? second t) && (second t <=? 59)
  && (0 <=? microsecond t) && (microsecond t <=? 999999).

(** [t.replace(minute=0, second=0, microsecond=0)] and
    [t.replace(hour=0, minute=0, second=0, microsecond=0)]. *)
Definition replace_minute_second_microsecond (t : datetime) : datetime :=
  mkdatetime (year t) (month t) (day t) (hour t) 0 0 0.

Definition replace_hour_minute_second_microsecond (t : datetime) : datetime :=
  mkdatetime (year t) (month t) (day t) 0 0 0 0.

(** A timedelta is a whole number of microseconds; its constructor
    normalises to days, seconds and microseconds and refuses more than
    999999999 days either way.  Only the keywords this repository
    passes are modelled. *)
Definition US_PER_DAY : Z := 86400 * 1000000.

Definition timedelta (weeks days hours : Z) : result Z :=
  let us := ((weeks * 7 + days) * 24 + hours) * 3600 * 1000000 in
  let d := us / US_PER_DAY in
  if (-999999999 <=? d) && (d <=? 999999999) then Ok us
  else Raise OverflowError.

(** [t - delta]: the date moves through its ordinal, and a result
    outside years 1..9999 is an OverflowError. *)
Definition sub_timedelta (t : datetime) (delta : Z) : result datetime :=
  let us :=
    toordinal t * US_PER_DAY
    + ((hour t * 3600 + minute t * 60 + second t) * 1000000 + microsecond t)
    - delta in
  let days := us / US_PER_DAY in
  let rest := us mod US_PER_DAY in
  let seconds := rest / 1000000 in
  if (0 <? days) && (days <=? MAXORDINAL) then
    let '(y, m, d) := ord2ymd days in
    Ok (mkdatetime y m d (seconds / 3600) (seconds mod 3600 / 60)
          (seconds mod 60) (rest mod 1000000))
  else Raise OverflowError.

(** Comparison of two datetimes is the comparison of their field
    tuples. *)
Definition fields (t : datetime) : list Z :=
  [year t; month t; day t; hour t; minute t; second t; microsecond t].

Fixpoint compare_fields (a b : list Z) : comparison :=
  match a, b with
  | x :: a', y :: b' =>
      match x ?= y with Eq => compare_fields a' b' | c => c end
  | [], [] => Eq
  | [], _ :: _ => Lt
  | _ :: _, [] => Gt
  end.

Definition compare (a b : datetime) : comparison :=
  compare_fields (fields a) (fields b).

Definition eqb (a b : datetime) : bool :=
  match compare a b with Eq => true | _ => false end.
Definition ltb (a b : datetime) : bool :=
  match compare a b with Lt => true | _ => false end.
Definition leb (a b : datetime) : bool :=
  match compare a b with Gt => false | _ => true end.

(** [isoformat()].  [zfill w n] is ["%0wd" % n] for [0 <= n < 10^w],
    which is where the fields of a datetime lie. *)
Definition digit (d : Z) : ascii := ascii_of_nat (48 + Z.to_nat d).

Fixpoint zfill (w : nat) (n : Z) : string :=
  match w with
  | O => EmptyString
  | S w' => String (digit ((n / 10 ^ Z.of_nat w') mod 10)) (zfill w' n)
  end.

Definition isoformat (t : datetime) : string :=
  (zfill 4 (year t) ++ "-" ++ zfill 2 (month t) ++ "-" ++ zfill 2 (day t)
   ++ "T" ++ zfill 2 (hour t) ++ ":" ++ zfill 2 (minute t)
   ++ ":" ++ zfill 2 (second t)
   ++ (if (microsecond t =? 0)%Z then "" else "." ++ zfill 6 (microsecond t)))%string.

End Datetime.

Abbreviation datetime := Datetime.datetime.

(** ** api/models.py *)

(** A row of the table monitor_records. *)
Record MonitorRecord := mkMonitorRecord {
  id : Z;
  monitor_name : string;
  timestamp : datetime;
  status_code : option Z;
  is_up : bool;
  response_time : option float
}.

(** ** Python values, dicts, and the built-ins the code calls *)

#[warnings="-register-all"]
Inductive pyval :=
  | VNone
  | VBool (b : bool)
  | VInt (n : Z)
  | VFloat (f : float)
  | VStr (s : string)
  | VList (l : list pyval)
  | VDict (d : gmap string pyval).

Definition of_number (x : number) : pyval :=
  match x with NInt n => VInt n | NFloat f => VFloat f end.

Definition of_option {A} (v : A -> pyval) (o : option A) : pyval :=
  match o with Some a => v a | None => VNone end.

(** [a > b] on two numbers; ints compare with floats exactly. *)
Definition number_gt (a b : number) : bool :=
  match a, b with
  | NInt x, NInt y => y <? x
  | NFloat f, _ => float_gt_number f b
  | NInt x, NFloat g =>
      match Float64.compare_int g x with Some Lt => true | _ => false end
  end.

(** [a * n] for a float [a] and an int [n]. *)
Definition float_mul_int (a : float) (n : Z) : float :=
  Float64.mul a (Float64.of_int n).

(** [a / n] for a float [a] and an int [n]. *)
Definition float_div_int (a : float) (n : Z) : result float :=
  if n =? 0 then Raise ZeroDivisionError
  else Ok (Float64.div a (Float64.of_int n)).

Definition len {A} (l : list A) : Z := Z.of_nat (length l).

(** [sum] over ints. *)
Definition sum_ints (l : list Z) : Z := fold_left Z.add l 0.

(** [d.get(key, default)]. *)
Definition dict_get {V} (d : gmap string V) (key : string) (dflt : V) : V :=
  default dflt (d !! key).

(** [d[key]]. *)
Definition dict_item {V} (d : gmap string V) (key : string) : result V :=
  match d !! key with Some v => Ok v | None => Raise (KeyError key) end.

(** [str] ordering, as [sorted] uses it. *)
Definition str_le (a b : string) : Prop := Is_true (String.leb a b).

#[global] Instance str_le_dec a b : Decision (str_le a b).
Proof. unfold str_le. apply _. Defined.

(** [sorted(d.keys())]: the keys of a dict are distinct, so the sorted
    list does not depend on the order the dict hands them out in. *)
Definition sorted_keys {V} (d : gmap string V) : list string :=
  merge_sort str_le (map_to_list d).*1.

(** ** api/utils.py *)

(** The value of [grouped[key]]. *)
Record group := mkgroup {
  g_timestamp : string;
  g_records : list MonitorRecord;
  g_start_time : datetime
}.

Section Aggregator.

(** The built-in [sum] on a list of floats: [Float64.sum_plain] or
    [Float64.sum_neumaier], by the version of CPython. *)
Variable sum : list float -> float.

Definition is_degraded (degraded_threshold : float) (r : MonitorRecord) : bool :=
  is_up r &&
  match response_time r with
  | Some t => Float64.ltb degraded_threshold t
  | None => false
  end.

Definition heartbeat_all (degraded_threshold : float) (r : MonitorRecord)
  : gmap string pyval :=
  let is_degraded := is_degraded degraded_threshold r in
  list_to_map
    [ ("timestamp", VStr (Datetime.isoformat (timestamp r)));
      ("is_up", VBool (is_up r));
      ("response_time", of_option VFloat (response_time r));
      ("status_code", of_option VInt (status_code r));
      ("count", VInt 1);
      ("avg_response_time", of_option VFloat (response_time r));
      ("degraded_count", VInt (if is_degraded then 1 else 0));
      ("down_count", VInt (if is_up r then 0 else 1)) ]%string.

(** Lines 57-65: the start of the bucket a timestamp falls in. *)
Definition bucket_start (interval : string) (t : datetime) : result datetime :=
  if String.eqb interval "hour" then
    Ok (Datetime.replace_minute_second_microsecond t)
  else if String.eqb interval "day" then
    Ok (Datetime.replace_hour_minute_second_microsecond t)
  else if String.eqb interval "week" then
    delta ← Datetime.timedelta 0 (Datetime.weekday t) 0;
    start ← Datetime.sub_timedelta t delta;
    Ok (Datetime.replace_hour_minute_second_microsecond start)
  else Ok t.

(** Lines 56-74: the body of the grouping loop. *)
Definition group_record (interval : string) (grouped : gmap string group)
    (r : MonitorRecord) : result (gmap string group) :=
  start ← bucket_start interval (timestamp r);
  let key := Datetime.isoformat start in
  let grouped :=
    match grouped !! key with
    | None => <[key := mkgroup key [] start]> grouped
    | Some _ => grouped
    end in
  Ok (alter (fun g => mkgroup (g_timestamp g) (g_records g ++ [r]) (g_start_time g))
        key grouped).

(** Lines 83-107: the statistics of the records [recs] of one group. *)
Definition up_count (recs : list MonitorRecord) : Z :=
  sum_ints (map (fun _ => 1) (List.filter is_up recs)).

Definition down_count (recs : list MonitorRecord) : Z :=
  len recs - up_count recs.

Definition response_times (recs : list MonitorRecord) : list float :=
  omap response_time recs.

Definition avg_response_time (recs : list MonitorRecord) : result (option float) :=
  match response_times recs with
  | [] => Ok None
  | rts => a ← float_div_int (sum rts) (len rts); Ok (Some a)
  end.

Definition degraded_count (degraded_threshold : float)
    (recs : list MonitorRecord) : Z :=
  sum_ints (map (fun _ => 1) (List.filter (is_degraded degraded_threshold) recs)).

Definition issue_percentage (degraded_threshold : float)
    (recs : list MonitorRecord) : result number :=
  let total_issues := down_count recs + degraded_count degraded_threshold recs in
  match recs with
  | [] => Ok (NInt 0)
  | _ => q ← Float64.int_truediv total_issues (len recs);
         Ok (NFloat (float_mul_int q 100))
  end.

Definition status_of (down_count : Z) (issue_percentage : number)
    (degraded_percentage_threshold : number) : string :=
  if 0 <? down_count then "down"
  else if number_gt issue_percentage degraded_percentage_threshold then "degraded"
  else "up".

(** Lines 81-121: the node of one group. *)
Definition heartbeat_node (degraded_threshold : float)
    (degraded_percentage_threshold : number) (key : string)
    (recs : list MonitorRecord) : result (gmap string pyval) :=
  avg_response_time ← avg_response_time recs;
  issue_percentage ← issue_percentage degraded_threshold recs;
  let status :=
    status_of (down_count recs) issue_percentage degraded_percentage_threshold in
  Ok (list_to_map
    [ ("timestamp", VStr key);
      ("is_up", VBool (String.eqb status "up"));
      ("status", VStr status);
      ("response_time", of_option VFloat avg_response_time);
      ("count", VInt (len recs));
      ("avg_response_time", of_option VFloat avg_response_time);
      ("degraded_count", VInt (degraded_count degraded_threshold recs));
      ("down_count", VInt (down_count recs));
      ("issue_percentage", of_number issue_percentage) ])%string.

(** The dict [interval_mapping] and [delta] of lines 47-53 are never read
    again and are left out. *)
Definition aggregate_heartbeat_data (records : list MonitorRecord)
    (interval : string) (app_config : gmap string number)
  : result (list (gmap string pyval)) :=
  match records with
  | [] => Ok []
  | _ =>
    if String.eqb interval "all" then
      degraded_threshold ←
        number_truediv_int (dict_get app_config "degraded_threshold" (NInt 200)) 1000;
      for_each (fun aggregated r =>
                  Ok (aggregated ++ [heartbeat_all degraded_threshold r]))
        [] records
    else
      grouped ← for_each (group_record interval) ∅ records;
      degraded_threshold ←
        number_truediv_int (dict_get app_config "degraded_threshold" (NInt 200)) 1000;
      let degraded_percentage_threshold :=
        dict_get app_config "degraded_percentage_threshold" (NInt 10) in
      for_each (fun aggregated key =>
                  group ← dict_item grouped key;
                  node ← heartbeat_node degraded_threshold
                           degraded_percentage_threshold key (g_records group);
                  Ok (aggregated ++ [node]))
        [] (sorted_keys grouped)
  end.

End Aggregator.

(** *** The buckets of a list of records

    The grouping loop files a record under the isoformat of its bucket
    start.  These three definitions name, for the statements below, the
    bucket start of a timestamp (where [bucket_start] returns one), the key
    of a record, and the records of a list that share a key, in the order
    of the list. *)

Definition bucket_of (interval : string) (t : datetime) : datetime :=
  match bucket_start interval t with
  | Ok start => start
  | Raise _ => t
  end.

Definition bucket_key (interval : string) (r : MonitorRecord) : string :=
  Datetime.isoformat (bucket_of interval (timestamp r)).

Definition members (interval : string) (records : list MonitorRecord)
    (key : string) : list MonitorRecord :=
  List.filter (fun r => String.eqb (bucket_key interval r) key) records.


(** What the statements below assume of the input: every timestamp is a
    datetime that Python can hold. *)
Definition timestamps_valid (records : list MonitorRecord) : Prop :=
  Forall (fun r => Datetime.valid (timestamp r) = true) records.

Definition bucketed (interval : string) : Prop :=
  interval = "hour"%string \/ interval = "day"%string \/ interval = "week"%string.

Definition unknown_interval (interval : string) : Prop :=
  interval <> "all"%string /\ interval <> "hour"%string /\
  interval <> "day"%string /\ interval <> "week"%string.

(** The strict orders of strings and of datetimes. *)
Definition str_lt (a b : string) : Prop := String.compare a b = Lt.
Definition dt_lt (a b : datetime) : Prop := Datetime.ltb a b = true.

(** ** api/status.py *)

(** An entry of [monitors_config] is a dict.  The configuration of the
    specification, [MonitorConfig{name: string, url: string}], is the dict
    with these two keys. *)
Record MonitorConfig := mkMonitorConfig {
  name : string;
  url : string
}.

Definition config_dict (monitor : MonitorConfig) : gmap string pyval :=
  list_to_map [ ("name", VStr (name monitor)); ("url", VStr (url monitor)) ]%string.

Inductive ordering := Ascending | Descending.

(** A database session, as far as the two endpoints use one:
    [db.query(MonitorRecord).filter(MonitorRecord.monitor_name == name,
    MonitorRecord.timestamp >= cutoff).order_by(...).all()], where [name]
    is whatever Python value the caller compares the column with. *)
Record Session := mkSession {
  query_records : pyval -> datetime -> ordering -> list MonitorRecord
}.

Definition matches (monitor : string) (cutoff_time : datetime) (r : MonitorRecord)
  : bool :=
  String.eqb (monitor_name r) monitor && Datetime.leb cutoff_time (timestamp r).

Definition in_order (o : ordering) (a b : MonitorRecord) : Prop :=
  match o with
  | Ascending => Is_true (Datetime.leb (timestamp a) (timestamp b))
  | Descending => Is_true (Datetime.leb (timestamp b) (timestamp a))
  end.

#[global] Instance in_order_dec o a b : Decision (in_order o a b).
Proof. destruct o; simpl; apply _. Defined.

(** What a session over the rows [table] answers when it is asked for a
    name that is a str: the rows the filter keeps, each once, in an order
    that ORDER BY allows (rows with the same timestamp come in any
    order).  What it answers for a value that is not a str is left
    open. *)
Definition answers (table : list MonitorRecord) (db : Session) : Prop :=
  forall (monitor : string) cutoff_time o,
    query_records db (VStr monitor) cutoff_time o
      ≡ₚ List.filter (matches monitor cutoff_time) table
    /\ Sorted (in_order o) (query_records db (VStr monitor) cutoff_time o).

(** One such session: filter, then sort with a stable merge sort; for a
    value that is not a str it finds no row. *)
Definition table_session (table : list MonitorRecord) : Session :=
  mkSession (fun monitor cutoff_time o =>
    match monitor with
    | VStr monitor =>
        merge_sort (in_order o) (List.filter (matches monitor cutoff_time) table)
    | _ => []
    end).

(** [datetime.now() - timedelta(hours=hours)], given what the clock says. *)
Definition cutoff (now : datetime) (hours : Z) : result datetime :=
  delta ← Datetime.timedelta 0 0 hours;
  Datetime.sub_timedelta now delta.

(** The dict built for a record in both endpoints. *)
Definition status_record (r : MonitorRecord) : pyval :=
  VDict (list_to_map
    [ ("timestamp", VStr (Datetime.isoformat (timestamp r)));
      ("status_code", of_option VInt (status_code r));
      ("is_up", VBool (is_up r));
      ("response_time", of_option VFloat (response_time r)) ]%string).

(** [records[-1]], guarded by [if records]. *)
Definition latest_of (records : list MonitorRecord) : option MonitorRecord :=
  last records.

(** [monitor_name] is a path parameter, a str. *)
Definition get_monitor_status (db : Session) (now : datetime)
    (monitor : string) (hours : Z) : result (gmap string pyval) :=
  cutoff_time ← cutoff now hours;
  let records := query_records db (VStr monitor) cutoff_time Descending in
  match records with
  | [] => Raise (HTTPException 404 ("Monitor '" ++ monitor ++ "' not found"))
  | _ =>
      Ok (list_to_map
        [ ("monitor_name", VStr monitor);
          ("records", VList (map status_record records)) ]%string)
  end.

(** The dict under "current_status": each entry is
    [latest.field if latest else None]. *)
Definition current_status (latest : option MonitorRecord) : pyval :=
  VDict (list_to_map
    [ ("is_up",
        match latest with Some l => VBool (is_up l) | None => VNone end);
      ("status_code",
        match latest with Some l => of_option VInt (status_code l) | None => VNone end);
      ("response_time",
        match latest with Some l => of_option VFloat (response_time l) | None => VNone end);
      ("timestamp",
        match latest with
        | Some l => VStr (Datetime.isoformat (timestamp l))
        | None => VNone
        end) ]%string).

(** The body of the loop over [monitors_config], in the order Python
    evaluates it: [monitor["name"]] for the filter of the query, then
    [monitor["name"]] and [monitor["url"]] for the dict.  A missing key is
    a KeyError. *)
Definition monitor_data (db : Session) (cutoff_time : datetime)
    (monitor : gmap string pyval) : result pyval :=
  queried ← dict_item monitor "name";
  let records := query_records db queried cutoff_time Ascending in
  let latest := latest_of records in
  name ← dict_item monitor "name";
  url ← dict_item monitor "url";
  Ok (VDict (list_to_map
    [ ("name", name);
      ("url", url);
      ("current_status", current_status latest);
      ("history", VList (map status_record records)) ]%string)).

(** [now] is the clock at the first call of [datetime.now()] and [now']
    at the second. *)
Definition get_all_status (monitors_config : list (gmap string pyval)) (db : Session)
    (now now' : datetime) (hours : Z) : result (gmap string pyval) :=
  cutoff_time ← cutoff now hours;
  monitors_status ←
    for_each (fun monitors_status monitor =>
                entry ← monitor_data db cutoff_time monitor;
                Ok (monitors_status ++ [entry]))
      [] monitors_config;
  Ok (list_to_map
    [ ("timestamp", VStr (Datetime.isoformat now'));
      ("monitors", VList monitors_status) ]%string).

(** ** api/monitors.py *)

(** [monitors_config] as the configuration file gives it, a list of dicts,
    and the list comprehension
    [[{"name": m["name"]} for m in monitors_config]]. *)
Definition get_monitors (monitors_config : list (gmap string pyval))
  : result (list (gmap string pyval)) :=
  for_each (fun monitors m =>
              name ← dict_item m "name";
              Ok (monitors ++ [ {[ "name"%string := name ]} ]))
    [] monitors_config.

(** ** api/models.py: the response models

    A pydantic model is a list of fields, each with its annotation and
    whether it is required ([Field(...)]) or defaults to None
    ([Field(None, ...)]). *)

#[warnings="-register-all"]
Inductive annotation :=
  | TStr
  | TBool
  | TInt
  | TFloat
  | TDict
  | TOptional (t : annotation)
  | TList (t : annotation)
  | TModel (fields : list (string * annotation * bool)).

Definition MonitorInfo : annotation :=
  TModel [ ("name", TStr, true) ]%string.

Definition StatusRecord : annotation :=
  TModel [ ("timestamp", TStr, true);
           ("is_up", TBool, true);
           ("status_code", TOptional TInt, false);
           ("response_time", TOptional TFloat, false) ]%string.

Definition CurrentStatus : annotation :=
  TModel [ ("is_up", TOptional TBool, false);
           ("status_code", TOptional TInt, false);
           ("response_time", TOptional TFloat, false);
           ("timestamp", TOptional TStr, false) ]%string.

Definition MonitorStatusDetail : annotation :=
  TModel [ ("name", TStr, true);
           ("current_status", CurrentStatus, true);
           ("history", TList StatusRecord, true) ]%string.

Definition AllStatusResponse : annotation :=
  TModel [ ("timestamp", TStr, true);
           ("monitors", TList MonitorStatusDetail, true) ]%string.

Definition HealthResponse : annotation :=
  TModel [ ("status", TStr, true) ]%string.

Definition ConfigResponse : annotation :=
  TModel [ ("configuration", TDict, true) ]%string.

(** A value that is what the annotation says, without any conversion: a
    str for [str], None or a [t] for [Optional[t]], and for a model a dict
    that holds every required field and, under each field name it holds, a
    value of the field's annotation.  Keys that the model does not declare
    are not looked at (pydantic's default, extra = 'ignore').  pydantic
    validates such a value unchanged; what else it would accept by
    conversion is not modelled. *)
Fixpoint instance_of (t : annotation) (v : pyval) {struct t} : bool :=
  match t, v with
  | TStr, VStr _ => true
  | TBool, VBool _ => true
  | TInt, VInt _ => true
  | TFloat, VFloat _ => true
  | TDict, VDict _ => true
  | TOptional _, VNone => true
  | TOptional t', _ => instance_of t' v
  | TList t', VList l => forallb (instance_of t') l
  | TModel fields, VDict d =>
      forallb (fun f : string * annotation * bool =>
                 match f with
                 | (key, t', required) =>
                     match d !! key with
                     | Some v' => instance_of t' v'
                     | None => negb required
                     end
                 end) fields
  | _, _ => false
  end.

(** ** Definitions that only the statements and proofs below use *)

(** A date that a datetime can hold. *)
Definition valid_date (y m d : Z) : Prop :=
  1 <= y <= 9999 /\ 1 <= m <= 12 /\ 1 <= d <= Datetime.days_in_month y m.

(** The invariant of the grouping loop: after the records [records] the
    dict holds, under each key, the records of that key in their order. *)
Definition grouped_as (interval : string) (records : list MonitorRecord)
    (grouped : gmap string group) : Prop :=
  forall key,
    grouped !! key =
    match members interval records key with
    | [] => None
    | (r :: _) as ms => Some (mkgroup key ms (bucket_of interval (timestamp r)))
    end.

(** The current_status of a monitor without records. *)
Definition unknown_status : pyval :=
  VDict (list_to_map
    [ ("is_up", VNone); ("status_code", VNone);
      ("response_time", VNone); ("timestamp", VNone) ]%string).

(** One field of every node of a result, to look at. *)
Definition field (key : string) (out : result (list (gmap string pyval)))
  : result (list (option pyval)) :=
  match out with
  | Ok nodes => Ok (map (fun node : gmap string pyval => node !! key) nodes)
  | Raise e => Raise e
  end.

(** *** Inputs for the examples

    The default configuration, its threshold 200 / 1000, and a few records
    of one monitor on Tuesday 2026-11-03. *)

Definition default_config : gmap string number := ∅.

Definition threshold_200ms : float := S754_finite false 7205759403792794 (-55).

Definition record_at (minute : Z) (t : float) : MonitorRecord :=
  mkMonitorRecord 0 "api" (Datetime.mkdatetime 2026 11 3 9 minute 0 0)
    (Some 200) true (Some t).

(** 0.1 s at 09:00 and at 09:30, and a failure at 10:05. *)
Definition scenario_records : list MonitorRecord :=
  [ record_at 0 (S754_finite false 7205759403792794 (-56));
    record_at 30 (S754_finite false 7205759403792794 (-56));
    mkMonitorRecord 0 "api" (Datetime.mkdatetime 2026 11 3 10 5 0 0) None false None ].

(** Ten checks that are up, two of them at 0.3 s, eight at 0.05 s. *)
Definition slow_records : list MonitorRecord :=
  [ record_at 0 (S754_finite false 5404319552844595 (-54));
    record_at 1 (S754_finite false 5404319552844595 (-54));
    record_at 2 (S754_finite false 7205759403792794 (-57));
    record_at 3 (S754_finite false 7205759403792794 (-57));
    record_at 4 (S754_finite false 7205759403792794 (-57));
    record_at 5 (S754_finite false 7205759403792794 (-57));
    record_at 6 (S754_finite false 7205759403792794 (-57));
    record_at 7 (S754_finite false 7205759403792794 (-57));
    record_at 8 (S754_finite false 7205759403792794 (-57));
    record_at 9 (S754_finite false 7205759403792794 (-57)) ].



(** Two configured monitors, of which only "api" has rows. *)
Definition two_monitors : list MonitorConfig :=
  [ mkMonitorConfig "api" "https://api.example.org/health";
    mkMonitorConfig "web" "https://www.example.org/" ].

Definition noon : datetime := Datetime.mkdatetime 2026 11 3 12 0 0 0.
Definition noon_the_day_before : datetime := Datetime.mkdatetime 2026 11 2 12 0 0 0.

(** *** Instants, valid numbers and percentages *)

(** A datetime as microseconds since the start of day 0 of the proleptic
    calendar. *)
Definition instant (t : datetime) : Z :=
  Datetime.toordinal t * Datetime.US_PER_DAY
  + ((Datetime.hour t * 3600 + Datetime.minute t * 60 + Datetime.second t) * 1000000
     + Datetime.microsecond t).

(** A number that Python can hold: any int, and a float that is a
    binary64 value (the mantissa of a [spec_float] is otherwise free). *)
Definition number_valid (x : number) : bool :=
  match x with
  | NInt _ => true
  | NFloat f => valid_binary Float64.prec Float64.emax f
  end.

(** A float from 0.0 to 100.0, as a binary64 mantissa and exponent. *)
Definition percentage (p : float) : Prop :=
  p = S754_zero false \/
  exists m e,
    p = S754_finite false m e /\ e <= 0 /\ Z.pos m <= 100 * 2 ^ (- e) /\
    fexp Float64.prec Float64.emax (Z.pos (digits2_pos m) + e) = e.

(** The int that the node of [out] with the timestamp [key] holds under
    [name], and 0 when [out] has no such node. *)
Definition int_at (name key : string) (out : list (gmap string pyval)) : Z :=
  match List.find (fun node : gmap string pyval =>
                     match node !! "timestamp"%string with
                     | Some (VStr k) => String.eqb k key
                     | _ => false
                     end) out with
  | Some node => match node !! name with Some (VInt n) => n | _ => 0 end
  | None => 0
  end.

(** *** More inputs for the examples

    A configuration under which nothing is degraded, one under which
    nothing is up, and what [get_all_status] answers at [noon] for
    [two_monitors] over [scenario_records], 24 hours back. *)

Definition lenient_config : gmap string number :=
  {[ "degraded_percentage_threshold"%string := NInt 100 ]}.

Definition strict_config : gmap string number :=
  {[ "degraded_percentage_threshold"%string := NInt (-1) ]}.

Definition scenario_status : gmap string pyval :=
  match get_all_status (map config_dict two_monitors) (table_session scenario_records)
          noon noon 24 with
  | Ok response => response
  | Raise _ => ∅
  end.

(** * Proofs *)

(** ** Floats: rounding stays below a representable bound *)

Lemma fexp_eq e : fexp Float64.prec Float64.emax e = Z.max (e - 53) (-1074).
Proof. reflexivity. Qed.

Lemma iter_pos_iter {A} (f : A -> A) p x : SpecFloat.iter_pos f p x = Pos.iter f x p.
Proof.
  revert x. induction p as [p IH|p IH|]; intros x; simpl.
  - rewrite !IH. rewrite <- Pos.iter_swap. f_equal. now rewrite <- Pos.iter_swap.
  - now rewrite !IH.
  - reflexivity.
Qed.

Lemma shr_1_m mrs : 0 <= shr_m mrs -> shr_m (shr_1 mrs) = shr_m mrs / 2.
Proof.
  destruct mrs as [m r s]. simpl. intros Hm.
  destruct m as [|p|p]; [reflexivity| |lia].
  destruct p as [p|p|]; simpl shr_m.
  - rewrite Pos2Z.inj_xI. apply Z.div_unique with 1; lia.
  - rewrite Pos2Z.inj_xO. apply Z.div_unique with 0; lia.
  - reflexivity.
Qed.

Lemma shr_1_exact mrs :
  0 <= shr_m mrs -> shr_r mrs = false -> shr_s mrs = false ->
  shr_m mrs mod 2 = 0 ->
  shr_r (shr_1 mrs) = false /\ shr_s (shr_1 mrs) = false.
Proof.
  destruct mrs as [m r s]. simpl. intros Hm -> ->.
  destruct m as [|p|p]; [now auto| |lia].
  destruct p as [p|p|]; simpl; intros H; auto.
  - rewrite Pos2Z.inj_xI in H. 
    replace (2 * Z.pos p + 1) with (1 + Z.pos p * 2) in H by lia.
    rewrite Z.mod_add in H by lia. discriminate.
  - discriminate.
Qed.

Lemma iter_shr_m p mrs :
  0 <= shr_m mrs ->
  shr_m (Pos.iter shr_1 mrs p) = shr_m mrs / 2 ^ Z.pos p.
Proof.
  intros Hm. induction p as [|p IH] using Pos.peano_ind.
  - simpl. rewrite shr_1_m by assumption. reflexivity.
  - rewrite Pos.iter_succ, shr_1_m.
    + rewrite IH, Pos2Z.inj_succ, Z.pow_succ_r by lia.
      rewrite Z.div_div by lia. f_equal. lia.
    + rewrite IH. apply Z.div_pos; lia.
Qed.

Lemma iter_shr_exact p mrs :
  0 <= shr_m mrs -> shr_r mrs = false -> shr_s mrs = false ->
  shr_m mrs mod 2 ^ Z.pos p = 0 ->
  shr_r (Pos.iter shr_1 mrs p) = false /\ shr_s (Pos.iter shr_1 mrs p) = false.
Proof.
  intros Hm Hr Hs. induction p as [|p IH] using Pos.peano_ind; intros Hmod.
  - simpl. apply shr_1_exact; auto.
  - rewrite Pos.iter_succ.
    rewrite Pos2Z.inj_succ, Z.pow_succ_r in Hmod by lia.
    assert (H2p : 0 < 2 ^ Z.pos p) by (apply Z.pow_pos_nonneg; lia).
    assert (Hp : shr_m mrs mod 2 ^ Z.pos p = 0).
    { apply Z.mod_divide in Hmod; [|lia]. apply Z.mod_divide; [lia|].
      destruct Hmod as [q Hq]. exists (q * 2). lia. }
    destruct (IH Hp) as [Hr' Hs'].
    apply shr_1_exact; auto.
    + rewrite iter_shr_m by assumption. apply Z.div_pos; lia.
    + rewrite iter_shr_m by assumption.
      apply Z.mod_divide in Hmod; [|lia]. destruct Hmod as [q Hq].
      rewrite Hq. replace (q * (2 * 2 ^ Z.pos p)) with (q * 2 * 2 ^ Z.pos p) by lia.
      rewrite Z.div_mul by lia. apply Z.mod_mul. lia.
Qed.

(** digits *)
Lemma digits2_size p : digits2_pos p = Pos.size p.
Proof. induction p; simpl; congruence. Qed.

Lemma Zdigits2_nonneg m : 0 <= Zdigits2 m.
Proof. destruct m; simpl; lia. Qed.

Lemma Zdigits2_bounds m : 0 < m -> 2 ^ (Zdigits2 m - 1) <= m < 2 ^ Zdigits2 m.
Proof.
  destruct m as [|p|p]; try lia. intros _.
  change (Zdigits2 (Z.pos p)) with (Z.pos (digits2_pos p)). rewrite digits2_size.
  assert (Hle : 2 ^ Z.pos (Pos.size p) <= 2 * Z.pos p).
  { pose proof (Pos.size_le p) as H. apply Pos2Z.pos_le_pos in H.
    rewrite Pos2Z.inj_pow in H. exact H. }
  assert (Hgt : Z.pos p < 2 ^ Z.pos (Pos.size p)).
  { pose proof (Pos.size_gt p) as H. apply Pos2Z.pos_lt_pos in H.
    rewrite Pos2Z.inj_pow in H. exact H. }
  split; [|exact Hgt].
  replace (Z.pos (Pos.size p)) with (Z.succ (Z.pos (Pos.size p) - 1)) in Hle by lia.
  rewrite Z.pow_succ_r in Hle by lia. lia.
Qed.

Lemma Zdigits2_le_of_lt m k : 0 <= m -> 0 <= k -> m < 2 ^ k -> Zdigits2 m <= k.
Proof.
  intros Hm Hk Hlt. destruct (Z.eq_dec m 0) as [->|Hne]; [simpl; lia|].
  destruct (Zdigits2_bounds m) as [Hlo _]; [lia|].
  assert (2 ^ (Zdigits2 m - 1) < 2 ^ k) by lia.
  apply Z.pow_lt_mono_r_iff in H; lia.
Qed.

Lemma Zdigits2_ge_of_le m k : 2 ^ (k - 1) <= m -> 1 <= k -> k <= Zdigits2 m.
Proof.
  intros Hle Hk.
  assert (0 < 2 ^ (k - 1)) by (apply Z.pow_pos_nonneg; lia).
  destruct (Zdigits2_bounds m) as [_ Hhi]; [lia|].
  assert (2 ^ (k - 1) < 2 ^ Zdigits2 m) by lia.
  apply Z.pow_lt_mono_r_iff in H0; [lia|lia|apply Zdigits2_nonneg].
Qed.

Lemma Zdigits2_mono a b : 0 <= a <= b -> Zdigits2 a <= Zdigits2 b.
Proof.
  intros [Ha Hab]. destruct (Z.eq_dec b 0) as [->|Hb].
  - replace a with 0 by lia. lia.
  - apply Zdigits2_le_of_lt; [lia|apply Zdigits2_nonneg|].
    destruct (Zdigits2_bounds b); lia.
Qed.

(** shr_fexp *)
Lemma shr_fexp_spec m e l :
  0 <= m ->
  let n := Z.max 0 (fexp Float64.prec Float64.emax (Zdigits2 m + e) - e) in
  let '(mrs, e') := shr_fexp Float64.prec Float64.emax m e l in
  e' = e + n /\ shr_m mrs = m / 2 ^ n /\
  (l = loc_Exact -> m mod 2 ^ n = 0 -> loc_of_shr_record mrs = loc_Exact).
Proof.
  intros Hm n. unfold shr_fexp, shr. subst n.
  destruct (fexp Float64.prec Float64.emax (Zdigits2 m + e) - e) as [|p|p] eqn:Hn.
  - simpl. rewrite Z.div_1_r, Z.add_0_r. repeat split.
    + destruct l as [|[]]; reflexivity.
    + intros ->. reflexivity.
  - rewrite iter_pos_iter.
    replace (Z.max 0 (Z.pos p)) with (Z.pos p) by lia.
    assert (Hm' : 0 <= shr_m (shr_record_of_loc m l)) by (destruct l as [|[]]; exact Hm).
    assert (Hmm : shr_m (shr_record_of_loc m l) = m) by (destruct l as [|[]]; reflexivity).
    repeat split.
    + rewrite iter_shr_m by exact Hm'. now rewrite Hmm.
    + intros -> Hmod.
      destruct (iter_shr_exact p (shr_record_of_loc m loc_Exact)) as [Hr Hs]; auto.
      destruct (Pos.iter shr_1 (shr_record_of_loc m loc_Exact) p) as [m' r' s'].
      simpl in Hr, Hs. subst. reflexivity.
  - replace (Z.max 0 (Z.neg p)) with 0 by lia.
    simpl. rewrite Z.div_1_r, Z.add_0_r. repeat split.
    + destruct l as [|[]]; reflexivity.
    + intros ->. reflexivity.
Qed.

Lemma round_nearest_even_bounds m l :
  m <= round_nearest_even m l <= m + 1 /\ (l = loc_Exact -> round_nearest_even m l = m).
Proof.
  destruct l as [|[]]; simpl; try destruct (Z.even m); split; try lia; auto; discriminate.
Qed.

Lemma pow2_pos k : 0 <= k -> 0 < 2 ^ k.
Proof. intros. apply Z.pow_pos_nonneg; lia. Qed.

Lemma fexp_mono a b : a <= b -> fexp Float64.prec Float64.emax a <= fexp Float64.prec Float64.emax b.
Proof. rewrite !fexp_eq. lia. Qed.

Lemma Zdigits2_le_scaled m mb k :
  0 <= m -> 0 < mb -> 0 <= k -> m <= mb * 2 ^ k -> Zdigits2 m <= Zdigits2 mb + k.
Proof.
  intros Hm Hmb Hk Hle.
  pose proof (Zdigits2_nonneg mb).
  apply Zdigits2_le_of_lt; [lia|lia|].
  destruct (Zdigits2_bounds mb Hmb) as [_ Hhi].
  rewrite Z.pow_add_r by lia.
  pose proof (pow2_pos k Hk). nia.
Qed.

Lemma Zdigits2_shifted m n :
  0 <= n -> 0 < m / 2 ^ n -> Zdigits2 (m / 2 ^ n) = Zdigits2 m - n.
Proof.
  intros Hn Hq.
  pose proof (pow2_pos n Hn) as Hp.
  assert (Hm : 0 < m).
  { destruct (Z.le_gt_cases m 0) as [H|H]; [|exact H].
    assert (m / 2 ^ n <= 0) by (apply Z.div_le_upper_bound; lia). lia. }
  destruct (Zdigits2_bounds m Hm) as [Hlo Hhi].
  assert (Hge : 2 ^ n <= m).
  { destruct (Z.le_gt_cases (2 ^ n) m) as [H|H]; [exact H|].
    rewrite Z.div_small in Hq by lia. lia. }
  assert (Hdn : n < Zdigits2 m).
  { assert (2 ^ n < 2 ^ Zdigits2 m) by lia.
    apply Z.pow_lt_mono_r_iff in H; [lia|lia|apply Zdigits2_nonneg]. }
  apply Z.le_antisymm.
  - apply Zdigits2_le_of_lt; [lia|lia|].
    apply Z.div_lt_upper_bound; [lia|].
    rewrite <- Z.pow_add_r by lia. replace (n + (Zdigits2 m - n)) with (Zdigits2 m) by lia.
    exact Hhi.
  - apply Zdigits2_ge_of_le; [|lia].
    apply Z.div_le_lower_bound; [lia|].
    rewrite <- Z.pow_add_r by lia. replace (n + (Zdigits2 m - n - 1)) with (Zdigits2 m - 1) by lia.
    exact Hlo.
Qed.

Lemma binary_round_aux_bound sx mx ex lx mb eb :
  0 <= mx -> 0 < mb -> ex <= eb -> eb <= 971 ->
  fexp Float64.prec Float64.emax (Zdigits2 mb + eb) <= eb ->
  ex <= fexp Float64.prec Float64.emax (Zdigits2 mx + ex) ->
  mx <= mb * 2 ^ (eb - ex) ->
  (mx = mb * 2 ^ (eb - ex) -> lx = loc_Exact) ->
  binary_round_aux Float64.prec Float64.emax sx mx ex lx = S754_zero sx \/
  exists m e,
    binary_round_aux Float64.prec Float64.emax sx mx ex lx = S754_finite sx m e /\
    e <= eb /\ Z.pos m <= mb * 2 ^ (eb - e) /\
    fexp Float64.prec Float64.emax (Z.pos (digits2_pos m) + e) = e.
Proof.
  intros Hmx Hmb Hex Heb Hrepr Hprec Hle Hexact.
  unfold binary_round_aux.
  pose proof (shr_fexp_spec mx ex lx Hmx) as H1. cbv zeta in H1.
  destruct (shr_fexp Float64.prec Float64.emax mx ex lx) as [mrs1 e1].
  destruct H1 as (He1 & Hm1 & Hloc1).
  set (n1 := fexp Float64.prec Float64.emax (Zdigits2 mx + ex) - ex) in *.
  assert (Hn1 : 0 <= n1) by (unfold n1; lia).
  replace (Z.max 0 n1) with n1 in * by lia.
  assert (He1' : e1 = fexp Float64.prec Float64.emax (Zdigits2 mx + ex)) by (unfold n1 in He1; lia).
  pose proof (pow2_pos n1 Hn1) as Hp1.
  (* the bound survives the first shift *)
  assert (HA : Zdigits2 mx + ex <= Zdigits2 mb + eb).
  { pose proof (Zdigits2_le_scaled mx mb (eb - ex)). lia. }
  assert (He1b : e1 <= eb).
  { rewrite He1'. etransitivity; [apply fexp_mono, HA|exact Hrepr]. }
  assert (Hsplit : 2 ^ (eb - ex) = 2 ^ (eb - e1) * 2 ^ n1).
  { rewrite <- Z.pow_add_r by lia. f_equal. lia. }
  pose proof (pow2_pos (eb - e1) ltac:(lia)) as Hpc.
  set (m1 := shr_m mrs1) in *.
  assert (Hm1nn : 0 <= m1) by (rewrite Hm1; apply Z.div_pos; lia).
  assert (Hm1le : m1 <= mb * 2 ^ (eb - e1)).
  { rewrite Hm1. apply Z.div_le_upper_bound; [lia|]. rewrite Hsplit in Hle. lia. }
  pose proof (round_nearest_even_bounds m1 (loc_of_shr_record mrs1)) as [Hm2 Hm2e].
  set (m2 := round_nearest_even m1 (loc_of_shr_record mrs1)) in *.
  assert (Hm2le : m2 <= mb * 2 ^ (eb - e1)).
  { destruct (Z.eq_dec m1 (mb * 2 ^ (eb - e1))) as [Heq|Hne]; [|lia].
    assert (Hmxeq : mx = mb * 2 ^ (eb - ex)).
    { apply Z.le_antisymm; [exact Hle|].
      rewrite Hsplit, Z.mul_assoc, <- Heq, Hm1.
      rewrite Z.mul_comm. apply Z.mul_div_le. lia. }
    rewrite Hm2e; [lia|]. apply Hloc1; [auto|].
    rewrite Hmxeq, Hsplit, Z.mul_assoc. apply Z.mod_mul. lia. }
  assert (Hm2nn : 0 <= m2) by lia.
  (* canonical after the first shift *)
  assert (HC : e1 <= fexp Float64.prec Float64.emax (Zdigits2 m2 + e1)).
  { destruct (Z.eq_dec n1 0) as [Hz|Hnz].
    - assert (m1 = mx) by (rewrite Hm1, Hz; apply Z.div_1_r).
      assert (He1x : e1 = ex) by lia. rewrite He1x.
      etransitivity; [exact Hprec|]. apply fexp_mono.
      pose proof (Zdigits2_mono mx m2). lia.
    - rewrite He1' at 1. apply fexp_mono.
      destruct (Z.eq_dec m1 0) as [Hm10|Hm10].
      + (* everything was shifted out: the exponent is the least one *)
        assert (Hlt : mx < 2 ^ n1).
        { destruct (Z.le_gt_cases (2 ^ n1) mx) as [H|H]; [|exact H].
          assert (1 <= mx / 2 ^ n1) by (apply Z.div_le_lower_bound; lia). lia. }
        pose proof (Zdigits2_le_of_lt mx n1 Hmx Hn1 Hlt).
        pose proof (Zdigits2_nonneg m2).
        unfold n1 in *. rewrite fexp_eq in *. lia.
      + assert (Zdigits2 m1 = Zdigits2 mx - n1).
        { rewrite Hm1. apply Zdigits2_shifted; lia. }
        pose proof (Zdigits2_mono m1 m2). lia. }
  pose proof (shr_fexp_spec m2 e1 loc_Exact Hm2nn) as H2. cbv zeta in H2.
  destruct (shr_fexp Float64.prec Float64.emax m2 e1 loc_Exact) as [mrs2 e3].
  destruct H2 as (He3 & Hm3 & _).
  set (n2 := fexp Float64.prec Float64.emax (Zdigits2 m2 + e1) - e1) in *.
  assert (Hn2 : 0 <= n2) by (unfold n2; lia).
  replace (Z.max 0 n2) with n2 in * by lia.
  assert (He3' : e3 = fexp Float64.prec Float64.emax (Zdigits2 m2 + e1)) by (unfold n2 in He3; lia).
  pose proof (pow2_pos n2 Hn2) as Hp2.
  assert (HD : e3 <= eb).
  { rewrite He3'. etransitivity; [|exact Hrepr]. apply fexp_mono.
    pose proof (Zdigits2_le_scaled m2 mb (eb - e1)). lia. }
  assert (Hsplit2 : 2 ^ (eb - e1) = 2 ^ (eb - e3) * 2 ^ n2).
  { rewrite <- Z.pow_add_r by lia. f_equal. lia. }
  pose proof (pow2_pos (eb - e3) ltac:(lia)) as Hpc3.
  assert (Hm3le : shr_m mrs2 <= mb * 2 ^ (eb - e3)).
  { rewrite Hm3. apply Z.div_le_upper_bound; [lia|]. rewrite Hsplit2 in Hm2le. lia. }
  assert (Hm3nn : 0 <= shr_m mrs2) by (rewrite Hm3; apply Z.div_pos; lia).
  destruct (shr_m mrs2) as [|m3|m3] eqn:Hsm; [left; reflexivity| |lia].
  right. exists m3, e3.
  replace (e3 <=? Float64.emax - Float64.prec) with true by (symmetry; apply Z.leb_le; unfold Float64.emax, Float64.prec; lia).
  repeat split; auto.
  change (Z.pos (digits2_pos m3)) with (Zdigits2 (Z.pos m3)).
  rewrite Hm3, Zdigits2_shifted by (rewrite <- ?Hm3; lia).
  replace (Zdigits2 m2 - n2 + e3) with (Zdigits2 m2 + e1) by lia. lia.
Qed.

Lemma new_location_exact n : new_location n 0 = loc_Exact.
Proof. unfold new_location, new_location_even, new_location_odd. destruct (Z.even n); reflexivity. Qed.

(** A quotient of two positive ints, rounded, stays below a representable
    bound [mb * 2^eb] that the exact quotient stays below. *)
Lemma div_bounded (sk sn : bool) (k n : positive) (mb eb : Z) :
  0 < mb -> 0 <= eb <= 971 ->
  fexp Float64.prec Float64.emax (Zdigits2 mb + eb) <= eb ->
  Z.pos k <= Z.pos n * (mb * 2 ^ eb) ->
  let q := SFdiv Float64.prec Float64.emax (S754_finite sk k 0) (S754_finite sn n 0) in
  q = S754_zero (xorb sk sn) \/
  exists m e, q = S754_finite (xorb sk sn) m e /\ e <= eb /\ Z.pos m <= mb * 2 ^ (eb - e) /\
              fexp Float64.prec Float64.emax (Z.pos (digits2_pos m) + e) = e.
Proof.
  intros Hmb Heb Hrepr Hkn q. subst q. unfold SFdiv, SFdiv_core_binary.
  set (d1 := Zdigits2 (Z.pos k)). set (d2 := Zdigits2 (Z.pos n)).
  replace (d1 + 0 - (d2 + 0)) with (d1 - d2) by lia.
  change (0 - 0) with 0.
  set (e' := Z.min (fexp Float64.prec Float64.emax (d1 - d2)) 0).
  set (s := 0 - e').
  destruct (Zdigits2_bounds (Z.pos k)) as [Hk1 Hk2]; [lia|].
  destruct (Zdigits2_bounds (Z.pos n)) as [Hn1 Hn2]; [lia|].
  fold d1 in Hk1, Hk2. fold d2 in Hn1, Hn2.
  assert (Hd1 : 1 <= d1) by (unfold d1; simpl; lia).
  assert (Hd2 : 1 <= d2) by (unfold d2; simpl; lia).
  assert (He' : e' <= fexp Float64.prec Float64.emax (d1 - d2)) by (unfold e'; lia).
  assert (Hs : 0 <= s) by (unfold s, e'; lia).
  set (m' := match s with Z.pos _ => Z.shiftl (Z.pos k) s | 0 => Z.pos k | Z.neg _ => 0 end).
  assert (Hm' : m' = Z.pos k * 2 ^ s).
  { unfold m'. destruct s; try lia. apply Z.shiftl_mul_pow2. lia. }
  pose proof (pow2_pos s Hs) as Hps.
  pose proof (pow2_pos eb ltac:(lia)) as Hpeb.
  pose proof (Z.div_mod m' (Z.pos n) ltac:(lia)) as Hdm.
  pose proof (Z.mod_pos_bound m' (Z.pos n) ltac:(lia)) as Hmb'.
  unfold Z.div, Z.modulo in Hdm, Hmb'.
  destruct (Z.div_eucl m' (Z.pos n)) as [q r]. simpl fst in *; simpl snd in *.
  assert (Hq0 : 0 <= q) by nia.
  assert (Hsplit : 2 ^ (eb - e') = 2 ^ eb * 2 ^ s).
  { rewrite <- Z.pow_add_r by lia. f_equal; unfold s; lia. }
  assert (Hq1 : q <= mb * 2 ^ (eb - e')).
  { rewrite Hsplit.
    assert (Z.pos n * q <= Z.pos n * (mb * (2 ^ eb * 2 ^ s))) by nia.
    apply Z.mul_le_mono_pos_l with (Z.pos n); lia. }
  apply binary_round_aux_bound; try lia.
  - (* enough digits in the quotient *)
    destruct (Z.eq_dec q 0) as [Hq|Hq].
    + subst q. simpl Zdigits2. rewrite Z.add_0_l.
      assert (Hlt : Z.pos k * 2 ^ s < 2 ^ d2) by lia.
      assert (H : 2 ^ (d1 - 1) * 2 ^ s < 2 ^ d2) by nia.
      rewrite <- Z.pow_add_r in H by lia.
      apply Z.pow_lt_mono_r_iff in H; [|lia|lia].
      unfold s, e' in *. rewrite !fexp_eq in *. lia.
    + etransitivity; [exact He'|]. apply fexp_mono.
      destruct (Z.le_gt_cases (d1 + s - d2) 0) as [Hsmall|Hbig].
      { assert (1 <= Zdigits2 q) by (destruct q; simpl; lia).
        unfold s in *. lia. }
      assert (d1 + s - d2 <= Zdigits2 q); [|unfold s in *; lia].
      apply Zdigits2_ge_of_le; [|lia].
      assert (Hx : 2 ^ (d1 + s - d2 - 1) * 2 ^ d2 = 2 ^ (d1 - 1) * 2 ^ s).
      { rewrite <- !Z.pow_add_r by lia. f_equal. lia. }
      pose proof (pow2_pos (d1 + s - d2 - 1) ltac:(lia)).
      assert (2 ^ (d1 + s - d2 - 1) * Z.pos n <= Z.pos k * 2 ^ s) by nia.
      nia.
  - intros Heq.
    assert (r = 0); [|subst r; apply new_location_exact].
    rewrite Hsplit in Heq.
    assert (Z.pos n * q <= Z.pos n * (mb * 2 ^ eb) * 2 ^ s) by nia.
    assert (Z.pos k * 2 ^ s <= Z.pos n * (mb * 2 ^ eb) * 2 ^ s) by nia.
    nia.
Qed.

(** A quotient of two positive ints k <= n, rounded: at most 1. *)
Lemma div_le_one (k n : positive) :
  (k <= n)%positive ->
  let q := SFdiv Float64.prec Float64.emax (S754_finite false k 0) (S754_finite false n 0) in
  q = S754_zero false \/
  exists m e, q = S754_finite false m e /\ e <= 0 /\ Z.pos m <= 2 ^ (- e) /\
              fexp Float64.prec Float64.emax (Z.pos (digits2_pos m) + e) = e.
Proof.
  intros Hkn q.
  destruct (div_bounded false false k n 1 0) as [H|(m & e & H & He & Hm & Hc)];
    try lia.
  - rewrite fexp_eq. simpl. lia.
  - left. exact H.
  - right. exists m, e. rewrite Z.mul_1_l, Z.sub_0_l in Hm. auto.
Qed.


(** [k / n] for ints [0 <= k <= n] never overflows and is a float between
    0 and 1. *)
Lemma int_truediv_unit k n :
  0 <= k <= n -> 0 < n ->
  exists q, Float64.int_truediv k n = Ok q /\
    (q = S754_zero false \/
     exists m e, q = S754_finite false m e /\ e <= 0 /\ Z.pos m <= 2 ^ (- e)).
Proof.
  intros Hk Hn. unfold Float64.int_truediv.
  replace (n =? 0) with false by (symmetry; apply Z.eqb_neq; lia).
  replace (n <? 0) with false by (symmetry; apply Z.ltb_ge; lia).
  destruct (Z.eqb_spec k 0) as [->|Hk0].
  - eexists. split; [reflexivity|left; reflexivity].
  - replace (k <? 0) with false by (symmetry; apply Z.ltb_ge; lia).
    rewrite !Z.abs_eq by lia.
    destruct (div_le_one (Z.to_pos k) (Z.to_pos n) ltac:(lia)) as [H|(m & e & H & He & Hm & _)];
      unfold Float64.div; rewrite H; eexists; (split; [reflexivity|]); [left|right]; eauto.
Qed.


(** [a / b] on ints raises only for [b = 0] or a quotient beyond the
    floats. *)
Lemma int_truediv_defined a b :
  b <> 0 -> Z.abs a <= Z.abs b * 2 ^ 1023 ->
  exists q, Float64.int_truediv a b = Ok q.
Proof.
  intros Hb Hab. unfold Float64.int_truediv.
  replace (b =? 0) with false by (symmetry; now apply Z.eqb_neq).
  destruct (Z.eqb_spec a 0) as [->|Ha]; [eauto|].
  assert (Hr : fexp Float64.prec Float64.emax (Zdigits2 4503599627370496 + 971) <= 971).
  { rewrite fexp_eq. simpl. lia. }
  assert (Hq : Z.pos (Z.to_pos (Z.abs a))
               <= Z.pos (Z.to_pos (Z.abs b)) * (4503599627370496 * 2 ^ 971)).
  { rewrite !Z2Pos.id by lia.
    change (4503599627370496 * 2 ^ 971) with (2 ^ 1023). exact Hab. }
  unfold Float64.div.
  destruct (div_bounded (a <? 0) (b <? 0) (Z.to_pos (Z.abs a)) (Z.to_pos (Z.abs b))
              4503599627370496 971 ltac:(lia) ltac:(lia) Hr Hq)
    as [H|(m & e & H & _)]; cbv zeta in H; rewrite H; eauto.
Qed.

(** The threshold of the aggregator is defined for every float and for
    every int of a magnitude that a float can hold. *)
Lemma degraded_threshold_defined (app_config : gmap string number) :
  match dict_get app_config "degraded_threshold" (NInt 200) with
  | NInt n => Z.abs n <= 1000 * 2 ^ 1023
  | NFloat _ => True
  end ->
  exists th,
    number_truediv_int (dict_get app_config "degraded_threshold" (NInt 200)) 1000 = Ok th.
Proof.
  destruct (dict_get app_config "degraded_threshold" (NInt 200)) as [n|f]; intros H.
  - apply int_truediv_defined; [discriminate|exact H].
  - cbn [number_truediv_int]. change (1000 =? 0) with false. eauto.
Qed.

(** ** The calendar, isoformat and the start of a bucket *)

Section DatetimeFacts.

Import Datetime.

Lemma bind_Ok {A B} (a : A) (k : A -> result B) : (x ← Ok a; k x) = k a.
Proof. reflexivity. Qed.

Lemma bind_Raise {A B} e (k : A -> result B) : (x ← Raise e; k x) = Raise e.
Proof. reflexivity. Qed.

Lemma Z_range_forallb (P : Z -> bool) (lo : Z) (len : nat) :
  forallb P (map (fun i => lo + Z.of_nat i) (seq 0 len)) = true ->
  forall n, lo <= n < lo + Z.of_nat len -> P n = true.
Proof.
  intros H n Hn. rewrite forallb_forall in H. apply H.
  apply in_map_iff. exists (Z.to_nat (n - lo)). split; [lia|].
  apply in_seq. lia.
Qed.

(** The month and day of the [n]-th day of a year, as [ord2ymd] finds them. *)
Lemma month_day_spec (leapyear : bool) (n : Z) :
  0 <= n <= 364 ->
  let month := Z.shiftr (n + 50) 5 in
  let preceding := table DAYS_BEFORE_MONTH month + Z.b2z ((2 <? month) && leapyear) in
  let '(m, d) :=
    if n <? preceding then
      (month - 1,
       n - (preceding - (table DAYS_IN_MONTH (month - 1)
                         + Z.b2z ((month - 1 =? 2) && leapyear))) + 1)
    else (month, n - preceding + 1) in
  1 <= m <= 12 /\ 1 <= d /\
  d <= (if (m =? 2) && leapyear then 29 else table DAYS_IN_MONTH m) /\
  table DAYS_BEFORE_MONTH m + Z.b2z ((2 <? m) && leapyear) + d = n + 1.
Proof.
  intros Hn.
  pose (P := fun (leapyear : bool) (n : Z) =>
    let month := Z.shiftr (n + 50) 5 in
    let preceding := table DAYS_BEFORE_MONTH month + Z.b2z ((2 <? month) && leapyear) in
    let '(m, d) :=
      if n <? preceding then
        (month - 1,
         n - (preceding - (table DAYS_IN_MONTH (month - 1)
                           + Z.b2z ((month - 1 =? 2) && leapyear))) + 1)
      else (month, n - preceding + 1) in
    (1 <=? m) && (m <=? 12) && (1 <=? d)
    && (d <=? (if (m =? 2) && leapyear then 29 else table DAYS_IN_MONTH m))
    && (table DAYS_BEFORE_MONTH m + Z.b2z ((2 <? m) && leapyear) + d =? n + 1)).
  assert (HP : P leapyear n = true).
  { apply (Z_range_forallb (P leapyear) 0 365); [|lia].
    destruct leapyear; vm_compute; reflexivity. }
  unfold P in HP. cbv zeta in *.
  destruct (if n <? _ then _ else _) as [m d].
  rewrite !andb_true_iff in HP. lia.
Qed.

Lemma is_leap_cycle n400 n100 n4 n1 :
  0 <= n400 -> 0 <= n100 <= 3 -> 0 <= n4 <= 24 -> 0 <= n1 <= 3 ->
  is_leap (n400 * 400 + 1 + (n100 * 100 + n4 * 4 + n1))
  = (n1 =? 3) && (negb (n4 =? 24) || (n100 =? 3)).
Proof.
  intros. unfold is_leap.
  destruct (n1 =? 3) eqn:E1; destruct (n4 =? 24) eqn:E4; destruct (n100 =? 3) eqn:E100;
    simpl; rewrite ?andb_true_iff, ?andb_false_iff, ?orb_true_iff, ?orb_false_iff,
             ?negb_true_iff, ?negb_false_iff, ?Z.eqb_eq, ?Z.eqb_neq;
    rewrite ?Z.eqb_eq, ?Z.eqb_neq in *.
  all: try (split; Z.div_mod_to_equations; lia).
  all: try (left; Z.div_mod_to_equations; lia).
  all: try (right; split; Z.div_mod_to_equations; lia).
Qed.

Lemma days_before_year_cycle n400 n100 n4 n1 :
  0 <= n400 -> 0 <= n100 <= 3 -> 0 <= n4 <= 24 -> 0 <= n1 <= 3 ->
  days_before_year (n400 * 400 + 1 + (n100 * 100 + n4 * 4 + n1))
  = n400 * 146097 + n100 * 36524 + n4 * 1461 + n1 * 365.
Proof.
  intros. unfold days_before_year. Z.div_mod_to_equations. lia.
Qed.

Lemma ord2ymd_spec n :
  1 <= n <= MAXORDINAL ->
  exists y m d, ord2ymd n = (y, m, d) /\
    1 <= y <= 9999 /\ 1 <= m <= 12 /\ 1 <= d <= days_in_month y m /\
    ymd2ord y m d = n.
Proof.
  unfold MAXORDINAL. intros Hn. unfold ord2ymd, DI400Y, DI100Y, DI4Y.
  set (n0 := n - 1).
  set (n400 := n0 / 146097). set (r1 := n0 mod 146097).
  set (n100 := r1 / 36524). set (r2 := r1 mod 36524).
  set (n4 := r2 / 1461). set (r3 := r2 mod 1461).
  set (n1 := r3 / 365). set (r4 := r3 mod 365).
  assert (H400 : n0 = 146097 * n400 + r1 /\ 0 <= r1 < 146097)
    by (unfold n400, r1; Z.div_mod_to_equations; lia).
  assert (H100 : r1 = 36524 * n100 + r2 /\ 0 <= r2 < 36524)
    by (unfold n100, r2; Z.div_mod_to_equations; lia).
  assert (H4 : r2 = 1461 * n4 + r3 /\ 0 <= r3 < 1461)
    by (unfold n4, r3; Z.div_mod_to_equations; lia).
  assert (H1 : r3 = 365 * n1 + r4 /\ 0 <= r4 < 365)
    by (unfold n1, r4; Z.div_mod_to_equations; lia).
  assert (Hn0 : n0 = n - 1) by reflexivity.
  clearbody n0 n400 r1 n100 r2 n4 r3 n1 r4.
  destruct ((n1 =? 4) || (n100 =? 4)) eqn:Hend.
  - (* the last day of a leap year *)
    exists (n400 * 400 + 1 + (n100 * 100 + n4 * 4 + n1) - 1), 12, 31.
    split; [reflexivity|].
    apply orb_true_iff in Hend. rewrite !Z.eqb_eq in Hend.
    assert (Hleap : is_leap (n400 * 400 + 1 + (n100 * 100 + n4 * 4 + n1) - 1) = true).
    { unfold is_leap. rewrite andb_true_iff, orb_true_iff, negb_true_iff, !Z.eqb_eq, Z.eqb_neq.
      destruct Hend; (split; [|destruct (Z.eq_dec n100 4); [right|left]]);
        Z.div_mod_to_equations; lia. }
    unfold ymd2ord, days_in_month, days_before_month, days_before_year.
    rewrite Hleap. simpl.
    change (table DAYS_IN_MONTH 12) with 31.
    change (table DAYS_BEFORE_MONTH 12) with 334.
    repeat split; try lia.
    all: destruct Hend; Z.div_mod_to_equations; lia.
  - apply orb_false_iff in Hend. rewrite !Z.eqb_neq in Hend.
    assert (Hb : 0 <= n400 /\ 0 <= n100 <= 3 /\ 0 <= n4 <= 24 /\ 0 <= n1 <= 3) by lia.
    destruct Hb as (B400 & B100 & B4 & B1).
    pose proof (is_leap_cycle n400 n100 n4 n1 B400 B100 B4 B1) as Hleap.
    pose proof (days_before_year_cycle n400 n100 n4 n1 B400 B100 B4 B1) as Hdby.
    set (leapyear := (n1 =? 3) && (negb (n4 =? 24) || (n100 =? 3))) in *.
    set (y := n400 * 400 + 1 + (n100 * 100 + n4 * 4 + n1)) in *.
    pose proof (month_day_spec leapyear r4 ltac:(lia)) as Hmd. cbv zeta in Hmd.
    assert (Hy : 1 <= y <= 9999) by (unfold y; lia).
    destruct (r4 <? _); eexists y, _, _; (split; [reflexivity|]);
      unfold ymd2ord, days_in_month, days_before_month; rewrite Hleap, Hdby; lia.
Qed.

Lemma valid_fields t :
  valid t = true ->
  valid_date (year t) (month t) (day t) /\
  0 <= hour t <= 23 /\ 0 <= minute t <= 59 /\ 0 <= second t <= 59 /\
  0 <= microsecond t <= 999999.
Proof.
  unfold valid, valid_date. rewrite !andb_true_iff, !Z.leb_le. tauto.
Qed.

Ltac month_cases m :=
  let H := fresh in
  assert (H : m = 1 \/ m = 2 \/ m = 3 \/ m = 4 \/ m = 5 \/ m = 6 \/ m = 7 \/
              m = 8 \/ m = 9 \/ m = 10 \/ m = 11 \/ m = 12) by lia;
  repeat (destruct H as [H|H]); subst m.

Lemma days_in_month_bounds y m : 1 <= m <= 12 -> 28 <= days_in_month y m <= 31.
Proof.
  intros Hm. unfold days_in_month. destruct (is_leap y); month_cases m; now vm_compute.
Qed.

Lemma days_before_month_next y m :
  1 <= m <= 11 ->
  days_before_month y (m + 1) = days_before_month y m + days_in_month y m.
Proof.
  intros Hm. unfold days_before_month, days_in_month.
  destruct (is_leap y); month_cases m; now vm_compute.
Qed.

Lemma days_before_month_mono y m m' :
  1 <= m -> m < m' -> m' <= 12 ->
  days_before_month y m + days_in_month y m <= days_before_month y m'.
Proof.
  intros Hm Hlt Hm'.
  replace m' with (m + 1 + Z.of_nat (Z.to_nat (m' - m - 1))) by lia.
  assert (Hk : m + 1 + Z.of_nat (Z.to_nat (m' - m - 1)) <= 12) by lia.
  revert Hk. generalize (Z.to_nat (m' - m - 1)) as k. induction k as [|k IH]; intros Hk.
  - rewrite Z.add_0_r, days_before_month_next by lia. lia.
  - rewrite Nat2Z.inj_succ in *.
    replace (m + 1 + Z.succ (Z.of_nat k)) with (m + 1 + Z.of_nat k + 1) by lia.
    rewrite days_before_month_next by lia.
    pose proof (days_in_month_bounds y (m + 1 + Z.of_nat k) ltac:(lia)).
    specialize (IH ltac:(lia)). lia.
Qed.

Lemma days_before_month_last y : days_before_month y 12 + 31 = 365 + Z.b2z (is_leap y).
Proof. unfold days_before_month. destruct (is_leap y); reflexivity. Qed.

Lemma days_before_year_next y :
  days_before_year (y + 1) = days_before_year y + 365 + Z.b2z (is_leap y).
Proof.
  unfold days_before_year, is_leap.
  destruct (y mod 4 =? 0) eqn:E4; destruct (y mod 100 =? 0) eqn:E100;
    destruct (y mod 400 =? 0) eqn:E400; simpl;
    rewrite ?Z.eqb_eq, ?Z.eqb_neq in *; Z.div_mod_to_equations; lia.
Qed.

Lemma days_before_year_mono y y' :
  y < y' -> days_before_year (y + 1) <= days_before_year y'.
Proof.
  intros H. unfold days_before_year. Z.div_mod_to_equations. lia.
Qed.

Lemma ymd2ord_range y m d :
  valid_date y m d ->
  days_before_year y < ymd2ord y m d <= days_before_year (y + 1).
Proof.
  intros (Hy & Hm & Hd). unfold ymd2ord.
  rewrite days_before_year_next. pose proof (days_before_month_last y) as Hlast.
  assert (0 <= days_before_month y m).
  { unfold days_before_month. destruct (is_leap y); month_cases m; now vm_compute. }
  destruct (Z.eq_dec m 12) as [->|Hne].
  - unfold days_in_month in Hd. simpl in Hd. change (table DAYS_IN_MONTH 12) with 31 in Hd. lia.
  - pose proof (days_before_month_mono y m 12 ltac:(lia) ltac:(lia) ltac:(lia)). lia.
Qed.

Lemma toordinal_range t : valid t = true -> 1 <= toordinal t <= MAXORDINAL.
Proof.
  intros Hv. destruct (valid_fields t Hv) as (Hd & _).
  pose proof (ymd2ord_range _ _ _ Hd) as Hr. unfold toordinal, MAXORDINAL.
  destruct Hd as (Hy & _).
  assert (0 <= days_before_year (year t)) by (unfold days_before_year; Z.div_mod_to_equations; lia).
  assert (days_before_year (year t + 1) <= 3652059)
    by (unfold days_before_year; Z.div_mod_to_equations; lia).
  lia.
Qed.

(** The ordinal grows with the date. *)
Lemma ymd2ord_lt y m d y' m' d' :
  valid_date y m d -> valid_date y' m' d' ->
  y < y' \/ (y = y' /\ (m < m' \/ (m = m' /\ d < d'))) ->
  ymd2ord y m d < ymd2ord y' m' d'.
Proof.
  intros Hv Hv' Hlt.
  pose proof (ymd2ord_range _ _ _ Hv). pose proof (ymd2ord_range _ _ _ Hv').
  destruct Hlt as [Hy|[-> [Hm|[-> Hd]]]].
  - pose proof (days_before_year_mono y y' Hy). lia.
  - destruct Hv as (_ & ? & ?), Hv' as (_ & ? & ?). unfold ymd2ord.
    pose proof (days_before_month_mono y' m m' ltac:(lia) Hm ltac:(lia)). lia.
  - unfold ymd2ord. lia.
Qed.

Lemma weekday_range t : 0 <= weekday t <= 6.
Proof. unfold weekday. Z.div_mod_to_equations. lia. Qed.

Lemma timedelta_days d : 0 <= d <= 6 -> timedelta 0 d 0 = Ok (d * US_PER_DAY).
Proof.
  intros Hd. unfold timedelta, US_PER_DAY.
  replace ((0 * 7 + d) * 24 + 0) with (d * 24) by lia.
  replace (d * 24 * 3600 * 1000000) with (d * (86400 * 1000000)) by lia.
  rewrite Z.div_mul by lia.
  replace ((-999999999 <=? d) && (d <=? 999999999)) with true; [reflexivity|].
  symmetry. apply andb_true_iff. split; apply Z.leb_le; lia.
Qed.

(** Moving a valid datetime back by whole days, inside the calendar. *)
Lemma sub_timedelta_days t k :
  valid t = true -> 0 <= k < toordinal t ->
  exists y m d,
    ord2ymd (toordinal t - k) = (y, m, d) /\
    sub_timedelta t (k * US_PER_DAY)
    = Ok (mkdatetime y m d (hour t) (minute t) (second t) (microsecond t)).
Proof.
  intros Hv Hk. destruct (valid_fields t Hv) as (Hd & Hh & Hmi & Hs & Hus).
  pose proof (toordinal_range t Hv) as Hord.
  destruct (ord2ymd_spec (toordinal t - k) ltac:(lia)) as (y & m & d & Ho & _).
  exists y, m, d. split; [exact Ho|].
  unfold sub_timedelta, US_PER_DAY.
  set (tod := (hour t * 3600 + minute t * 60 + second t) * 1000000 + microsecond t).
  replace (toordinal t * (86400 * 1000000) + tod - k * (86400 * 1000000))
    with (tod + (toordinal t - k) * (86400 * 1000000)) by lia.
  assert (Htod : 0 <= tod < 86400 * 1000000) by (unfold tod; lia).
  rewrite Z.div_add, Z.mod_add by lia.
  rewrite Z.div_small, Z.mod_small by lia. rewrite Z.add_0_l.
  replace ((0 <? toordinal t - k) && (toordinal t - k <=? MAXORDINAL)) with true
    by (symmetry; apply andb_true_iff; split; [apply Z.ltb_lt|apply Z.leb_le]; lia).
  rewrite Ho. do 2 f_equal; unfold tod.
  - Z.div_mod_to_equations. lia.
  - Z.div_mod_to_equations. lia.
  - Z.div_mod_to_equations. lia.
  - Z.div_mod_to_equations. lia.
Qed.

(** *** isoformat and the order of strings *)

Lemma ascii_compare_digit a b :
  0 <= a <= 9 -> 0 <= b <= 9 -> Ascii.compare (digit a) (digit b) = (a ?= b).
Proof.
  intros Ha Hb.
  assert (Hcases : forall x, 0 <= x <= 9 ->
    x = 0 \/ x = 1 \/ x = 2 \/ x = 3 \/ x = 4 \/ x = 5 \/ x = 6 \/ x = 7 \/ x = 8 \/ x = 9)
    by (intros; lia).
  destruct (Hcases a Ha) as [?|[?|[?|[?|[?|[?|[?|[?|[?|?]]]]]]]]]; subst a;
  destruct (Hcases b Hb) as [?|[?|[?|[?|[?|[?|[?|[?|[?|?]]]]]]]]]; subst b;
  reflexivity.
Qed.

Lemma string_append_cons c s t : (String c s ++ t)%string = String c (s ++ t)%string.
Proof. reflexivity. Qed.

Lemma string_compare_cons c1 s1 c2 s2 :
  String.compare (String c1 s1) (String c2 s2)
  = match Ascii.compare c1 c2 with Eq => String.compare s1 s2 | ne => ne end.
Proof. reflexivity. Qed.

Lemma compare_zfill_app w x y s1 s2 :
  0 <= x -> 0 <= y ->
  String.compare (zfill w x ++ s1) (zfill w y ++ s2)
  = match x mod 10 ^ Z.of_nat w ?= y mod 10 ^ Z.of_nat w with
    | Eq => String.compare s1 s2
    | c => c
    end.
Proof.
  intros Hx Hy. induction w as [|w IH].
  - change (10 ^ Z.of_nat 0) with 1. rewrite !Z.mod_1_r. reflexivity.
  - cbn [zfill String.append String.compare].
    set (p := 10 ^ Z.of_nat w) in *.
    assert (Hp : 0 < p) by (apply Z.pow_pos_nonneg; lia).
    assert (Hpow : 10 ^ Z.of_nat (S w) = p * 10).
    { rewrite Nat2Z.inj_succ, Z.pow_succ_r by lia. unfold p. lia. }
    rewrite Hpow, !Z.rem_mul_r by lia.
    set (dx := (x / p) mod 10). set (dy := (y / p) mod 10).
    assert (Hdx : 0 <= dx <= 9) by (unfold dx; Z.div_mod_to_equations; lia).
    assert (Hdy : 0 <= dy <= 9) by (unfold dy; Z.div_mod_to_equations; lia).
    pose proof (Z.mod_pos_bound x p Hp). pose proof (Z.mod_pos_bound y p Hp).
    rewrite !string_append_cons, string_compare_cons, ascii_compare_digit, IH by assumption.
    destruct (Z.compare_spec dx dy) as [Heq|Hlt|Hgt].
    + rewrite Heq.
      destruct (Z.compare_spec (x mod p) (y mod p));
        destruct (Z.compare_spec (x mod p + p * dy) (y mod p + p * dy)); try reflexivity; lia.
    + destruct (Z.compare_spec (x mod p + p * dx) (y mod p + p * dy)); try reflexivity; nia.
    + destruct (Z.compare_spec (x mod p + p * dx) (y mod p + p * dy)); try reflexivity; nia.
Qed.

Lemma compare_zfill_app_small w x y s1 s2 :
  0 <= x < 10 ^ Z.of_nat w -> 0 <= y < 10 ^ Z.of_nat w ->
  String.compare (zfill w x ++ s1) (zfill w y ++ s2)
  = match x ?= y with Eq => String.compare s1 s2 | c => c end.
Proof.
  intros Hx Hy. rewrite compare_zfill_app by lia. now rewrite !Z.mod_small by lia.
Qed.

Lemma string_append_empty_r s : (s ++ "")%string = s.
Proof. induction s; [reflexivity|rewrite string_append_cons; congruence]. Qed.

Lemma string_append_empty_l s : ("" ++ s)%string = s.
Proof. reflexivity. Qed.

Lemma days_in_month_le y m : 1 <= m <= 12 -> days_in_month y m <= 31.
Proof. intros. pose proof (days_in_month_bounds y m). lia. Qed.

(** On valid datetimes the order of the isoformat strings is the order of
    the datetimes. *)
Lemma compare_isoformat a b :
  valid a = true -> valid b = true ->
  String.compare (isoformat a) (isoformat b) = Datetime.compare a b.
Proof.
  intros Ha Hb.
  destruct (valid_fields a Ha) as ((Hya & Hma & Hda) & Hha & Hmia & Hsa & Husa).
  destruct (valid_fields b Hb) as ((Hyb & Hmb & Hdb) & Hhb & Hmib & Hsb & Husb).
  pose proof (days_in_month_le (year a) (month a) Hma).
  pose proof (days_in_month_le (year b) (month b) Hmb).
  unfold isoformat, Datetime.compare, fields. cbn [compare_fields].
  rewrite !string_append_cons, !string_append_empty_l.
  rewrite compare_zfill_app_small by (simpl; lia).
  destruct (year a ?= year b); try reflexivity.
  rewrite string_compare_cons. change (Ascii.compare "-" "-") with Eq. cbv iota.
  rewrite compare_zfill_app_small by (simpl; lia).
  destruct (month a ?= month b); try reflexivity.
  rewrite string_compare_cons. change (Ascii.compare "-" "-") with Eq. cbv iota.
  rewrite compare_zfill_app_small by (simpl; lia).
  destruct (day a ?= day b); try reflexivity.
  rewrite string_compare_cons. change (Ascii.compare "T" "T") with Eq. cbv iota.
  rewrite compare_zfill_app_small by (simpl; lia).
  destruct (hour a ?= hour b); try reflexivity.
  rewrite string_compare_cons. change (Ascii.compare ":" ":") with Eq. cbv iota.
  rewrite compare_zfill_app_small by (simpl; lia).
  destruct (minute a ?= minute b); try reflexivity.
  rewrite string_compare_cons. change (Ascii.compare ":" ":") with Eq. cbv iota.
  rewrite compare_zfill_app_small by (simpl; lia).
  destruct (second a ?= second b); try reflexivity.
  destruct (microsecond a =? 0) eqn:Ea; destruct (microsecond b =? 0) eqn:Eb;
    rewrite ?Z.eqb_eq, ?Z.eqb_neq in *.
  - rewrite Ea, Eb. reflexivity.
  - rewrite Ea.
    assert (0 < microsecond b) by lia.
    destruct (Z.compare_spec 0 (microsecond b)); try lia. reflexivity.
  - rewrite Eb.
    destruct (Z.compare_spec (microsecond a) 0); try lia. reflexivity.
  - rewrite string_compare_cons. change (Ascii.compare "." ".") with Eq. cbv iota.
    rewrite <- (string_append_empty_r (zfill 6 (microsecond a))).
    rewrite <- (string_append_empty_r (zfill 6 (microsecond b))).
    rewrite compare_zfill_app_small by (simpl; lia).
    destruct (microsecond a ?= microsecond b); reflexivity.
Qed.

(** *** Comparison of datetimes *)

Lemma datetime_compare_eq a b : Datetime.compare a b = Eq -> a = b.
Proof.
  destruct a, b. unfold Datetime.compare, fields. cbn [compare_fields year month day hour minute second microsecond].
  repeat match goal with
  | |- context [?x ?= ?y] => destruct (Z.compare_spec x y); try discriminate
  end.
  intros _. congruence.
Qed.

Lemma datetime_compare_refl a : Datetime.compare a a = Eq.
Proof.
  unfold Datetime.compare, fields. cbn [compare_fields]. now rewrite !Z.compare_refl.
Qed.

Lemma isoformat_inj a b :
  valid a = true -> valid b = true -> isoformat a = isoformat b -> a = b.
Proof.
  intros Ha Hb Heq. apply datetime_compare_eq.
  rewrite <- (compare_isoformat a b), Heq, (compare_isoformat b b) by assumption.
  apply datetime_compare_refl.
Qed.

(** A date with a smaller or equal ordinal is the same or an earlier date. *)
Lemma compare_dates_ordinal a b :
  valid a = true -> valid b = true ->
  hour a = 0 -> minute a = 0 -> second a = 0 -> microsecond a = 0 ->
  toordinal a <= toordinal b ->
  leb a b = true.
Proof.
  intros Ha Hb Hh Hmi Hs Hus Hord.
  destruct (valid_fields a Ha) as (Hda & _).
  destruct (valid_fields b Hb) as (Hdb & Hhb & Hmib & Hsb & Husb).
  unfold toordinal in Hord.
  unfold leb, Datetime.compare, fields. cbn [compare_fields]. rewrite Hh, Hmi, Hs, Hus.
  destruct (Z.compare_spec (year a) (year b)) as [Hy|Hy|Hy]; [|reflexivity|].
  2:{ pose proof (ymd2ord_lt _ _ _ _ _ _ Hdb Hda (or_introl Hy)). lia. }
  destruct (Z.compare_spec (month a) (month b)) as [Hm|Hm|Hm]; [|reflexivity|].
  2:{ pose proof (ymd2ord_lt _ _ _ _ _ _ Hdb Hda
                    (or_intror (conj (eq_sym Hy) (or_introl Hm)))). lia. }
  destruct (Z.compare_spec (day a) (day b)) as [Hd|Hd|Hd]; [|reflexivity|].
  2:{ pose proof (ymd2ord_lt _ _ _ _ _ _ Hdb Hda
                    (or_intror (conj (eq_sym Hy) (or_intror (conj (eq_sym Hm) Hd))))). lia. }
  destruct (Z.compare_spec 0 (hour b)); [|reflexivity|lia].
  destruct (Z.compare_spec 0 (minute b)); [|reflexivity|lia].
  destruct (Z.compare_spec 0 (second b)); [|reflexivity|lia].
  destruct (Z.compare_spec 0 (microsecond b)); [reflexivity|reflexivity|lia].
Qed.

(** *** The start of a bucket *)

Lemma bucket_start_hour t :
  bucket_start "hour" t = Ok (replace_minute_second_microsecond t).
Proof. reflexivity. Qed.

Lemma bucket_start_day t :
  bucket_start "day" t = Ok (replace_hour_minute_second_microsecond t).
Proof. reflexivity. Qed.

Lemma valid_replace_hour t :
  valid t = true -> valid (replace_minute_second_microsecond t) = true.
Proof.
  intros Hv. destruct (valid_fields t Hv) as ((Hy & Hm & Hd) & Hh & _).
  unfold valid, replace_minute_second_microsecond.
  cbn [year month day hour minute second microsecond].
  rewrite !andb_true_iff, !Z.leb_le. lia.
Qed.

Lemma valid_replace_day t :
  valid t = true -> valid (replace_hour_minute_second_microsecond t) = true.
Proof.
  intros Hv. destruct (valid_fields t Hv) as ((Hy & Hm & Hd) & _).
  unfold valid, replace_hour_minute_second_microsecond.
  cbn [year month day hour minute second microsecond].
  rewrite !andb_true_iff, !Z.leb_le. lia.
Qed.

(** The week bucket: the Monday on or before the day of [t], at 00:00. *)
Lemma bucket_start_week t :
  valid t = true ->
  exists start,
    bucket_start "week" t = Ok start /\
    valid start = true /\
    hour start = 0 /\ minute start = 0 /\ second start = 0 /\ microsecond start = 0 /\
    weekday start = 0 /\
    toordinal start = toordinal t - weekday t /\
    0 <= weekday t <= 6.
Proof.
  intros Hv. pose proof (weekday_range t) as Hwd.
  pose proof (toordinal_range t Hv) as Hord.
  assert (Hk : 0 <= weekday t < toordinal t).
  { unfold weekday in *. Z.div_mod_to_equations. lia. }
  destruct (sub_timedelta_days t (weekday t) Hv Hk) as (y & m & d & Ho & Hsub).
  destruct (ord2ymd_spec (toordinal t - weekday t) ltac:(lia))
    as (y' & m' & d' & Ho' & Hy & Hm & Hd & Hback).
  rewrite Ho in Ho'. inversion Ho'; subst y' m' d'. clear Ho'.
  exists (mkdatetime y m d 0 0 0 0).
  assert (Hstart : bucket_start "week" t = Ok (mkdatetime y m d 0 0 0 0)).
  { unfold bucket_start.
    change (String.eqb "week" "hour") with false.
    change (String.eqb "week" "day") with false.
    change (String.eqb "week" "week") with true. cbv iota.
    rewrite timedelta_days by lia. rewrite bind_Ok, Hsub, bind_Ok. reflexivity. }
  assert (Htoord : toordinal (mkdatetime y m d 0 0 0 0) = toordinal t - weekday t)
    by exact Hback.
  split; [exact Hstart|]. split.
  { unfold valid. cbn [year month day hour minute second microsecond].
    rewrite !andb_true_iff, !Z.leb_le. lia. }
  do 4 (split; [reflexivity|]). split; [|split; [exact Htoord|lia]].
  unfold weekday at 1. rewrite Htoord. unfold weekday. Z.div_mod_to_equations. lia.
Qed.

Lemma bucket_start_other interval t :
  String.eqb interval "hour" = false -> String.eqb interval "day" = false ->
  String.eqb interval "week" = false ->
  bucket_start interval t = Ok t.
Proof. intros H1 H2 H3. unfold bucket_start. now rewrite H1, H2, H3. Qed.

(** At every interval a valid timestamp has a bucket start, which is valid
    and not after the timestamp. *)
Lemma bucket_start_valid interval t :
  valid t = true ->
  exists start, bucket_start interval t = Ok start /\ valid start = true /\
                leb start t = true.
Proof.
  intros Hv.
  destruct (String.eqb_spec interval "hour") as [->|Hh].
  { eexists. split; [apply bucket_start_hour|]. split; [now apply valid_replace_hour|].
    destruct (valid_fields t Hv) as (_ & _ & Hmi & Hs & Hus).
    unfold leb, Datetime.compare, fields, replace_minute_second_microsecond.
    cbn [compare_fields year month day hour minute second microsecond].
    rewrite !Z.compare_refl.
    destruct (Z.compare_spec 0 (minute t)); [|reflexivity|lia].
    destruct (Z.compare_spec 0 (second t)); [|reflexivity|lia].
    destruct (Z.compare_spec 0 (microsecond t)); [reflexivity|reflexivity|lia]. }
  destruct (String.eqb_spec interval "day") as [->|Hd].
  { eexists. split; [apply bucket_start_day|]. split; [now apply valid_replace_day|].
    apply compare_dates_ordinal; try reflexivity; auto using valid_replace_day. }
  destruct (String.eqb_spec interval "week") as [->|Hw].
  { destruct (bucket_start_week t Hv) as (s & Hs & Hvs & H1 & H2 & H3 & H4 & _ & Hord & Hwd).
    exists s. split; [exact Hs|]. split; [exact Hvs|].
    apply compare_dates_ordinal; auto. lia. }
  exists t. split; [|split; [exact Hv|]].
  - apply bucket_start_other; now apply String.eqb_neq.
  - unfold leb. now rewrite datetime_compare_refl.
Qed.

(** *** Datetimes as instants *)

(** Two dates with the same ordinal are the same date. *)
Lemma ymd2ord_inj y m d y' m' d' :
  valid_date y m d -> valid_date y' m' d' ->
  ymd2ord y m d = ymd2ord y' m' d' -> y = y' /\ m = m' /\ d = d'.
Proof.
  intros Hv Hv' Heq.
  destruct (Z.lt_trichotomy y y') as [Hy|[Hy|Hy]].
  - pose proof (ymd2ord_lt y m d y' m' d' Hv Hv' ltac:(lia)). lia.
  - subst y'. destruct (Z.lt_trichotomy m m') as [Hm|[Hm|Hm]].
    + pose proof (ymd2ord_lt y m d y m' d' Hv Hv' ltac:(lia)). lia.
    + subst m'. unfold ymd2ord in Heq. lia.
    + pose proof (ymd2ord_lt y m' d' y m d Hv' Hv ltac:(lia)). lia.
  - pose proof (ymd2ord_lt y' m' d' y m d Hv' Hv ltac:(lia)). lia.
Qed.

(** ord2ymd undoes ymd2ord. *)
Lemma ord2ymd_ymd2ord y m d :
  valid_date y m d -> ord2ymd (ymd2ord y m d) = (y, m, d).
Proof.
  intros Hv.
  assert (Hr : 1 <= ymd2ord y m d <= MAXORDINAL).
  { apply (toordinal_range (mkdatetime y m d 0 0 0 0)).
    destruct Hv as (Hy & Hm & Hd). unfold valid. cbn.
    rewrite !andb_true_iff, !Z.leb_le. lia. }
  destruct (ord2ymd_spec _ Hr) as (y' & m' & d' & Ho & Hy' & Hm' & Hd' & Heq).
  rewrite Ho.
  destruct (ymd2ord_inj y' m' d' y m d) as (-> & -> & ->); auto.
  repeat split; lia.
Qed.

Lemma instant_split t :
  valid t = true ->
  1 <= toordinal t <= MAXORDINAL /\
  exists tod, 0 <= tod < US_PER_DAY /\ instant t = toordinal t * US_PER_DAY + tod /\
    tod = (hour t * 3600 + minute t * 60 + second t) * 1000000 + microsecond t.
Proof.
  intros Hv. destruct (valid_fields t Hv) as (Hd & Hh & Hmi & Hs & Hus).
  split; [now apply toordinal_range|].
  eexists. split; [|split; reflexivity]. unfold US_PER_DAY. lia.
Qed.

(** The order of datetimes is the order of their instants. *)
Lemma compare_instant a b :
  valid a = true -> valid b = true ->
  Datetime.compare a b = (instant a ?= instant b).
Proof.
  intros Ha Hb.
  destruct (valid_fields a Ha) as (Hda & Hha & Hmia & Hsa & Husa).
  destruct (valid_fields b Hb) as (Hdb & Hhb & Hmib & Hsb & Husb).
  pose proof (ymd2ord_lt (year a) (month a) (day a) (year b) (month b) (day b) Hda Hdb) as Hab.
  pose proof (ymd2ord_lt (year b) (month b) (day b) (year a) (month a) (day a) Hdb Hda) as Hba.
  unfold instant, toordinal, US_PER_DAY.
  unfold Datetime.compare, fields, compare_fields.
  destruct (Z.compare_spec (year a) (year b)) as [Hy|Hy|Hy];
    [|symmetry; apply Z.compare_lt_iff; specialize (Hab ltac:(lia)); lia
     |symmetry; apply Z.compare_gt_iff; specialize (Hba ltac:(lia)); lia].
  destruct (Z.compare_spec (month a) (month b)) as [Hm|Hm|Hm];
    [|symmetry; apply Z.compare_lt_iff; specialize (Hab ltac:(lia)); lia
     |symmetry; apply Z.compare_gt_iff; specialize (Hba ltac:(lia)); lia].
  destruct (Z.compare_spec (day a) (day b)) as [Hd|Hd|Hd];
    [|symmetry; apply Z.compare_lt_iff; specialize (Hab ltac:(lia)); lia
     |symmetry; apply Z.compare_gt_iff; specialize (Hba ltac:(lia)); lia].
  rewrite Hy, Hm, Hd.
  destruct (Z.compare_spec (hour a) (hour b)) as [Hh|Hh|Hh];
    [|symmetry; apply Z.compare_lt_iff; lia|symmetry; apply Z.compare_gt_iff; lia].
  destruct (Z.compare_spec (minute a) (minute b)) as [Hmi|Hmi|Hmi];
    [|symmetry; apply Z.compare_lt_iff; lia|symmetry; apply Z.compare_gt_iff; lia].
  destruct (Z.compare_spec (second a) (second b)) as [Hs|Hs|Hs];
    [|symmetry; apply Z.compare_lt_iff; lia|symmetry; apply Z.compare_gt_iff; lia].
  destruct (Z.compare_spec (microsecond a) (microsecond b)) as [Hus|Hus|Hus];
    [|symmetry; apply Z.compare_lt_iff; lia|symmetry; apply Z.compare_gt_iff; lia].
  symmetry. apply Z.compare_eq_iff. lia.
Qed.

Lemma leb_instant a b :
  valid a = true -> valid b = true ->
  (leb a b = true <-> instant a <= instant b).
Proof.
  intros Ha Hb. unfold leb. rewrite (compare_instant a b Ha Hb).
  destruct (Z.compare_spec (instant a) (instant b)); split; intros; try lia;
    try reflexivity; discriminate.
Qed.

(** [t - delta] is the datetime [delta] microseconds before [t], where
    there is one, and an OverflowError where there is none. *)
Lemma sub_timedelta_spec t delta :
  valid t = true ->
  let days := (instant t - delta) / US_PER_DAY in
  (1 <= days <= MAXORDINAL ->
   exists t', sub_timedelta t delta = Ok t' /\ valid t' = true /\
              instant t' = instant t - delta) /\
  (~ 1 <= days <= MAXORDINAL -> sub_timedelta t delta = Raise OverflowError).
Proof.
  intros Hv days. unfold sub_timedelta. fold (instant t). fold days.
  split.
  - intros Hr.
    replace ((0 <? days) && (days <=? MAXORDINAL)) with true
      by (symmetry; apply andb_true_iff; split; [apply Z.ltb_lt|apply Z.leb_le]; lia).
    destruct (ord2ymd_spec days Hr) as (y & m & d & Ho & Hy & Hm & Hd & Heq).
    rewrite Ho. eexists. split; [reflexivity|].
    set (us := instant t - delta) in *.
    assert (Hrest : 0 <= us mod US_PER_DAY < US_PER_DAY)
      by (apply Z.mod_pos_bound; unfold US_PER_DAY; lia).
    assert (Hus : us = days * US_PER_DAY + us mod US_PER_DAY)
      by (unfold days; pose proof (Z.div_mod us US_PER_DAY ltac:(unfold US_PER_DAY; lia)); lia).
    set (rest := us mod US_PER_DAY) in *.
    clearbody rest. clearbody days. clearbody us.
    unfold US_PER_DAY in *.
    split.
    + unfold valid. cbn [year month day hour minute second microsecond].
      rewrite !andb_true_iff, !Z.leb_le.
      repeat split; try lia; Z.div_mod_to_equations; try lia.
    + unfold instant, toordinal. cbn [year month day hour minute second microsecond].
      unfold US_PER_DAY. rewrite Heq. Z.div_mod_to_equations. lia.
  - intros Hr.
    replace ((0 <? days) && (days <=? MAXORDINAL)) with false; [reflexivity|].
    symmetry. apply andb_false_iff.
    destruct (Z.ltb_spec 0 days); [right; apply Z.leb_gt; lia|left; reflexivity].
Qed.

(** The look-back of the status endpoints: [now - timedelta(hours=hours)]
    is the datetime [hours] hours before [now], or an OverflowError when
    that lies outside the years 1 to 9999. *)
Lemma cutoff_spec now hours :
  valid now = true ->
  let days := (instant now - hours * 3600 * 1000000) / US_PER_DAY in
  (1 <= days <= MAXORDINAL ->
   exists c, cutoff now hours = Ok c /\ valid c = true /\
             instant c = instant now - hours * 3600 * 1000000) /\
  (~ 1 <= days <= MAXORDINAL -> cutoff now hours = Raise OverflowError).
Proof.
  intros Hv days.
  destruct (instant_split now Hv) as (Hord & tod & Htod & Hi & _).
  unfold cutoff, timedelta.
  replace (((0 * 7 + 0) * 24 + hours) * 3600 * 1000000) with (hours * 3600 * 1000000) by lia.
  destruct (sub_timedelta_spec now (hours * 3600 * 1000000) Hv) as [Hok Hraise].
  fold days in Hok, Hraise.
  destruct ((-999999999 <=? hours * 3600 * 1000000 / US_PER_DAY)
            && (hours * 3600 * 1000000 / US_PER_DAY <=? 999999999)) eqn:Hd.
  - rewrite bind_Ok. split; assumption.
  - rewrite bind_Raise. split; [|reflexivity].
    intros Hr. exfalso.
    apply andb_false_iff in Hd. unfold days in Hr. rewrite Hi in Hr.
    unfold US_PER_DAY, MAXORDINAL in *.
    destruct Hd as [Hd|Hd]; [apply Z.leb_gt in Hd|apply Z.leb_gt in Hd];
      Z.div_mod_to_equations; lia.
Qed.

End DatetimeFacts.

(** ** The aggregator *)

(** *** Loops *)

Lemma for_each_snoc {S A} (body : S -> A -> result S) s l x :
  for_each body s (l ++ [x]) = (s' ← for_each body s l; body s' x).
Proof.
  revert s. induction l as [|y l IH]; intros s; cbn [for_each app].
  - rewrite bind_Ok. destruct (body s x); reflexivity.
  - destruct (body s y) as [s'|e]; [rewrite !bind_Ok; apply IH|reflexivity].
Qed.

(** A loop that appends one computed item per element. *)
Lemma for_each_append {A B} (f : A -> result B) (l : list A) (acc out : list B) :
  Forall2 (fun x y => f x = Ok y) l out ->
  for_each (fun aggregated x => y ← f x; Ok (aggregated ++ [y])) acc l
  = Ok (acc ++ out).
Proof.
  intros H. revert acc. induction H as [|x y l out Hxy _ IH]; intros acc; cbn [for_each].
  - now rewrite app_nil_r.
  - rewrite Hxy, !bind_Ok, IH, <- app_assoc. reflexivity.
Qed.

Lemma sum_ints_ones {A} (l : list A) : sum_ints (map (fun _ => 1) l) = len l.
Proof.
  unfold sum_ints, len.
  assert (H : forall acc, fold_left Z.add (map (fun _ : A => 1) l) acc
                          = acc + Z.of_nat (length l)).
  { induction l as [|x l IH]; intros acc; simpl fold_left.
    - simpl. lia.
    - rewrite IH. simpl length. lia. }
  rewrite H. lia.
Qed.

(** *** The grouping loop *)

Lemma members_snoc interval records r key :
  members interval (records ++ [r]) key
  = members interval records key
    ++ (if String.eqb (bucket_key interval r) key then [r] else []).
Proof.
  unfold members. rewrite List.filter_app. cbn [List.filter].
  destruct (String.eqb (bucket_key interval r) key); reflexivity.
Qed.

Lemma group_record_grouped interval records grouped r start :
  grouped_as interval records grouped ->
  bucket_start interval (timestamp r) = Ok start ->
  exists grouped',
    group_record interval grouped r = Ok grouped' /\
    grouped_as interval (records ++ [r]) grouped'.
Proof.
  intros Hg Hstart. unfold group_record. rewrite Hstart, bind_Ok.
  eexists. split; [reflexivity|].
  assert (Hkey : Datetime.isoformat start = bucket_key interval r).
  { unfold bucket_key, bucket_of. now rewrite Hstart. }
  assert (Hof : bucket_of interval (timestamp r) = start).
  { unfold bucket_of. now rewrite Hstart. }
  rewrite Hkey. set (k := bucket_key interval r).
  intros key. rewrite members_snoc. fold k.
  destruct (String.eqb_spec k key) as [<-|Hne].
  - rewrite lookup_alter_eq. rewrite (Hg k).
    destruct (members interval records k) as [|r0 ms] eqn:Hms.
    + rewrite lookup_insert_eq. change ([] ++ [r]) with [r]. cbv iota. rewrite Hof. reflexivity.
    + rewrite (Hg k), Hms. reflexivity.
  - rewrite lookup_alter_ne by exact Hne.
    rewrite app_nil_r.
    destruct (grouped !! k); [|rewrite lookup_insert_ne by exact Hne]; apply Hg.
Qed.

Lemma grouped_as_empty interval : grouped_as interval [] ∅.
Proof. intros key. rewrite lookup_empty. reflexivity. Qed.

Lemma for_each_group_record interval records :
  Forall (fun r => exists start, bucket_start interval (timestamp r) = Ok start) records ->
  exists grouped,
    for_each (group_record interval) ∅ records = Ok grouped /\
    grouped_as interval records grouped.
Proof.
  induction records as [|r records IH] using rev_ind; intros Hall.
  - exists ∅. split; [reflexivity|apply grouped_as_empty].
  - apply Forall_app in Hall. destruct Hall as [Hall Hr].
    destruct (IH Hall) as (grouped & Hfor & Hg).
    apply Forall_inv in Hr. destruct Hr as [start Hstart].
    destruct (group_record_grouped interval records grouped r start Hg Hstart)
      as (grouped' & Hstep & Hg').
    exists grouped'. split; [|exact Hg'].
    rewrite for_each_snoc, Hfor. exact Hstep.
Qed.

(** *** The node of a group *)

Lemma len_filter_le {A} (p : A -> bool) (l : list A) : 0 <= len (List.filter p l) <= len l.
Proof.
  unfold len. pose proof (List.filter_length_le p l). lia.
Qed.

Lemma len_filter_implies {A} (p q : A -> bool) (l : list A) :
  (forall x, p x = true -> q x = true) ->
  len (List.filter p l) <= len (List.filter q l).
Proof.
  intros Hpq. unfold len. induction l as [|x l IH]; cbn [List.filter]; [lia|].
  destruct (p x) eqn:Hp.
  - rewrite (Hpq x Hp). cbn [length]. lia.
  - destruct (q x); cbn [length]; lia.
Qed.

Lemma is_degraded_is_up th r : is_degraded th r = true -> is_up r = true.
Proof. unfold is_degraded. intros H. apply andb_true_iff in H. tauto. Qed.

Lemma len_pos {A} (l : list A) : l <> [] -> 0 < len l.
Proof. destruct l; [congruence|]. unfold len. cbn [length]. lia. Qed.

Lemma up_count_len recs : up_count recs = len (List.filter is_up recs).
Proof. apply sum_ints_ones. Qed.

Lemma degraded_count_len th recs :
  degraded_count th recs = len (List.filter (is_degraded th) recs).
Proof. apply sum_ints_ones. Qed.

Lemma counts_bounds th recs :
  0 <= degraded_count th recs <= up_count recs /\ up_count recs <= len recs.
Proof.
  rewrite up_count_len, degraded_count_len.
  pose proof (len_filter_le is_up recs).
  pose proof (len_filter_le (is_degraded th) recs).
  pose proof (len_filter_implies (is_degraded th) is_up recs (is_degraded_is_up th)).
  lia.
Qed.

Lemma avg_response_time_ok sum recs :
  avg_response_time sum recs
  = Ok match response_times recs with
       | [] => None
       | rts => Some (Float64.div (sum rts) (Float64.of_int (len rts)))
       end.
Proof.
  unfold avg_response_time.
  destruct (response_times recs) as [|t rts]; [reflexivity|].
  unfold float_div_int.
  replace (len (t :: rts) =? 0) with false; [reflexivity|].
  symmetry. apply Z.eqb_neq. unfold len. cbn [length]. lia.
Qed.

Lemma issue_percentage_ok th recs :
  recs <> [] ->
  exists q,
    Float64.int_truediv (down_count recs + degraded_count th recs) (len recs) = Ok q /\
    (q = S754_zero false \/
     exists m e, q = S754_finite false m e /\ e <= 0 /\ Z.pos m <= 2 ^ (- e)) /\
    issue_percentage th recs = Ok (NFloat (float_mul_int q 100)).
Proof.
  intros Hne. pose proof (len_pos recs Hne) as Hlen.
  pose proof (counts_bounds th recs) as Hb.
  destruct (int_truediv_unit (down_count recs + degraded_count th recs) (len recs))
    as (q & Hq & Hunit); [unfold down_count; lia|lia|].
  exists q. split; [exact Hq|]. split; [exact Hunit|].
  unfold issue_percentage. destruct recs as [|r0 recs']; [congruence|].
  rewrite Hq. reflexivity.
Qed.

(** What [heartbeat_node] builds for a group that has a record. *)
Lemma heartbeat_node_ok sum th pth key recs :
  recs <> [] ->
  exists avg ip,
    avg_response_time sum recs = Ok avg /\
    issue_percentage th recs = Ok (NFloat ip) /\
    let status := status_of (down_count recs) (NFloat ip) pth in
    heartbeat_node sum th pth key recs
    = Ok (list_to_map
        [ ("timestamp", VStr key);
          ("is_up", VBool (String.eqb status "up"));
          ("status", VStr status);
          ("response_time", of_option VFloat avg);
          ("count", VInt (len recs));
          ("avg_response_time", of_option VFloat avg);
          ("degraded_count", VInt (degraded_count th recs));
          ("down_count", VInt (down_count recs));
          ("issue_percentage", VFloat ip) ])%string.
Proof.
  intros Hne.
  destruct (issue_percentage_ok th recs Hne) as (q & _ & _ & Hip).
  eexists _, _. split; [apply avg_response_time_ok|]. split; [exact Hip|].
  intros status. unfold heartbeat_node.
  rewrite avg_response_time_ok, bind_Ok, Hip, bind_Ok. reflexivity.
Qed.

(** *** The order of strings *)

Lemma ascii_compare_N a b : Ascii.compare a b = N.compare (N_of_ascii a) (N_of_ascii b).
Proof. reflexivity. Qed.

Lemma string_compare_trans_le a b c :
  String.compare a b <> Gt -> String.compare b c <> Gt -> String.compare a c <> Gt.
Proof.
  revert b c. induction a as [|x a IH]; intros [|y b] [|z c]; cbn [String.compare];
    try congruence.
  rewrite !ascii_compare_N.
  destruct (N.compare_spec (N_of_ascii x) (N_of_ascii y)) as [Hxy|Hxy|Hxy];
  destruct (N.compare_spec (N_of_ascii y) (N_of_ascii z)) as [Hyz|Hyz|Hyz];
  destruct (N.compare_spec (N_of_ascii x) (N_of_ascii z)) as [Hxz|Hxz|Hxz];
    try congruence; try lia.
  apply IH.
Qed.

Lemma str_le_compare a b : str_le a b <-> String.compare a b <> Gt.
Proof.
  unfold str_le, String.leb. destruct (String.compare a b); simpl; split; congruence || tauto || auto.
Qed.

#[local] Instance str_le_trans : Transitive str_le.
Proof.
  intros a b c. rewrite !str_le_compare. apply string_compare_trans_le.
Qed.

#[local] Instance str_le_total : Total str_le.
Proof.
  intros a b. unfold str_le. destruct (String.leb_total a b) as [H|H]; rewrite H; simpl; auto.
Qed.

#[local] Instance str_le_antisym : AntiSymm (=) str_le.
Proof.
  intros a b Hab Hba. unfold str_le in *.
  apply String.leb_antisym; apply Is_true_true; assumption.
Qed.

(** *** The keys, sorted *)

Lemma sorted_keys_spec {V} (d : gmap string V) :
  Sorted str_le (sorted_keys d) /\ NoDup (sorted_keys d) /\
  forall k, k ∈ sorted_keys d <-> is_Some (d !! k).
Proof.
  unfold sorted_keys. split; [apply Sorted_merge_sort, _|]. split.
  - rewrite merge_sort_Permutation. apply NoDup_fst_map_to_list.
  - intros k. rewrite merge_sort_Permutation, list_elem_of_fmap. split.
    + intros ([k' v] & -> & Hin). apply elem_of_map_to_list in Hin. eauto.
    + intros [v Hv]. exists (k, v). split; [reflexivity|]. now apply elem_of_map_to_list.
Qed.

Lemma members_nonempty interval records key :
  members interval records key <> [] <->
  exists r, r ∈ records /\ bucket_key interval r = key.
Proof.
  unfold members. split.
  - destruct (List.filter _ records) as [|r ms] eqn:Hf; [congruence|]. intros _.
    assert (Hin : In r (List.filter (fun r => String.eqb (bucket_key interval r) key) records))
      by (rewrite Hf; left; reflexivity).
    apply List.filter_In in Hin. destruct Hin as [Hin Hk].
    exists r. split; [now apply list_elem_of_In|now apply String.eqb_eq].
  - intros (r & Hin & Hk) Hnil.
    assert (Hr : In r (List.filter (fun r => String.eqb (bucket_key interval r) key) records)).
    { apply List.filter_In. split; [now apply list_elem_of_In|now apply String.eqb_eq]. }
    rewrite Hnil in Hr. destruct Hr.
Qed.

Lemma for_each_appends {A B} (body : list B -> A -> result (list B))
    (l : list A) (acc out : list B) :
  Forall2 (fun x y => forall acc, body acc x = Ok (acc ++ [y])) l out ->
  for_each body acc l = Ok (acc ++ out).
Proof.
  intros H. revert acc. induction H as [|x y l out Hxy _ IH]; intros acc; cbn [for_each].
  - now rewrite app_nil_r.
  - rewrite Hxy, bind_Ok, IH, <- app_assoc. reflexivity.
Qed.

(** The shape of the result at any interval but "all": one node per key,
    keys ascending, each node built from the records filed under its key. *)
Lemma aggregate_buckets sum records interval app_config th :
  String.eqb interval "all" = false ->
  Forall (fun r => exists start, bucket_start interval (timestamp r) = Ok start) records ->
  number_truediv_int (dict_get app_config "degraded_threshold" (NInt 200)) 1000 = Ok th ->
  exists out keys,
    aggregate_heartbeat_data sum records interval app_config = Ok out /\
    Sorted str_le keys /\ NoDup keys /\
    (forall k, k ∈ keys <-> exists r, r ∈ records /\ bucket_key interval r = k) /\
    Forall2 (fun key node =>
               members interval records key <> [] /\
               heartbeat_node sum th
                 (dict_get app_config "degraded_percentage_threshold" (NInt 10))
                 key (members interval records key) = Ok node)
      keys out.
Proof.
  intros Hall Hstarts Hth.
  destruct records as [|r0 records'] eqn:Hrecs.
  - exists [], []. repeat split; try constructor.
    + intros Hin. apply elem_of_nil in Hin. destruct Hin.
    + intros (r & Hin & _). apply elem_of_nil in Hin. destruct Hin.
  - rewrite <- Hrecs in *. 
    destruct (for_each_group_record interval records Hstarts) as (grouped & Hfor & Hg).
    destruct (sorted_keys_spec grouped) as (Hsorted & Hnodup & Hkeys).
    assert (Hkey_iff : forall k, k ∈ sorted_keys grouped <->
                                 exists r, r ∈ records /\ bucket_key interval r = k).
    { intros k. rewrite Hkeys, <- members_nonempty, (Hg k).
      destruct (members interval records k); split; intros H;
        try congruence; try (now inversion H); eauto. }
    set (pth := dict_get app_config "degraded_percentage_threshold" (NInt 10)).
    set (body := fun (aggregated : list (gmap string pyval)) (key : string) =>
                   group ← dict_item grouped key;
                   node ← heartbeat_node sum th pth key (g_records group);
                   Ok (aggregated ++ [node])).
    assert (Hnodes : Forall (fun key => exists node,
              (members interval records key <> [] /\
               heartbeat_node sum th pth key (members interval records key) = Ok node) /\
              forall acc, body acc key = Ok (acc ++ [node]))
              (sorted_keys grouped)).
    { apply Forall_forall. intros key Hin. apply Hkey_iff, members_nonempty in Hin.
      destruct (heartbeat_node_ok sum th pth key _ Hin) as (avg & ip & _ & _ & Hnode).
      eexists. split; [split; [exact Hin|exact Hnode]|]. intros acc. unfold body, dict_item.
      rewrite (Hg key).
      destruct (members interval records key) as [|r ms] eqn:Hms; [congruence|].
      rewrite bind_Ok. cbn [g_records]. rewrite Hnode, bind_Ok. reflexivity. }
    apply Forall_exists_Forall2_l in Hnodes. destruct Hnodes as [out Hout].
    exists out, (sorted_keys grouped).
    split; [|repeat split; auto; try apply Hkey_iff].
    + unfold aggregate_heartbeat_data. rewrite Hrecs at 1.
      rewrite Hall, Hfor, bind_Ok, Hth, bind_Ok.
      fold pth. fold body. change out with ([] ++ out). apply for_each_appends.
      eapply Forall2_impl; [exact Hout|]. intros key node [_ H]. exact H.
    + eapply Forall2_impl; [exact Hout|]. intros key node [H _]. exact H.
Qed.

(** ** The claims about the aggregator *)

(** *** From the master lemma to the nodes *)


Lemma starts_exist interval records :
  timestamps_valid records ->
  Forall (fun r => exists start, bucket_start interval (timestamp r) = Ok start) records.
Proof.
  intros H. eapply Forall_impl; [exact H|]. intros r Hv. cbv beta in Hv.
  destruct (bucket_start_valid interval (timestamp r) Hv) as (s & Hs & _). eauto.
Qed.

Lemma Forall2_elem_of_r {A B} (P : A -> B -> Prop) l k y :
  Forall2 P l k -> y ∈ k -> exists x, x ∈ l /\ P x y.
Proof.
  induction 1 as [|x y' l k Hxy _ IH]; intros Hin.
  - apply elem_of_nil in Hin. destruct Hin.
  - apply elem_of_cons in Hin. destruct Hin as [->|Hin].
    + exists x. split; [left|exact Hxy].
    + destruct (IH Hin) as (x' & Hx' & HP). exists x'. split; [now right|exact HP].
Qed.

Lemma Forall2_elem_of_l {A B} (P : A -> B -> Prop) l k x :
  Forall2 P l k -> x ∈ l -> exists y, y ∈ k /\ P x y.
Proof.
  induction 1 as [|x' y l k Hxy _ IH]; intros Hin.
  - apply elem_of_nil in Hin. destruct Hin.
  - apply elem_of_cons in Hin. destruct Hin as [->|Hin].
    + exists y. split; [left|exact Hxy].
    + destruct (IH Hin) as (y' & Hy' & HP). exists y'. split; [now right|exact HP].
Qed.

(** The fields of a node, read back from the dict. *)
Lemma heartbeat_node_fields sum th pth key recs node :
  recs <> [] ->
  heartbeat_node sum th pth key recs = Ok node ->
  exists avg ip,
    avg_response_time sum recs = Ok avg /\
    issue_percentage th recs = Ok (NFloat ip) /\
    node !! "timestamp"%string = Some (VStr key) /\
    node !! "is_up"%string
      = Some (VBool (String.eqb (status_of (down_count recs) (NFloat ip) pth) "up")) /\
    node !! "status"%string = Some (VStr (status_of (down_count recs) (NFloat ip) pth)) /\
    node !! "response_time"%string = Some (of_option VFloat avg) /\
    node !! "count"%string = Some (VInt (len recs)) /\
    node !! "avg_response_time"%string = Some (of_option VFloat avg) /\
    node !! "degraded_count"%string = Some (VInt (degraded_count th recs)) /\
    node !! "down_count"%string = Some (VInt (down_count recs)) /\
    node !! "issue_percentage"%string = Some (VFloat ip).
Proof.
  intros Hne Hnode.
  destruct (heartbeat_node_ok sum th pth key recs Hne) as (avg & ip & Havg & Hip & Hlit).
  cbv zeta in Hlit. rewrite Hlit in Hnode. injection Hnode as <-.
  exists avg, ip. split; [exact Havg|]. split; [exact Hip|].
  repeat split; reflexivity.
Qed.


Lemma bucketed_not_all interval : bucketed interval -> String.eqb interval "all" = false.
Proof. intros [-> | [-> | ->]]; reflexivity. Qed.

Lemma member_self interval records r :
  r ∈ records -> r ∈ members interval records (bucket_key interval r).
Proof.
  intros Hin. unfold members. apply list_elem_of_In, List.filter_In.
  split; [now apply list_elem_of_In|apply String.eqb_refl].
Qed.

Lemma down_count_pos recs r :
  r ∈ recs -> is_up r = false -> 0 < down_count recs.
Proof.
  intros Hin Hdown. unfold down_count. rewrite up_count_len. unfold len.
  induction recs as [|x recs IH]; [apply elem_of_nil in Hin; destruct Hin|].
  pose proof (List.filter_length_le is_up recs) as Hle.
  apply elem_of_cons in Hin. cbn [List.filter length]. destruct Hin as [<- |Hin].
  - rewrite Hdown. lia.
  - specialize (IH Hin). destruct (is_up x); cbn [length]; lia.
Qed.

(** C1.  At hour, day or week granularity every bucket carries the status
    its own counts dictate, by precedence: Down when down_count > 0;
    otherwise Degraded when the issue percentage, computed as
    (down_count + degraded_count) / count * 100, exceeds the configured
    degraded_percentage_threshold; otherwise Up.  And the bucket of a record
    with is_up = false is Down whatever its degraded_count. *)
Theorem status_precedence sum records interval app_config th :
  bucketed interval ->
  timestamps_valid records ->
  number_truediv_int (dict_get app_config "degraded_threshold" (NInt 200)) 1000 = Ok th ->
  exists out,
    aggregate_heartbeat_data sum records interval app_config = Ok out /\
    Forall (fun node =>
      exists down degraded count q,
        node !! "down_count"%string = Some (VInt down) /\
        node !! "degraded_count"%string = Some (VInt degraded) /\
        node !! "count"%string = Some (VInt count) /\
        Float64.int_truediv (down + degraded) count = Ok q /\
        node !! "issue_percentage"%string = Some (VFloat (float_mul_int q 100)) /\
        node !! "status"%string
        = Some (VStr
            (if 0 <? down then "down"
             else if float_gt_number (float_mul_int q 100)
                       (dict_get app_config "degraded_percentage_threshold" (NInt 10))
                  then "degraded"
                  else "up"))) out /\
    (forall r, r ∈ records -> is_up r = false ->
       exists node, node ∈ out /\
         node !! "timestamp"%string = Some (VStr (bucket_key interval r)) /\
         node !! "status"%string = Some (VStr "down")).
Proof.
  intros Hiv Hvalid Hth.
  destruct (aggregate_buckets sum records interval app_config th
              (bucketed_not_all _ Hiv) (starts_exist _ _ Hvalid) Hth)
    as (out & keys & Hout & _ & _ & Hkeys & Hnodes).
  exists out. split; [exact Hout|]. split.
  - apply Forall_forall. intros node Hin.
    destruct (Forall2_elem_of_r _ _ _ _ Hnodes Hin) as (key & _ & Hkey & Hnode).
    destruct (issue_percentage_ok th _ Hkey) as (q & Hq & _ & Hip).
    destruct (heartbeat_node_fields _ _ _ _ _ _ Hkey Hnode)
      as (avg & ip & _ & Hip' & _ & _ & Hstatus & _ & Hcount & _ & Hdeg & Hdown & Hperc).
    rewrite Hip in Hip'. injection Hip' as <-.
    eexists _, _, _, q. repeat split; eauto.
  - intros r Hin Hdown.
    assert (Hk : bucket_key interval r ∈ keys) by (apply Hkeys; eauto).
    destruct (Forall2_elem_of_l _ _ _ _ Hnodes Hk) as (node & Hnin & Hne & Hnode).
    pose proof (member_self interval records r Hin) as Hmem.
    destruct (heartbeat_node_fields _ _ _ _ _ _ Hne Hnode)
      as (avg & ip & _ & _ & Hts & _ & Hstatus & _).
    exists node. split; [exact Hnin|]. split; [exact Hts|].
    rewrite Hstatus. unfold status_of.
    pose proof (down_count_pos _ r Hmem Hdown) as Hpos.
    apply Z.ltb_lt in Hpos. rewrite Hpos. reflexivity.
Qed.

(** *** Ascending keys, ascending starts *)


Lemma str_le_ne_lt a b : str_le a b -> a <> b -> str_lt a b.
Proof.
  intros Hle Hne. apply str_le_compare in Hle. unfold str_lt.
  destruct (String.compare a b) eqn:Hc; [|reflexivity|congruence].
  apply String.compare_eq_iff in Hc. congruence.
Qed.

Lemma sorted_nodup_strict keys :
  Sorted str_le keys -> NoDup keys -> StronglySorted str_lt keys.
Proof.
  intros Hs Hn. apply Sorted_StronglySorted in Hs; [|apply _].
  induction Hs as [|k keys Hs IH Hall]; [constructor|].
  apply NoDup_cons in Hn. destruct Hn as [Hnotin Hn].
  constructor; [apply IH, Hn|].
  apply Forall_forall. intros k' Hin.
  apply str_le_ne_lt.
  - rewrite Forall_forall in Hall. apply Hall, Hin.
  - intros ->. apply Hnotin, Hin.
Qed.

Lemma lt_isoformat a b :
  Datetime.valid a = true -> Datetime.valid b = true ->
  str_lt (Datetime.isoformat a) (Datetime.isoformat b) -> dt_lt a b.
Proof.
  unfold str_lt, dt_lt, Datetime.ltb. intros Ha Hb H.
  rewrite compare_isoformat in H by assumption. now rewrite H.
Qed.

Lemma Forall2_Forall_transfer {A B} (Q : A -> B -> Prop) (P1 : A -> Prop) (P2 : B -> Prop) l k :
  (forall x y, Q x y -> P1 x -> P2 y) ->
  Forall2 Q l k -> Forall P1 l -> Forall P2 k.
Proof.
  intros HQ H. induction H as [|x y l k Hxy _ IH]; intros Hl; [constructor|].
  apply Forall_cons in Hl. destruct Hl as [Hx Hl].
  constructor; [eapply HQ; eauto|apply IH, Hl].
Qed.

Lemma sorted_starts keys starts :
  Forall2 (fun key start =>
             Datetime.valid start = true /\ Datetime.isoformat start = key) keys starts ->
  StronglySorted str_lt keys -> StronglySorted dt_lt starts.
Proof.
  intros H. induction H as [|k s keys starts [Hv Hk] Hrest IH]; intros Hs; [constructor|].
  apply StronglySorted_inv in Hs. destruct Hs as [Hs Hall].
  constructor; [apply IH, Hs|].
  eapply Forall2_Forall_transfer; [|exact Hrest|exact Hall].
  intros k' s' [Hv' Hk'] Hlt. cbv beta in Hlt.
  apply lt_isoformat; try assumption. now rewrite Hk, Hk'.
Qed.

Lemma Forall2_exists_third {A B C} (P : A -> B -> Prop) (Q : A -> C -> Prop) l k :
  Forall2 P l k -> Forall (fun x => exists z, Q x z) l ->
  exists m, Forall2 Q l m /\ Forall2 (fun y z => exists x, x ∈ l /\ P x y /\ Q x z) k m.
Proof.
  intros H. induction H as [|x y l k Hxy _ IH]; intros Hall.
  - exists []. split; constructor.
  - apply Forall_cons in Hall. destruct Hall as [[z Hz] Hall].
    destruct (IH Hall) as (m & HQ & HPQ).
    exists (z :: m). split; constructor; auto.
    + exists x. split; [left|auto].
    + eapply Forall2_impl; [exact HPQ|].
      intros y' z' (x' & Hin & HP & HQ'). exists x'. split; [now right|auto].
Qed.

(** C2.  Hour, day and week buckets start at the record's timestamp
    truncated: to the hour; to the calendar day; to 00:00 of the Monday on
    or before the day (its weekday is 0, it lies weekday(t) days before
    the day of t, and that is at most 6).  Every record is counted in
    the bucket that carries the isoformat of that start, and the buckets
    come out in strictly ascending order of their starts, whatever the
    order of the records. *)
Theorem buckets_truncated_ascending sum records interval app_config th :
  bucketed interval ->
  timestamps_valid records ->
  number_truediv_int (dict_get app_config "degraded_threshold" (NInt 200)) 1000 = Ok th ->
  (forall t, bucket_start "hour" t
             = Ok (Datetime.mkdatetime (Datetime.year t) (Datetime.month t)
                     (Datetime.day t) (Datetime.hour t) 0 0 0)) /\
  (forall t, bucket_start "day" t
             = Ok (Datetime.mkdatetime (Datetime.year t) (Datetime.month t)
                     (Datetime.day t) 0 0 0 0)) /\
  (forall t, Datetime.valid t = true ->
     exists start,
       bucket_start "week" t = Ok start /\
       Datetime.weekday start = 0 /\
       Datetime.hour start = 0 /\ Datetime.minute start = 0 /\
       Datetime.second start = 0 /\ Datetime.microsecond start = 0 /\
       Datetime.toordinal start = Datetime.toordinal t - Datetime.weekday t /\
       0 <= Datetime.weekday t <= 6 /\
       Datetime.leb start t = true) /\
  exists out,
    aggregate_heartbeat_data sum records interval app_config = Ok out /\
    (forall r, r ∈ records ->
       exists start node,
         bucket_start interval (timestamp r) = Ok start /\
         node ∈ out /\
         node !! "timestamp"%string = Some (VStr (Datetime.isoformat start)) /\
         r ∈ members interval records (Datetime.isoformat start) /\
         node !! "count"%string
         = Some (VInt (len (members interval records (Datetime.isoformat start))))) /\
    exists starts,
      Forall2 (fun node start =>
                 node !! "timestamp"%string = Some (VStr (Datetime.isoformat start)) /\
                 exists r, r ∈ records /\ bucket_start interval (timestamp r) = Ok start)
        out starts /\
      StronglySorted dt_lt starts.
Proof.
  intros Hiv Hvalid Hth.
  split; [intros t; apply bucket_start_hour|].
  split; [intros t; apply bucket_start_day|].
  split.
  { intros t Hv.
    destruct (bucket_start_week t Hv) as (s & Hs & Hvs & H1 & H2 & H3 & H4 & Hmon & Hord & Hwd).
    exists s. repeat split; auto; try lia.
    apply compare_dates_ordinal; auto. lia. }
  destruct (aggregate_buckets sum records interval app_config th
              (bucketed_not_all _ Hiv) (starts_exist _ _ Hvalid) Hth)
    as (out & keys & Hout & Hsorted & Hnodup & Hkeys & Hnodes).
  exists out. split; [exact Hout|]. split.
  - intros r Hin.
    unfold timestamps_valid in Hvalid. rewrite Forall_forall in Hvalid.
    destruct (bucket_start_valid interval (timestamp r) (Hvalid r Hin)) as (s & Hs & _).
    assert (Hkey : bucket_key interval r = Datetime.isoformat s).
    { unfold bucket_key, bucket_of. now rewrite Hs. }
    assert (Hk : bucket_key interval r ∈ keys) by (apply Hkeys; eauto).
    destruct (Forall2_elem_of_l _ _ _ _ Hnodes Hk) as (node & Hnin & Hne & Hnode).
    pose proof (member_self interval records r Hin) as Hmem.
    destruct (heartbeat_node_fields _ _ _ _ _ _ Hne Hnode)
      as (avg & ip & _ & _ & Hts & _ & _ & _ & Hcount & _).
    exists s, node. rewrite <- Hkey. auto.
  - assert (Hstarts : Forall (fun key => exists start,
               (Datetime.valid start = true /\ Datetime.isoformat start = key) /\
               exists r, r ∈ records /\ bucket_start interval (timestamp r) = Ok start) keys).
    { apply Forall_forall. intros key Hin. apply Hkeys in Hin.
      destruct Hin as (r & Hin & Hkey).
      unfold timestamps_valid in Hvalid. rewrite Forall_forall in Hvalid.
      destruct (bucket_start_valid interval (timestamp r) (Hvalid r Hin)) as (s & Hs & Hvs & _).
      exists s. split; [split; [exact Hvs|]|eauto].
      rewrite <- Hkey. unfold bucket_key, bucket_of. now rewrite Hs. }
    destruct (Forall2_exists_third _ _ _ _ Hnodes Hstarts) as (starts & HQ & HPQ).
    exists starts. split.
    + eapply Forall2_impl; [exact HPQ|].
      intros node start (key & Hkin & (Hne & Hnode) & (Hv & Hiso) & Hr). cbv beta in *.
      split; [|exact Hr].
      destruct (heartbeat_node_fields _ _ _ _ _ _ Hne Hnode) as (avg & ip & _ & _ & Hts & _).
      now rewrite Hiso.
    + apply (sorted_starts keys).
      * eapply Forall2_impl; [exact HQ|]. intros key start [H _]. exact H.
      * apply sorted_nodup_strict; assumption.
Qed.

(** *** The "all" interval *)

Lemma aggregate_all sum records app_config th :
  number_truediv_int (dict_get app_config "degraded_threshold" (NInt 200)) 1000 = Ok th ->
  aggregate_heartbeat_data sum records "all" app_config
  = Ok (map (heartbeat_all th) records).
Proof.
  intros Hth. unfold aggregate_heartbeat_data.
  destruct records as [|r0 records']; [reflexivity|].
  change (String.eqb "all" "all") with true. cbv iota. rewrite Hth, bind_Ok.
  change (map (heartbeat_all th) (r0 :: records'))
    with ([] ++ map (heartbeat_all th) (r0 :: records')).
  apply for_each_appends.
  generalize (r0 :: records'). intros l. induction l; constructor; auto.
Qed.

(** C3.  With interval "all" every record becomes one node, in the order
    of the input: the output is as long as the input, and the node at each
    position copies its record, with count 1, degraded_count 1 exactly
    when the record is up with a response time above
    degraded_threshold / 1000, down_count 1 exactly when it is not up,
    and neither a status nor an issue_percentage. *)
Theorem all_is_pass_through sum records app_config th :
  number_truediv_int (dict_get app_config "degraded_threshold" (NInt 200)) 1000 = Ok th ->
  exists out,
    aggregate_heartbeat_data sum records "all" app_config = Ok out /\
    length out = length records /\
    Forall2 (fun r node =>
      node !! "timestamp"%string = Some (VStr (Datetime.isoformat (timestamp r))) /\
      node !! "is_up"%string = Some (VBool (is_up r)) /\
      node !! "response_time"%string = Some (of_option VFloat (response_time r)) /\
      node !! "status_code"%string = Some (of_option VInt (status_code r)) /\
      node !! "count"%string = Some (VInt 1) /\
      node !! "avg_response_time"%string = Some (of_option VFloat (response_time r)) /\
      node !! "degraded_count"%string
      = Some (VInt (if is_up r
                       && match response_time r with
                          | Some t => Float64.ltb th t
                          | None => false
                          end
                    then 1 else 0)) /\
      node !! "down_count"%string = Some (VInt (if is_up r then 0 else 1)) /\
      node !! "status"%string = None /\
      node !! "issue_percentage"%string = None)
      records out.
Proof.
  intros Hth. exists (map (heartbeat_all th) records).
  split; [now apply aggregate_all|]. split; [apply length_map|].
  induction records as [|r records IH]; constructor; [|exact IH].
  repeat split; reflexivity.
Qed.

(** *** Counting the records of the buckets *)

Lemma sum_ints_cons x l : sum_ints (x :: l) = x + sum_ints l.
Proof.
  unfold sum_ints. cbn [fold_left].
  assert (H : forall l a b, fold_left Z.add l (a + b) = a + fold_left Z.add l b).
  { clear. induction l as [|y l IH]; intros a b; cbn [fold_left]; [reflexivity|].
    rewrite <- IH. f_equal. lia. }
  rewrite <- H. f_equal. lia.
Qed.

Lemma sum_ints_add {A} (f g : A -> Z) l :
  sum_ints (map (fun x => f x + g x) l) = sum_ints (map f l) + sum_ints (map g l).
Proof.
  induction l as [|x l IH]; [reflexivity|].
  cbn [map]. rewrite !sum_ints_cons, IH. lia.
Qed.

Lemma sum_ints_zero {A} (f : A -> Z) l :
  (forall x, x ∈ l -> f x = 0) -> sum_ints (map f l) = 0.
Proof.
  induction l as [|x l IH]; intros H; [reflexivity|].
  cbn [map]. rewrite sum_ints_cons, IH, H; [reflexivity|left|].
  intros y Hy. apply H. now right.
Qed.

Lemma sum_ints_indicator (key : string) keys :
  NoDup keys -> key ∈ keys ->
  sum_ints (map (fun k => if String.eqb key k then 1 else 0) keys) = 1.
Proof.
  induction keys as [|k keys IH]; intros Hn Hin; [apply elem_of_nil in Hin; destruct Hin|].
  apply NoDup_cons in Hn. destruct Hn as [Hnotin Hn].
  cbn [map]. rewrite sum_ints_cons.
  destruct (String.eqb_spec key k) as [->|Hne].
  - rewrite sum_ints_zero; [reflexivity|].
    intros k' Hk'. destruct (String.eqb_spec k k') as [->|]; [contradiction|reflexivity].
  - apply elem_of_cons in Hin. destruct Hin as [->|Hin]; [congruence|].
    rewrite IH by assumption. reflexivity.
Qed.

Lemma sum_members interval records keys :
  NoDup keys ->
  (forall r, r ∈ records -> bucket_key interval r ∈ keys) ->
  sum_ints (map (fun k => len (members interval records k)) keys) = len records.
Proof.
  intros Hn. induction records as [|r records IH]; intros Hcover.
  - apply sum_ints_zero. intros; reflexivity.
  - assert (Hstep : forall k, len (members interval (r :: records) k)
                      = (if String.eqb (bucket_key interval r) k then 1 else 0)
                        + len (members interval records k)).
    { intros k. unfold members, len. cbn [List.filter].
      destruct (String.eqb (bucket_key interval r) k); cbn [length]; lia. }
    rewrite (map_ext _ _ Hstep), sum_ints_add, sum_ints_indicator, IH.
    + unfold len. cbn [length]. lia.
    + intros r' Hr'. apply Hcover. now right.
    + exact Hn.
    + apply Hcover. left.
Qed.

(** C4.  At hour, day or week granularity the counts of the buckets add up
    to the number of records. *)
Theorem counts_sum_to_length sum records interval app_config th :
  bucketed interval ->
  timestamps_valid records ->
  number_truediv_int (dict_get app_config "degraded_threshold" (NInt 200)) 1000 = Ok th ->
  exists out counts,
    aggregate_heartbeat_data sum records interval app_config = Ok out /\
    Forall2 (fun node count => node !! "count"%string = Some (VInt count)) out counts /\
    sum_ints counts = len records.
Proof.
  intros Hiv Hvalid Hth.
  destruct (aggregate_buckets sum records interval app_config th
              (bucketed_not_all _ Hiv) (starts_exist _ _ Hvalid) Hth)
    as (out & keys & Hout & _ & Hnodup & Hkeys & Hnodes).
  exists out, (map (fun k => len (members interval records k)) keys).
  split; [exact Hout|]. split.
  - apply Forall2_fmap_r, Forall2_flip.
    eapply Forall2_impl; [exact Hnodes|].
    intros key node [Hne Hnode]. cbv beta.
    destruct (heartbeat_node_fields _ _ _ _ _ _ Hne Hnode)
      as (avg & ip & _ & _ & _ & _ & _ & _ & Hcount & _).
    exact Hcount.
  - apply sum_members; [exact Hnodup|]. intros r Hin. apply Hkeys. eauto.
Qed.

(** *** The invariants of a bucket *)



(** C9.  In every bucket at hour, day or week granularity is_up is the
    value of status == "up": true for an Up bucket, false for a Down and
    for a Degraded one, also when all its records are up. *)
Theorem is_up_iff_status_up sum records interval app_config th :
  bucketed interval ->
  timestamps_valid records ->
  number_truediv_int (dict_get app_config "degraded_threshold" (NInt 200)) 1000 = Ok th ->
  exists out,
    aggregate_heartbeat_data sum records interval app_config = Ok out /\
    Forall (fun node =>
      exists status,
        node !! "status"%string = Some (VStr status) /\
        (status = "up" \/ status = "degraded" \/ status = "down")%string /\
        node !! "is_up"%string = Some (VBool (String.eqb status "up")) /\
        (status = "up"%string -> node !! "is_up"%string = Some (VBool true)) /\
        (status = "degraded"%string -> node !! "is_up"%string = Some (VBool false)) /\
        (status = "down"%string -> node !! "is_up"%string = Some (VBool false))) out.
Proof.
  intros Hiv Hvalid Hth.
  destruct (aggregate_buckets sum records interval app_config th
              (bucketed_not_all _ Hiv) (starts_exist _ _ Hvalid) Hth)
    as (out & keys & Hout & _ & _ & _ & Hnodes).
  exists out. split; [exact Hout|].
  apply Forall_forall. intros node Hin.
  destruct (Forall2_elem_of_r _ _ _ _ Hnodes Hin) as (key & _ & Hne & Hnode).
  destruct (heartbeat_node_fields _ _ _ _ _ _ Hne Hnode)
    as (avg & ip & _ & _ & _ & Hup & Hstatus & _).
  eexists. split; [exact Hstatus|]. split.
  { unfold status_of. destruct (0 <? _); [auto|]. destruct (number_gt _ _); auto. }
  split; [exact Hup|].
  rewrite Hup. repeat split; intros ->; reflexivity.
Qed.

(** *** Intervals the code does not know *)

Lemma string_compare_refl s : String.compare s s = Eq.
Proof.
  pose proof (String.compare_antisym s s) as H.
  destruct (String.compare s s); [reflexivity|discriminate|discriminate].
Qed.

Lemma string_eqb_compare a b :
  String.eqb a b = match String.compare a b with Eq => true | _ => false end.
Proof.
  destruct (String.eqb_spec a b) as [->|Hne].
  - now rewrite string_compare_refl.
  - destruct (String.compare a b) eqn:Hc; try reflexivity.
    apply String.compare_eq_iff in Hc. contradiction.
Qed.

Lemma eqb_isoformat a b :
  Datetime.valid a = true -> Datetime.valid b = true ->
  String.eqb (Datetime.isoformat a) (Datetime.isoformat b) = Datetime.eqb a b.
Proof.
  intros Ha Hb. rewrite string_eqb_compare, compare_isoformat by assumption. reflexivity.
Qed.

(** The status of a node follows from its own counts. *)
Lemma node_status_by_precedence sum th pth key recs node :
  recs <> [] ->
  heartbeat_node sum th pth key recs = Ok node ->
  exists down degraded count q,
    node !! "down_count"%string = Some (VInt down) /\
    node !! "degraded_count"%string = Some (VInt degraded) /\
    node !! "count"%string = Some (VInt count) /\
    Float64.int_truediv (down + degraded) count = Ok q /\
    node !! "issue_percentage"%string = Some (VFloat (float_mul_int q 100)) /\
    node !! "status"%string
    = Some (VStr
        (if 0 <? down then "down"
         else if float_gt_number (float_mul_int q 100) pth then "degraded"
         else "up")).
Proof.
  intros Hne Hnode.
  destruct (issue_percentage_ok th _ Hne) as (q & Hq & _ & Hip).
  destruct (heartbeat_node_fields _ _ _ _ _ _ Hne Hnode)
    as (avg & ip & _ & Hip' & _ & _ & Hstatus & _ & Hcount & _ & Hdeg & Hdown & Hperc).
  rewrite Hip in Hip'. injection Hip' as <-.
  eexists _, _, _, q. repeat split; eauto.
Qed.


(** C10.  An interval other than "all", "hour", "day" and "week" is not an
    error.  The bucket of a timestamp is the timestamp itself, so a record
    is counted in the node that carries the isoformat of its own timestamp,
    together with exactly the records that have the same timestamp; every
    node carries the timestamp of some record, and a status by the same
    precedence as at hour, day and week, which the nodes of the "all"
    interval do not have. *)
Theorem unknown_interval_buckets sum records interval app_config th :
  unknown_interval interval ->
  timestamps_valid records ->
  number_truediv_int (dict_get app_config "degraded_threshold" (NInt 200)) 1000 = Ok th ->
  (forall t, bucket_start interval t = Ok t) /\
  (exists out,
    aggregate_heartbeat_data sum records interval app_config = Ok out /\
    (forall r, r ∈ records ->
       exists node, node ∈ out /\
         node !! "timestamp"%string = Some (VStr (Datetime.isoformat (timestamp r))) /\
         node !! "count"%string
         = Some (VInt (len (List.filter
                              (fun r' => Datetime.eqb (timestamp r') (timestamp r))
                              records)))) /\
    Forall (fun node =>
      (exists r, r ∈ records /\
         node !! "timestamp"%string = Some (VStr (Datetime.isoformat (timestamp r)))) /\
      exists down degraded count q,
        node !! "down_count"%string = Some (VInt down) /\
        node !! "degraded_count"%string = Some (VInt degraded) /\
        node !! "count"%string = Some (VInt count) /\
        Float64.int_truediv (down + degraded) count = Ok q /\
        node !! "issue_percentage"%string = Some (VFloat (float_mul_int q 100)) /\
        node !! "status"%string
        = Some (VStr
            (if 0 <? down then "down"
             else if float_gt_number (float_mul_int q 100)
                       (dict_get app_config "degraded_percentage_threshold" (NInt 10))
                  then "degraded"
                  else "up"))) out) /\
  (exists out_all,
    aggregate_heartbeat_data sum records "all" app_config = Ok out_all /\
    Forall (fun node => node !! "status"%string = None) out_all).
Proof.
  intros (Hall & Hh & Hd & Hw) Hvalid Hth.
  apply String.eqb_neq in Hall, Hh, Hd, Hw.
  assert (Hstart : forall t, bucket_start interval t = Ok t)
    by (intros t; now apply bucket_start_other).
  assert (Hkey : forall r, bucket_key interval r = Datetime.isoformat (timestamp r)).
  { intros r. unfold bucket_key, bucket_of. now rewrite Hstart. }
  split; [exact Hstart|]. split.
  - destruct (aggregate_buckets sum records interval app_config th
                Hall (starts_exist _ _ Hvalid) Hth)
      as (out & keys & Hout & _ & _ & Hkeys & Hnodes).
    exists out. split; [exact Hout|]. split.
    + intros r Hin.
      assert (Hk : bucket_key interval r ∈ keys) by (apply Hkeys; eauto).
      destruct (Forall2_elem_of_l _ _ _ _ Hnodes Hk) as (node & Hnin & Hne & Hnode).
      destruct (heartbeat_node_fields _ _ _ _ _ _ Hne Hnode)
        as (avg & ip & _ & _ & Hts & _ & _ & _ & Hcount & _).
      exists node. split; [exact Hnin|]. rewrite <- Hkey. split; [exact Hts|].
      rewrite Hcount. do 3 f_equal. unfold members.
      apply List.filter_ext_in. intros r' Hin'.
      unfold timestamps_valid in Hvalid. rewrite Forall_forall in Hvalid.
      rewrite !Hkey. apply eqb_isoformat; apply Hvalid; [now apply list_elem_of_In|exact Hin].
    + apply Forall_forall. intros node Hin.
      destruct (Forall2_elem_of_r _ _ _ _ Hnodes Hin) as (key & Hkin & Hne & Hnode).
      split.
      * apply Hkeys in Hkin. destruct Hkin as (r & Hr & Hrk).
        exists r. split; [exact Hr|].
        destruct (heartbeat_node_fields _ _ _ _ _ _ Hne Hnode) as (avg & ip & _ & _ & Hts & _).
        now rewrite <- Hkey, Hrk.
      * eapply node_status_by_precedence; eassumption.
  - exists (map (heartbeat_all th) records). split; [now apply aggregate_all|].
    apply Forall_forall. intros node Hin. apply list_elem_of_fmap in Hin.
    destruct Hin as (r & -> & _). reflexivity.
Qed.

(** *** Permuted input *)








Lemma keys_unique (keys1 keys2 : list string) :
  Sorted str_le keys1 -> NoDup keys1 -> Sorted str_le keys2 -> NoDup keys2 ->
  (forall k, k ∈ keys1 <-> k ∈ keys2) -> keys1 = keys2.
Proof.
  intros Hs1 Hn1 Hs2 Hn2 Hiff.
  apply (Sorted_unique str_le); try assumption.
  apply NoDup_Permutation; assumption.
Qed.

Lemma Forall2_same_left {A B} (P Q : A -> B -> Prop) (R : B -> B -> Prop) l k1 k2 :
  (forall x y1 y2, P x y1 -> Q x y2 -> R y1 y2) ->
  Forall2 P l k1 -> Forall2 Q l k2 -> Forall2 R k1 k2.
Proof.
  intros HR H1. revert k2. induction H1 as [|x y1 l k1 Hxy _ IH]; intros k2 H2.
  - apply Forall2_nil_inv_l in H2. subst. constructor.
  - apply Forall2_cons_inv_l in H2. destruct H2 as (y2 & k2' & Hy2 & Hk2 & ->).
    constructor; [eapply HR; eauto|apply IH, Hk2].
Qed.



(** *** The mean depends on the order *)





(** ** The status endpoints *)

(** *** The order of datetimes *)

Lemma datetime_compare_fields_trans a b c :
  length a = length b -> length b = length c ->
  Datetime.compare_fields a b <> Gt -> Datetime.compare_fields b c <> Gt ->
  Datetime.compare_fields a c <> Gt.
Proof.
  revert b c. induction a as [|x a IH]; intros [|y b] [|z c]; cbn [length];
    try discriminate; cbn [Datetime.compare_fields]; try congruence.
  intros Hab Hbc.
  destruct (Z.compare_spec x y), (Z.compare_spec y z), (Z.compare_spec x z);
    try congruence; try lia.
  apply IH; congruence.
Qed.

Lemma datetime_leb_trans a b c :
  Datetime.leb a b = true -> Datetime.leb b c = true -> Datetime.leb a c = true.
Proof.
  unfold Datetime.leb, Datetime.compare. intros Hab Hbc.
  pose proof (datetime_compare_fields_trans (Datetime.fields a) (Datetime.fields b)
                (Datetime.fields c) eq_refl eq_refl) as H.
  destruct (Datetime.compare_fields (Datetime.fields a) (Datetime.fields b)) eqn:E1;
  destruct (Datetime.compare_fields (Datetime.fields b) (Datetime.fields c)) eqn:E2;
  destruct (Datetime.compare_fields (Datetime.fields a) (Datetime.fields c)) eqn:E3;
    try reflexivity; try discriminate; exfalso; apply H; congruence.
Qed.

Lemma datetime_leb_refl a : Datetime.leb a a = true.
Proof. unfold Datetime.leb. now rewrite datetime_compare_refl. Qed.

#[local] Instance in_order_trans o : Transitive (in_order o).
Proof.
  intros a b c. destruct o; cbn [in_order]; rewrite !Is_true_true; intros H1 H2.
  - eapply datetime_leb_trans; eassumption.
  - eapply datetime_leb_trans; eassumption.
Qed.

(** The last of an ascending answer is a most recent record. *)
Lemma last_is_latest records latest :
  Sorted (in_order Ascending) records ->
  last records = Some latest ->
  latest ∈ records /\
  forall r, r ∈ records -> Datetime.leb (timestamp r) (timestamp latest) = true.
Proof.
  intros Hs Hlast. apply Sorted_StronglySorted in Hs; [|apply _].
  apply last_Some in Hlast. destruct Hlast as [l' ->].
  split; [apply elem_of_app; right; left|].
  intros r Hin. apply elem_of_app in Hin. destruct Hin as [Hin|Hin].
  - apply StronglySorted_app in Hs. destruct Hs as (Hall & _ & _).
    apply Is_true_true. apply (Hall r latest Hin). left.
  - apply list_elem_of_singleton in Hin. subst. apply datetime_leb_refl.
Qed.

(** *** The loop over the configuration *)

(** A loop that appends what [f] returns collects the results of [f] in
    order, and raises what [f] raises first. *)
Lemma for_each_collect {A B} (f : A -> result B) (l : list A) :
  forall acc,
    (forall out,
       for_each (fun acc x => y ← f x; Ok (acc ++ [y])) acc l = Ok out <->
       exists ys, out = acc ++ ys /\ Forall2 (fun x y => f x = Ok y) l ys) /\
    (forall e,
       for_each (fun acc x => y ← f x; Ok (acc ++ [y])) acc l = Raise e <->
       exists l1 x l2,
         l = l1 ++ x :: l2 /\ Forall (fun x => exists y, f x = Ok y) l1 /\
         f x = Raise e).
Proof.
  induction l as [|x l IH]; intros acc.
  - cbn [for_each]. split.
    + intros out. split.
      * intros [= <-]. exists []. split; [now rewrite app_nil_r|constructor].
      * intros (ys & -> & H). apply Forall2_nil_inv_l in H. subst.
        now rewrite app_nil_r.
    + intros e. split; [discriminate|].
      intros (l1 & x & l2 & Heq & _). now destruct l1.
  - cbn [for_each]. destruct (f x) as [y|e0] eqn:Hfx.
    + rewrite bind_Ok. destruct (IH (acc ++ [y])) as [IHok IHraise]. split.
      * intros out. rewrite IHok. split.
        -- intros (ys & -> & H). exists (y :: ys).
           split; [now rewrite <- app_assoc|]. now constructor.
        -- intros (ys & -> & H).
           apply Forall2_cons_inv_l in H as (y' & ys' & Hy' & H & ->).
           assert (y' = y) as -> by congruence.
           exists ys'. split; [now rewrite <- app_assoc|exact H].
      * intros e. rewrite IHraise. split.
        -- intros (l1 & x' & l2 & -> & Hl1 & Hx'). exists (x :: l1), x', l2.
           split; [reflexivity|]. split; [constructor; eauto|exact Hx'].
        -- intros (l1 & x' & l2 & Heq & Hl1 & Hx').
           destruct l1 as [|x0 l1]; cbn in Heq; injection Heq as Hx Hl; subst.
           ++ rewrite Hfx in Hx'. discriminate.
           ++ apply Forall_cons in Hl1 as [_ Hl1]. eauto 6.
    + rewrite bind_Raise. split.
      * intros out. split; [discriminate|].
        intros (ys & _ & H). apply Forall2_cons_inv_l in H as (y & _ & Hy & _).
        congruence.
      * intros e. split.
        -- intros [= <-]. exists [], x, l. split; [reflexivity|]. split; [constructor|exact Hfx].
        -- intros (l1 & x' & l2 & Heq & Hl1 & Hx').
           destruct l1 as [|x0 l1]; cbn in Heq; injection Heq as Hx Hl; subst.
           ++ rewrite Hfx in Hx'. now injection Hx' as <-.
           ++ apply Forall_cons in Hl1 as [[y Hy] _]. rewrite Hfx in Hy. discriminate.
Qed.

(** The entry of a monitor that has a name and a url. *)
Lemma monitor_data_ok db cutoff_time (monitor : gmap string pyval) name url :
  monitor !! "name"%string = Some name ->
  monitor !! "url"%string = Some url ->
  monitor_data db cutoff_time monitor
  = Ok (VDict (list_to_map
      [ ("name", name);
        ("url", url);
        ("current_status",
          current_status (latest_of (query_records db name cutoff_time Ascending)));
        ("history",
          VList (map status_record (query_records db name cutoff_time Ascending))) ]%string)).
Proof.
  intros Hname Hurl. unfold monitor_data, dict_item. now rewrite Hname, Hurl.
Qed.

(** A monitor without a name or without a url is a KeyError. *)
Lemma monitor_data_raise db cutoff_time (monitor : gmap string pyval) e :
  monitor_data db cutoff_time monitor = Raise e <->
  (monitor !! "name"%string = None /\ e = KeyError "name") \/
  (is_Some (monitor !! "name"%string) /\ monitor !! "url"%string = None /\
   e = KeyError "url").
Proof.
  unfold monitor_data, dict_item.
  destruct (monitor !! "name"%string) as [name|] eqn:Hname;
    destruct (monitor !! "url"%string) as [url|] eqn:Hurl; cbn; split.
  - discriminate.
  - intros [[? _]|(_ & ? & _)]; discriminate.
  - intros [= <-]. right. eauto.
  - intros [[? _]|(_ & _ & ->)]; [discriminate|reflexivity].
  - intros [= <-]. left. eauto.
  - intros [[_ ->]|([? ?] & _)]; [reflexivity|discriminate].
  - intros [= <-]. left. eauto.
  - intros [[_ ->]|([? ?] & _)]; [reflexivity|discriminate].
Qed.

Lemma get_all_status_ok monitors_config db now now' hours cutoff_time monitors :
  cutoff now hours = Ok cutoff_time ->
  Forall2 (fun monitor entry => monitor_data db cutoff_time monitor = Ok entry)
    monitors_config monitors ->
  get_all_status monitors_config db now now' hours
  = Ok (list_to_map
      [ ("timestamp", VStr (Datetime.isoformat now'));
        ("monitors", VList monitors) ]%string).
Proof.
  intros Hc H. unfold get_all_status. rewrite Hc, bind_Ok.
  destruct (for_each_collect (monitor_data db cutoff_time) monitors_config []) as [Hok _].
  rewrite (proj2 (Hok monitors)); [reflexivity|]. exists monitors. split; [reflexivity|exact H].
Qed.

Lemma get_all_status_overflow monitors_config db now now' hours :
  cutoff now hours = Raise OverflowError ->
  get_all_status monitors_config db now now' hours = Raise OverflowError.
Proof. intros Hc. unfold get_all_status. now rewrite Hc. Qed.

(** The entries of a configuration whose monitors all have a name, a
    str, and a url. *)
Lemma monitors_status_exist db cutoff_time (monitors_config : list (gmap string pyval)) :
  Forall (fun monitor : gmap string pyval =>
            exists (name : string) (url : pyval),
              monitor !! "name"%string = Some (VStr name) /\
              monitor !! "url"%string = Some url) monitors_config ->
  exists monitors,
    Forall2 (fun (monitor : gmap string pyval) entry =>
               exists (name : string) (url : pyval),
                 monitor !! "name"%string = Some (VStr name) /\
                 monitor !! "url"%string = Some url /\
                 monitor_data db cutoff_time monitor = Ok entry /\
                 entry = VDict (list_to_map
                   [ ("name", VStr name);
                     ("url", url);
                     ("current_status",
                       current_status
                         (latest_of (query_records db (VStr name) cutoff_time Ascending)));
                     ("history",
                       VList (map status_record
                                (query_records db (VStr name) cutoff_time Ascending))) ]%string))
      monitors_config monitors.
Proof.
  induction 1 as [|monitor l (name & url & Hname & Hurl) _ (monitors & IH)].
  - exists []. constructor.
  - eexists (_ :: monitors). constructor; [|exact IH].
    exists name, url. split; [exact Hname|]. split; [exact Hurl|].
    split; [exact (monitor_data_ok db cutoff_time monitor (VStr name) url Hname Hurl)|].
    reflexivity.
Qed.

(** The dicts of the records, as the two endpoints write them. *)
Lemma history_records records :
  map status_record records
  = map (fun r => VDict (list_to_map
           [ ("timestamp", VStr (Datetime.isoformat (timestamp r)));
             ("is_up", VBool (is_up r));
             ("status_code", of_option VInt (status_code r));
             ("response_time", of_option VFloat (response_time r)) ]%string)) records.
Proof.
  apply map_ext. intros r. unfold status_record.
  destruct (status_code r), (response_time r); reflexivity.
Qed.

(** C5, as the code has it.  For a configuration whose monitors each
    have a name, a str, and a url, and a look-back that ends within the
    years 1 to 9999, get_all_status answers with one entry per configured
    monitor, in the order of the configuration.  The cutoff is the
    instant [hours] hours before now; the entry of a monitor is built
    from the rows of that monitor with timestamp >= cutoff, oldest first:
    history holds the dict of each of these rows, field by field, in that
    order; current_status is read from the last of them, which no other
    is later than, and holds None four times when there is none.  When
    the look-back ends outside the years 1 to 9999 the call raises
    OverflowError and answers nothing. *)
Theorem all_status_by_configuration (monitors_config : list (gmap string pyval))
    db table now now' hours :
  answers table db ->
  Datetime.valid now = true ->
  Forall (fun monitor : gmap string pyval =>
            exists (name : string) (url : pyval),
              monitor !! "name"%string = Some (VStr name) /\
              monitor !! "url"%string = Some url) monitors_config ->
  let days := (instant now - hours * 3600 * 1000000) / Datetime.US_PER_DAY in
  (1 <= days <= Datetime.MAXORDINAL ->
   exists cutoff_time response monitors,
     Datetime.valid cutoff_time = true /\
     instant cutoff_time = instant now - hours * 3600 * 1000000 /\
     get_all_status monitors_config db now now' hours = Ok response /\
     response !! "monitors"%string = Some (VList monitors) /\
     response !! "timestamp"%string = Some (VStr (Datetime.isoformat now')) /\
     Forall2 (fun (monitor : gmap string pyval) entry =>
       exists (name : string) (url : pyval) records data,
         monitor !! "name"%string = Some (VStr name) /\
         monitor !! "url"%string = Some url /\
         records = query_records db (VStr name) cutoff_time Ascending /\
         records ≡ₚ List.filter
                      (fun r => String.eqb (monitor_name r) name
                                && Datetime.leb cutoff_time (timestamp r)) table /\
         Sorted (fun a b => Is_true (Datetime.leb (timestamp a) (timestamp b))) records /\
         entry = VDict data /\
         data !! "name"%string = Some (VStr name) /\
         data !! "url"%string = Some url /\
         data !! "history"%string
         = Some (VList (map (fun r => VDict (list_to_map
               [ ("timestamp", VStr (Datetime.isoformat (timestamp r)));
                 ("is_up", VBool (is_up r));
                 ("status_code", of_option VInt (status_code r));
                 ("response_time", of_option VFloat (response_time r)) ]%string))
             records)) /\
         match last records with
         | None =>
             records = [] /\
             data !! "current_status"%string
             = Some (VDict (list_to_map
                 [ ("is_up", VNone); ("status_code", VNone);
                   ("response_time", VNone); ("timestamp", VNone) ]%string))
         | Some latest =>
             latest ∈ records /\
             (forall r, r ∈ records ->
                Datetime.leb (timestamp r) (timestamp latest) = true) /\
             data !! "current_status"%string
             = Some (VDict (list_to_map
                 [ ("is_up", VBool (is_up latest));
                   ("status_code", of_option VInt (status_code latest));
                   ("response_time", of_option VFloat (response_time latest));
                   ("timestamp", VStr (Datetime.isoformat (timestamp latest))) ]%string))
         end)
       monitors_config monitors) /\
  (~ 1 <= days <= Datetime.MAXORDINAL ->
   get_all_status monitors_config db now now' hours = Raise OverflowError).
Proof.
  intros Hdb Hv Hconfig days.
  destruct (cutoff_spec now hours Hv) as [Hok Hraise]. fold days in Hok, Hraise.
  split; [|intros Hr; apply get_all_status_overflow, Hraise, Hr].
  intros Hr. destruct (Hok Hr) as (cutoff_time & Hcut & Hvc & Hi).
  destruct (monitors_status_exist db cutoff_time monitors_config Hconfig)
    as (monitors & Hmonitors).
  exists cutoff_time.
  exists (list_to_map
            [ ("timestamp", VStr (Datetime.isoformat now'));
              ("monitors", VList monitors) ]%string), monitors.
  split; [exact Hvc|]. split; [exact Hi|]. split.
  { apply (get_all_status_ok _ _ _ _ _ cutoff_time); [exact Hcut|].
    eapply Forall2_impl; [exact Hmonitors|].
    intros monitor entry (name & url & _ & _ & Hdata & _). exact Hdata. }
  split; [reflexivity|]. split; [reflexivity|].
  eapply Forall2_impl; [exact Hmonitors|].
  intros monitor entry (name & url & Hname & Hurl & _ & ->).
  destruct (Hdb name cutoff_time Ascending) as [Hperm Hsorted].
  exists name, url. eexists _, _.
  split; [exact Hname|]. split; [exact Hurl|]. split; [reflexivity|].
  split; [exact Hperm|]. split; [exact Hsorted|].
  split; [reflexivity|]. split; [reflexivity|]. split; [reflexivity|]. split.
  { rewrite history_records. reflexivity. }
  unfold latest_of.
  destruct (last (query_records db (VStr name) cutoff_time Ascending)) as [latest|] eqn:Hlast.
  - destruct (last_is_latest _ _ Hsorted Hlast) as [Hin Hmax].
    split; [exact Hin|]. split; [exact Hmax|]. reflexivity.
  - split; [now apply last_None|]. reflexivity.
Qed.

(** C6, as the code has it.  When the look-back ends within the years 1
    to 9999, get_monitor_status reads the rows of the monitor with
    timestamp >= now - hours, newest first, and raises the 404 exactly
    when there are none; in that case get_all_status, for a configuration
    that lists the monitor and whose monitors each have a name, a str,
    and a url, returns normally, with an entry for the monitor whose
    current_status holds None four times and whose history is empty.
    When the look-back ends outside the years 1 to 9999 both raise
    OverflowError, whatever the rows. *)
Theorem no_records_not_found_or_unknown (monitors_config : list (gmap string pyval))
    db table now now' hours (monitor : string) :
  answers table db ->
  Datetime.valid now = true ->
  let days := (instant now - hours * 3600 * 1000000) / Datetime.US_PER_DAY in
  (1 <= days <= Datetime.MAXORDINAL ->
   exists cutoff_time,
     Datetime.valid cutoff_time = true /\
     instant cutoff_time = instant now - hours * 3600 * 1000000 /\
     let records := query_records db (VStr monitor) cutoff_time Descending in
     let rows :=
       List.filter (fun r => String.eqb (monitor_name r) monitor
                             && Datetime.leb cutoff_time (timestamp r)) table in
     records ≡ₚ rows /\
     Sorted (fun a b => Is_true (Datetime.leb (timestamp b) (timestamp a))) records /\
     (rows = [] <->
      get_monitor_status db now monitor hours
      = Raise (HTTPException 404 ("Monitor '" ++ monitor ++ "' not found"))) /\
     (rows <> [] ->
      get_monitor_status db now monitor hours
      = Ok (list_to_map
          [ ("monitor_name", VStr monitor);
            ("records",
              VList (map (fun r => VDict (list_to_map
                  [ ("timestamp", VStr (Datetime.isoformat (timestamp r)));
                    ("status_code", of_option VInt (status_code r));
                    ("is_up", VBool (is_up r));
                    ("response_time", of_option VFloat (response_time r)) ]%string))
                records)) ]%string)) /\
     (rows = [] ->
      Forall (fun configured : gmap string pyval =>
                exists (name : string) (url : pyval),
                  configured !! "name"%string = Some (VStr name) /\
                  configured !! "url"%string = Some url) monitors_config ->
      forall configured : gmap string pyval,
        configured ∈ monitors_config ->
        configured !! "name"%string = Some (VStr monitor) ->
        exists response monitors data,
          get_all_status monitors_config db now now' hours = Ok response /\
          response !! "monitors"%string = Some (VList monitors) /\
          VDict data ∈ monitors /\
          data !! "name"%string = Some (VStr monitor) /\
          data !! "current_status"%string
          = Some (VDict (list_to_map
              [ ("is_up", VNone); ("status_code", VNone);
                ("response_time", VNone); ("timestamp", VNone) ]%string)) /\
          data !! "history"%string = Some (VList []))) /\
  (~ 1 <= days <= Datetime.MAXORDINAL ->
   get_monitor_status db now monitor hours = Raise OverflowError /\
   get_all_status monitors_config db now now' hours = Raise OverflowError).
Proof.
  intros Hdb Hv days.
  destruct (cutoff_spec now hours Hv) as [Hok Hraise]. fold days in Hok, Hraise.
  split.
  2:{ intros Hr. split; [|apply get_all_status_overflow, Hraise, Hr].
      unfold get_monitor_status. now rewrite (Hraise Hr). }
  intros Hr. destruct (Hok Hr) as (cutoff_time & Hcut & Hvc & Hi).
  exists cutoff_time. split; [exact Hvc|]. split; [exact Hi|].
  intros records rows.
  destruct (Hdb monitor cutoff_time Descending) as [Hperm Hsorted].
  change (records ≡ₚ rows) in Hperm. fold records in Hsorted.
  split; [exact Hperm|]. split; [exact Hsorted|].
  assert (Hget : get_monitor_status db now monitor hours
                 = match records with
                   | [] => Raise (HTTPException 404 ("Monitor '" ++ monitor ++ "' not found"))
                   | _ => Ok (list_to_map
                       [ ("monitor_name", VStr monitor);
                         ("records", VList (map status_record records)) ]%string)
                   end).
  { unfold get_monitor_status. rewrite Hcut, bind_Ok. fold records.
    destruct records; reflexivity. }
  split; [|split].
  - rewrite Hget. split.
    + intros Hnil. rewrite Hnil in Hperm. apply Permutation_nil_r in Hperm.
      now rewrite Hperm.
    + destruct records as [|r rs] eqn:Hrec; [|discriminate].
      intros _. now apply Permutation_nil_l in Hperm.
  - intros Hne. rewrite Hget.
    destruct records as [|r rs] eqn:Hrec.
    + apply Permutation_nil_l in Hperm. congruence.
    + reflexivity.
  - intros Hnil Hconfig configured Hin Hname.
    destruct (Hdb monitor cutoff_time Ascending) as [Hperm' _].
    change (query_records db (VStr monitor) cutoff_time Ascending ≡ₚ rows) in Hperm'.
    rewrite Hnil in Hperm'. apply Permutation_nil_r in Hperm'.
    destruct (monitors_status_exist db cutoff_time monitors_config Hconfig)
      as (monitors & Hmonitors).
    destruct (Forall2_elem_of_l _ _ _ _ Hmonitors Hin)
      as (entry & Hentry & name & url & Hname' & Hurl & _ & ->).
    assert (name = monitor) as -> by congruence.
    eexists _, monitors, _. split.
    { apply (get_all_status_ok _ _ _ _ _ cutoff_time); [exact Hcut|].
      eapply Forall2_impl; [exact Hmonitors|].
      intros m e (n & u & _ & _ & Hdata & _). exact Hdata. }
    split; [reflexivity|]. split; [exact Hentry|].
    unfold latest_of. rewrite Hperm'. repeat split; reflexivity.
Qed.

(** *** A session over a list of rows *)

Lemma datetime_compare_fields_antisym a b :
  Datetime.compare_fields a b = CompOpp (Datetime.compare_fields b a).
Proof.
  revert b. induction a as [|x a IH]; intros [|y b]; cbn [Datetime.compare_fields];
    try reflexivity.
  rewrite (Z.compare_antisym y x). destruct (y ?= x); cbn [CompOpp]; auto.
Qed.

Lemma datetime_leb_total a b : Datetime.leb a b = true \/ Datetime.leb b a = true.
Proof.
  unfold Datetime.leb, Datetime.compare.
  rewrite (datetime_compare_fields_antisym (Datetime.fields a) (Datetime.fields b)).
  destruct (Datetime.compare_fields (Datetime.fields b) (Datetime.fields a));
    cbn [CompOpp]; auto.
Qed.

#[local] Instance in_order_total o : Total (in_order o).
Proof.
  intros a b. destruct o; cbn [in_order]; rewrite !Is_true_true.
  - apply datetime_leb_total.
  - apply datetime_leb_total.
Qed.

Lemma table_session_answers table : answers table (table_session table).
Proof.
  intros monitor cutoff_time o. cbn [table_session query_records]. split.
  - apply merge_sort_Permutation.
  - apply Sorted_merge_sort, _.
Qed.

(** *** Look-backs that leave the calendar *)

(** C5 as the claim has it fails.  From noon on 2026-11-03, with two
    configured monitors and a store that answers, a look-back of one
    hundred million hours ends before year 1: get_all_status raises
    OverflowError, and no configured monitor appears in any output.  Nor
    does one at 24 hours when a configured monitor has no url: the call
    raises KeyError. *)
Lemma all_status_before_year_one :
  answers scenario_records (table_session scenario_records) /\
  Datetime.valid noon = true /\
  Forall (fun monitor : gmap string pyval =>
            exists (name : string) (url : pyval),
              monitor !! "name"%string = Some (VStr name) /\
              monitor !! "url"%string = Some url) (map config_dict two_monitors) /\
  length (map config_dict two_monitors) = 2%nat /\
  get_all_status (map config_dict two_monitors) (table_session scenario_records)
    noon noon 100000000
  = Raise OverflowError /\
  get_all_status [ {[ "name"%string := VStr "api" ]} ] (table_session scenario_records)
    noon noon 24
  = Raise (KeyError "url").
Proof.
  split; [apply table_session_answers|]. split; [reflexivity|].
  split; [repeat constructor; eexists _, _; split; reflexivity|].
  split; [reflexivity|]. split; vm_compute; reflexivity.
Qed.

(** C6 as the claim has it fails.  The configured monitor "web" has no
    row at all, so none in any window; from noon on 2026-11-03 with a
    look-back of 17758152 hours, which ends on the day before year 1,
    get_all_status raises OverflowError instead of returning an entry for
    it, and get_monitor_status raises OverflowError, not the 404. *)
Lemma rowless_monitor_overflows :
  answers scenario_records (table_session scenario_records) /\
  config_dict (mkMonitorConfig "web" "https://www.example.org/")
    ∈ map config_dict two_monitors /\
  (forall cutoff_time, List.filter (matches "web" cutoff_time) scenario_records = []) /\
  get_all_status (map config_dict two_monitors) (table_session scenario_records)
    noon noon 17758152
  = Raise OverflowError /\
  get_monitor_status (table_session scenario_records) noon "web" 17758152
  = Raise OverflowError /\
  get_monitor_status (table_session scenario_records) noon "web" 17758152
  <> Raise (HTTPException 404 "Monitor 'web' not found").
Proof.
  split; [apply table_session_answers|].
  split; [right; left|].
  split; [intros cutoff_time; reflexivity|].
  split; [vm_compute; reflexivity|].
  split; [vm_compute; reflexivity|].
  vm_compute. discriminate.
Qed.

(** *** The scenarios of the specification, run *)

(** Three records in two hours: a bucket of two that is up and a bucket
    of one that is down. *)
Example scenario_by_hour :
  field "timestamp" (aggregate_heartbeat_data Float64.sum_neumaier scenario_records
                       "hour" default_config)
  = Ok [Some (VStr "2026-11-03T09:00:00"); Some (VStr "2026-11-03T10:00:00")] /\
  field "count" (aggregate_heartbeat_data Float64.sum_neumaier scenario_records
                   "hour" default_config)
  = Ok [Some (VInt 2); Some (VInt 1)] /\
  field "down_count" (aggregate_heartbeat_data Float64.sum_neumaier scenario_records
                        "hour" default_config)
  = Ok [Some (VInt 0); Some (VInt 1)] /\
  field "status" (aggregate_heartbeat_data Float64.sum_neumaier scenario_records
                    "hour" default_config)
  = Ok [Some (VStr "up"); Some (VStr "down")].
Proof. repeat split; vm_compute; reflexivity. Qed.

(** The same records by week: one bucket, at Monday 2026-11-02. *)
Example scenario_by_week :
  field "timestamp" (aggregate_heartbeat_data Float64.sum_neumaier scenario_records
                       "week" default_config)
  = Ok [Some (VStr "2026-11-02T00:00:00")].
Proof. vm_compute. reflexivity. Qed.

(** Ten up records of which two are slow: 20 percent, above the default
    10, so Degraded, and is_up is False. *)
Example slow_bucket_is_degraded :
  Forall (fun r => is_up r = true) slow_records /\
  field "degraded_count" (aggregate_heartbeat_data Float64.sum_neumaier slow_records
                            "hour" default_config)
  = Ok [Some (VInt 2)] /\
  field "issue_percentage" (aggregate_heartbeat_data Float64.sum_neumaier slow_records
                              "hour" default_config)
  = Ok [Some (VFloat (Float64.of_int 20))] /\
  field "status" (aggregate_heartbeat_data Float64.sum_neumaier slow_records
                    "hour" default_config)
  = Ok [Some (VStr "degraded")] /\
  field "is_up" (aggregate_heartbeat_data Float64.sum_neumaier slow_records
                   "hour" default_config)
  = Ok [Some (VBool false)].
Proof.
  split; [repeat constructor|]. repeat split; vm_compute; reflexivity.
Qed.

(** 7 issues in 100 records give 7.000000000000001 percent in floats,
    which is above a threshold of 7. *)
Example seven_percent :
  Float64.int_truediv 7 100 = Ok (S754_finite false 5044031582654956 (-56)) /\
  float_mul_int (S754_finite false 5044031582654956 (-56)) 100
  = S754_finite false 7881299347898369 (-50) /\
  Float64.of_int 7 = S754_finite false 7881299347898368 (-50) /\
  float_gt_number (float_mul_int (S754_finite false 5044031582654956 (-56)) 100) (NInt 7)
  = true.
Proof. repeat split; vm_compute; reflexivity. Qed.

(** *** The theorems at concrete inputs *)

Lemma status_precedence_witness :
  bucketed "hour"%string /\
  timestamps_valid scenario_records /\
  number_truediv_int (dict_get default_config "degraded_threshold" (NInt 200)) 1000 = Ok threshold_200ms /\
  (exists out,
    aggregate_heartbeat_data Float64.sum_neumaier scenario_records "hour"%string default_config = Ok out /\
    Forall (fun node =>
      exists down degraded count q,
        node !! "down_count"%string = Some (VInt down) /\
        node !! "degraded_count"%string = Some (VInt degraded) /\
        node !! "count"%string = Some (VInt count) /\
        Float64.int_truediv (down + degraded) count = Ok q /\
        node !! "issue_percentage"%string = Some (VFloat (float_mul_int q 100)) /\
        node !! "status"%string
        = Some (VStr
            (if 0 <? down then "down"
             else if float_gt_number (float_mul_int q 100)
                       (dict_get default_config "degraded_percentage_threshold" (NInt 10))
                  then "degraded"
                  else "up"))) out /\
    (forall r, r ∈ scenario_records -> is_up r = false ->
       exists node, node ∈ out /\
         node !! "timestamp"%string = Some (VStr (bucket_key "hour"%string r)) /\
         node !! "status"%string = Some (VStr "down"))).
Proof.
  split; [left; reflexivity|].
  split; [repeat constructor|].
  split; [vm_compute; reflexivity|].
  apply (status_precedence Float64.sum_neumaier scenario_records "hour"%string default_config threshold_200ms);
    [left; reflexivity | repeat constructor | vm_compute; reflexivity].
Defined.

Lemma buckets_truncated_ascending_witness :
  bucketed "week"%string /\
  timestamps_valid scenario_records /\
  number_truediv_int (dict_get default_config "degraded_threshold" (NInt 200)) 1000 = Ok threshold_200ms /\
  ((forall t, bucket_start "hour" t
             = Ok (Datetime.mkdatetime (Datetime.year t) (Datetime.month t)
                     (Datetime.day t) (Datetime.hour t) 0 0 0)) /\
  (forall t, bucket_start "day" t
             = Ok (Datetime.mkdatetime (Datetime.year t) (Datetime.month t)
                     (Datetime.day t) 0 0 0 0)) /\
  (forall t, Datetime.valid t = true ->
     exists start,
       bucket_start "week" t = Ok start /\
       Datetime.weekday start = 0 /\
       Datetime.hour start = 0 /\ Datetime.minute start = 0 /\
       Datetime.second start = 0 /\ Datetime.microsecond start = 0 /\
       Datetime.toordinal start = Datetime.toordinal t - Datetime.weekday t /\
       0 <= Datetime.weekday t <= 6 /\
       Datetime.leb start t = true) /\
  exists out,
    aggregate_heartbeat_data Float64.sum_neumaier scenario_records "week"%string default_config = Ok out /\
    (forall r, r ∈ scenario_records ->
       exists start node,
         bucket_start "week"%string (timestamp r) = Ok start /\
         node ∈ out /\
         node !! "timestamp"%string = Some (VStr (Datetime.isoformat start)) /\
         r ∈ members "week"%string scenario_records (Datetime.isoformat start) /\
         node !! "count"%string
         = Some (VInt (len (members "week"%string scenario_records (Datetime.isoformat start))))) /\
    exists starts,
      Forall2 (fun node start =>
                 node !! "timestamp"%string = Some (VStr (Datetime.isoformat start)) /\
                 exists r, r ∈ scenario_records /\ bucket_start "week"%string (timestamp r) = Ok start)
        out starts /\
      StronglySorted dt_lt starts).
Proof.
  split; [right; right; reflexivity|].
  split; [repeat constructor|].
  split; [vm_compute; reflexivity|].
  apply (buckets_truncated_ascending Float64.sum_neumaier scenario_records "week"%string default_config threshold_200ms);
    [right; right; reflexivity | repeat constructor | vm_compute; reflexivity].
Defined.

Lemma all_is_pass_through_witness :
  number_truediv_int (dict_get default_config "degraded_threshold" (NInt 200)) 1000 = Ok threshold_200ms /\
  (exists out,
    aggregate_heartbeat_data Float64.sum_neumaier scenario_records "all" default_config = Ok out /\
    length out = length scenario_records /\
    Forall2 (fun r node =>
      node !! "timestamp"%string = Some (VStr (Datetime.isoformat (timestamp r))) /\
      node !! "is_up"%string = Some (VBool (is_up r)) /\
      node !! "response_time"%string = Some (of_option VFloat (response_time r)) /\
      node !! "status_code"%string = Some (of_option VInt (status_code r)) /\
      node !! "count"%string = Some (VInt 1) /\
      node !! "avg_response_time"%string = Some (of_option VFloat (response_time r)) /\
      node !! "degraded_count"%string
      = Some (VInt (if is_up r
                       && match response_time r with
                          | Some t => Float64.ltb threshold_200ms t
                          | None => false
                          end
                    then 1 else 0)) /\
      node !! "down_count"%string = Some (VInt (if is_up r then 0 else 1)) /\
      node !! "status"%string = None /\
      node !! "issue_percentage"%string = None)
      scenario_records out).
Proof.
  split; [vm_compute; reflexivity|].
  apply (all_is_pass_through Float64.sum_neumaier scenario_records default_config threshold_200ms);
    [vm_compute; reflexivity].
Defined.

Lemma counts_sum_to_length_witness :
  bucketed "hour"%string /\
  timestamps_valid scenario_records /\
  number_truediv_int (dict_get default_config "degraded_threshold" (NInt 200)) 1000 = Ok threshold_200ms /\
  (exists out counts,
    aggregate_heartbeat_data Float64.sum_neumaier scenario_records "hour"%string default_config = Ok out /\
    Forall2 (fun node count => node !! "count"%string = Some (VInt count)) out counts /\
    sum_ints counts = len scenario_records).
Proof.
  split; [left; reflexivity|].
  split; [repeat constructor|].
  split; [vm_compute; reflexivity|].
  apply (counts_sum_to_length Float64.sum_neumaier scenario_records "hour"%string default_config threshold_200ms);
    [left; reflexivity | repeat constructor | vm_compute; reflexivity].
Defined.

Lemma all_status_by_configuration_witness :
  answers scenario_records (table_session scenario_records) /\
  Datetime.valid noon = true /\
  Forall (fun monitor : gmap string pyval =>
            exists (name : string) (url : pyval),
              monitor !! "name"%string = Some (VStr name) /\
              monitor !! "url"%string = Some url) (map config_dict two_monitors) /\
  (let days := (instant noon - 24 * 3600 * 1000000) / Datetime.US_PER_DAY in
  (1 <= days <= Datetime.MAXORDINAL ->
   exists cutoff_time response monitors,
     Datetime.valid cutoff_time = true /\
     instant cutoff_time = instant noon - 24 * 3600 * 1000000 /\
     get_all_status (map config_dict two_monitors) (table_session scenario_records) noon noon 24 = Ok response /\
     response !! "monitors"%string = Some (VList monitors) /\
     response !! "timestamp"%string = Some (VStr (Datetime.isoformat noon)) /\
     Forall2 (fun (monitor : gmap string pyval) entry =>
       exists (name : string) (url : pyval) records data,
         monitor !! "name"%string = Some (VStr name) /\
         monitor !! "url"%string = Some url /\
         records = query_records (table_session scenario_records) (VStr name) cutoff_time Ascending /\
         records ≡ₚ List.filter
                      (fun r => String.eqb (monitor_name r) name
                                && Datetime.leb cutoff_time (timestamp r)) scenario_records /\
         Sorted (fun a b => Is_true (Datetime.leb (timestamp a) (timestamp b))) records /\
         entry = VDict data /\
         data !! "name"%string = Some (VStr name) /\
         data !! "url"%string = Some url /\
         data !! "history"%string
         = Some (VList (map (fun r => VDict (list_to_map
               [ ("timestamp", VStr (Datetime.isoformat (timestamp r)));
                 ("is_up", VBool (is_up r));
                 ("status_code", of_option VInt (status_code r));
                 ("response_time", of_option VFloat (response_time r)) ]%string))
             records)) /\
         match last records with
         | None =>
             records = [] /\
             data !! "current_status"%string
             = Some (VDict (list_to_map
                 [ ("is_up", VNone); ("status_code", VNone);
                   ("response_time", VNone); ("timestamp", VNone) ]%string))
         | Some latest =>
             latest ∈ records /\
             (forall r, r ∈ records ->
                Datetime.leb (timestamp r) (timestamp latest) = true) /\
             data !! "current_status"%string
             = Some (VDict (list_to_map
                 [ ("is_up", VBool (is_up latest));
                   ("status_code", of_option VInt (status_code latest));
                   ("response_time", of_option VFloat (response_time latest));
                   ("timestamp", VStr (Datetime.isoformat (timestamp latest))) ]%string))
         end)
       (map config_dict two_monitors) monitors) /\
  (~ 1 <= days <= Datetime.MAXORDINAL ->
   get_all_status (map config_dict two_monitors) (table_session scenario_records) noon noon 24 = Raise OverflowError)).
Proof.
  split; [apply table_session_answers|].
  split; [reflexivity|].
  split; [repeat constructor; eexists _, _; split; reflexivity|].
  apply (all_status_by_configuration (map config_dict two_monitors) (table_session scenario_records) scenario_records noon noon 24);
    [apply table_session_answers | reflexivity | repeat constructor; eexists _, _; split; reflexivity].
Defined.

Lemma no_records_not_found_or_unknown_witness :
  answers scenario_records (table_session scenario_records) /\
  Datetime.valid noon = true /\
  (let days := (instant noon - 24 * 3600 * 1000000) / Datetime.US_PER_DAY in
  (1 <= days <= Datetime.MAXORDINAL ->
   exists cutoff_time,
     Datetime.valid cutoff_time = true /\
     instant cutoff_time = instant noon - 24 * 3600 * 1000000 /\
     let records := query_records (table_session scenario_records) (VStr "web"%string) cutoff_time Descending in
     let rows :=
       List.filter (fun r => String.eqb (monitor_name r) "web"%string
                             && Datetime.leb cutoff_time (timestamp r)) scenario_records in
     records ≡ₚ rows /\
     Sorted (fun a b => Is_true (Datetime.leb (timestamp b) (timestamp a))) records /\
     (rows = [] <->
      get_monitor_status (table_session scenario_records) noon "web"%string 24
      = Raise (HTTPException 404 ("Monitor '" ++ "web"%string ++ "' not found"))) /\
     (rows <> [] ->
      get_monitor_status (table_session scenario_records) noon "web"%string 24
      = Ok (list_to_map
          [ ("monitor_name", VStr "web"%string);
            ("records",
              VList (map (fun r => VDict (list_to_map
                  [ ("timestamp", VStr (Datetime.isoformat (timestamp r)));
                    ("status_code", of_option VInt (status_code r));
                    ("is_up", VBool (is_up r));
                    ("response_time", of_option VFloat (response_time r)) ]%string))
                records)) ]%string)) /\
     (rows = [] ->
      Forall (fun configured : gmap string pyval =>
                exists (name : string) (url : pyval),
                  configured !! "name"%string = Some (VStr name) /\
                  configured !! "url"%string = Some url) (map config_dict two_monitors) ->
      forall configured : gmap string pyval,
        configured ∈ (map config_dict two_monitors) ->
        configured !! "name"%string = Some (VStr "web"%string) ->
        exists response monitors data,
          get_all_status (map config_dict two_monitors) (table_session scenario_records) noon noon 24 = Ok response /\
          response !! "monitors"%string = Some (VList monitors) /\
          VDict data ∈ monitors /\
          data !! "name"%string = Some (VStr "web"%string) /\
          data !! "current_status"%string
          = Some (VDict (list_to_map
              [ ("is_up", VNone); ("status_code", VNone);
                ("response_time", VNone); ("timestamp", VNone) ]%string)) /\
          data !! "history"%string = Some (VList []))) /\
  (~ 1 <= days <= Datetime.MAXORDINAL ->
   get_monitor_status (table_session scenario_records) noon "web"%string 24 = Raise OverflowError /\
   get_all_status (map config_dict two_monitors) (table_session scenario_records) noon noon 24 = Raise OverflowError)).
Proof.
  split; [apply table_session_answers|].
  split; [reflexivity|].
  apply (no_records_not_found_or_unknown (map config_dict two_monitors) (table_session scenario_records) scenario_records noon noon 24 "web"%string);
    [apply table_session_answers | reflexivity].
Defined.



Lemma is_up_iff_status_up_witness :
  bucketed "hour"%string /\
  timestamps_valid slow_records /\
  number_truediv_int (dict_get default_config "degraded_threshold" (NInt 200)) 1000 = Ok threshold_200ms /\
  (exists out,
    aggregate_heartbeat_data Float64.sum_neumaier slow_records "hour"%string default_config = Ok out /\
    Forall (fun node =>
      exists status,
        node !! "status"%string = Some (VStr status) /\
        (status = "up" \/ status = "degraded" \/ status = "down")%string /\
        node !! "is_up"%string = Some (VBool (String.eqb status "up")) /\
        (status = "up"%string -> node !! "is_up"%string = Some (VBool true)) /\
        (status = "degraded"%string -> node !! "is_up"%string = Some (VBool false)) /\
        (status = "down"%string -> node !! "is_up"%string = Some (VBool false))) out).
Proof.
  split; [left; reflexivity|].
  split; [repeat constructor|].
  split; [vm_compute; reflexivity|].
  apply (is_up_iff_status_up Float64.sum_neumaier slow_records "hour"%string default_config threshold_200ms);
    [left; reflexivity | repeat constructor | vm_compute; reflexivity].
Defined.

Lemma unknown_interval_buckets_witness :
  unknown_interval "month"%string /\
  timestamps_valid scenario_records /\
  number_truediv_int (dict_get default_config "degraded_threshold" (NInt 200)) 1000 = Ok threshold_200ms /\
  ((forall t, bucket_start "month"%string t = Ok t) /\
  (exists out,
    aggregate_heartbeat_data Float64.sum_neumaier scenario_records "month"%string default_config = Ok out /\
    (forall r, r ∈ scenario_records ->
       exists node, node ∈ out /\
         node !! "timestamp"%string = Some (VStr (Datetime.isoformat (timestamp r))) /\
         node !! "count"%string
         = Some (VInt (len (List.filter
                              (fun r' => Datetime.eqb (timestamp r') (timestamp r))
                              scenario_records)))) /\
    Forall (fun node =>
      (exists r, r ∈ scenario_records /\
         node !! "timestamp"%string = Some (VStr (Datetime.isoformat (timestamp r)))) /\
      exists down degraded count q,
        node !! "down_count"%string = Some (VInt down) /\
        node !! "degraded_count"%string = Some (VInt degraded) /\
        node !! "count"%string = Some (VInt count) /\
        Float64.int_truediv (down + degraded) count = Ok q /\
        node !! "issue_percentage"%string = Some (VFloat (float_mul_int q 100)) /\
        node !! "status"%string
        = Some (VStr
            (if 0 <? down then "down"
             else if float_gt_number (float_mul_int q 100)
                       (dict_get default_config "degraded_percentage_threshold" (NInt 10))
                  then "degraded"
                  else "up"))) out) /\
  (exists out_all,
    aggregate_heartbeat_data Float64.sum_neumaier scenario_records "all" default_config = Ok out_all /\
    Forall (fun node => node !! "status"%string = None) out_all)).
Proof.
  split; [repeat split; discriminate|].
  split; [repeat constructor|].
  split; [vm_compute; reflexivity|].
  apply (unknown_interval_buckets Float64.sum_neumaier scenario_records "month"%string default_config threshold_200ms);
    [repeat split; discriminate | repeat constructor | vm_compute; reflexivity].
Defined.

(** * The rest of the code *)

(** *** More on floats: exact quotients and the order of binary64 values *)

(** [n / n] is exactly 1.0. *)
Lemma int_truediv_self n :
  0 < n -> Float64.int_truediv n n = Ok (S754_finite false 4503599627370496 (-52)).
Proof.
  intros Hn. unfold Float64.int_truediv.
  replace (n =? 0) with false by (symmetry; apply Z.eqb_neq; lia).
  replace (n <? 0) with false by (symmetry; apply Z.ltb_ge; lia).
  rewrite Z.abs_eq by lia.
  destruct n as [|p|p]; try lia. change (Z.to_pos (Z.pos p)) with p.
  unfold Float64.div, SFdiv, SFdiv_core_binary.
  replace (Zdigits2 (Z.pos p) + 0 - (Zdigits2 (Z.pos p) + 0)) with 0 by lia.
  change (Z.min (fexp Float64.prec Float64.emax 0) (0 - 0)) with (-53).
  change (0 - 0 - -53) with 53.
  cbv iota beta.
  rewrite Z.shiftl_mul_pow2 by lia.
  rewrite (Z.mul_comm (Z.pos p)).
  pose proof (Z.div_mul (2 ^ 53) (Z.pos p) ltac:(lia)) as Hq.
  pose proof (Z.mod_mul (2 ^ 53) (Z.pos p) ltac:(lia)) as Hr.
  unfold Z.div, Z.modulo in Hq, Hr.
  destruct (Z.div_eucl (2 ^ 53 * Z.pos p) (Z.pos p)) as [q r].
  simpl fst in *; simpl snd in *. subst q r.
  rewrite new_location_exact. reflexivity.
Qed.

(** The product with 100.0 of a float between 0 and 1, as a mantissa and
    an exponent: at most 100. *)
Lemma mul_100_form q :
  (q = S754_zero false \/
   exists m e, q = S754_finite false m e /\ e <= 0 /\ Z.pos m <= 2 ^ (- e)) ->
  float_mul_int q 100 = S754_zero false \/
  exists m e,
    float_mul_int q 100 = S754_finite false m e /\ e <= 0 /\
    Z.pos m <= 100 * 2 ^ (- e) /\
    fexp Float64.prec Float64.emax (Z.pos (digits2_pos m) + e) = e.
Proof.
  intros [->|(m & e & -> & He & Hm)]; [left; reflexivity|].
  unfold float_mul_int, Float64.mul.
  change (Float64.of_int 100) with (S754_finite false 7036874417766400 (-46)).
  unfold SFmul. change (xorb false false) with false.
  pose proof (pow2_pos (- e) ltac:(lia)) as Hpe.
  destruct (binary_round_aux_bound false
              (Z.pos (m * 7036874417766400)) (e + -46) loc_Exact 100 0)
    as [H|(m3 & e3 & H & He3 & Hm3 & Hc)]; try lia.
  - rewrite fexp_eq. simpl. lia.
  - rewrite fexp_eq.
    assert (53 <= Zdigits2 (Z.pos (m * 7036874417766400))); [|lia].
    apply Zdigits2_ge_of_le; [|lia]. simpl Z.sub. lia.
  - replace (0 - (e + -46)) with (46 + - e) by lia.
    rewrite Z.pow_add_r by lia. change (2 ^ 46) with 70368744177664. nia.
  - intros _. reflexivity.
  - left. exact H.
  - right. exists m3, e3. rewrite Z.sub_0_l in Hm3. auto.
Qed.

(** A canonical mantissa has at most 53 bits, and exactly 53 above the
    smallest exponent. *)
Lemma canonical_bounds m e :
  fexp Float64.prec Float64.emax (Z.pos (digits2_pos m) + e) = e ->
  -1074 <= e /\ Z.pos m < 2 ^ 53 /\ (-1074 < e -> 2 ^ 52 <= Z.pos m).
Proof.
  rewrite fexp_eq. intros Hc.
  destruct (Zdigits2_bounds (Z.pos m)) as [H1 H2]; [lia|].
  change (Zdigits2 (Z.pos m)) with (Z.pos (digits2_pos m)) in H1, H2.
  split; [lia|]. split.
  - eapply Z.lt_le_trans; [exact H2|]. apply Z.pow_le_mono_r; lia.
  - intros He. replace (Z.pos (digits2_pos m)) with 53 in H1 by lia. exact H1.
Qed.

(** On binary64 values the comparison of SpecFloat is the comparison of
    the numbers, here in units of 2^-1074. *)
Lemma SFcompare_canonical m1 e1 m2 e2 :
  fexp Float64.prec Float64.emax (Z.pos (digits2_pos m1) + e1) = e1 ->
  fexp Float64.prec Float64.emax (Z.pos (digits2_pos m2) + e2) = e2 ->
  SFcompare (S754_finite false m1 e1) (S754_finite false m2 e2)
  = Some (Z.pos m1 * 2 ^ (e1 + 1074) ?= Z.pos m2 * 2 ^ (e2 + 1074)).
Proof.
  intros H1 H2.
  destruct (canonical_bounds _ _ H1) as (He1 & Hm1 & Hn1).
  destruct (canonical_bounds _ _ H2) as (He2 & Hm2 & Hn2).
  unfold SFcompare. f_equal.
  destruct (Z.compare_spec e1 e2) as [->|Hlt|Hgt].
  - rewrite Pos.compare_cont_spec. simpl.
    pose proof (pow2_pos (e2 + 1074) ltac:(lia)).
    destruct (Pos.compare_spec m1 m2) as [->|Hm|Hm]; symmetry.
    + apply Z.compare_eq_iff. reflexivity.
    + apply Z.compare_lt_iff. apply Z.mul_lt_mono_pos_r; lia.
    + apply Z.compare_gt_iff. apply Z.mul_lt_mono_pos_r; lia.
  - symmetry. apply Z.compare_lt_iff.
    replace (e2 + 1074) with ((e2 - e1 - 1) + 1 + (e1 + 1074)) by lia.
    rewrite (Z.pow_add_r 2 (e2 - e1 - 1 + 1) (e1 + 1074)) by lia.
    rewrite (Z.pow_add_r 2 (e2 - e1 - 1) 1) by lia.
    pose proof (pow2_pos (e1 + 1074) ltac:(lia)).
    pose proof (pow2_pos (e2 - e1 - 1) ltac:(lia)).
    specialize (Hn2 ltac:(lia)).
    change (2 ^ 1) with 2. change (2 ^ 53) with 9007199254740992 in Hm1.
    change (2 ^ 52) with 4503599627370496 in Hn2.
    set (a := 2 ^ (e2 - e1 - 1)) in *. set (b := 2 ^ (e1 + 1074)) in *.
    rewrite Z.mul_assoc. apply Z.mul_lt_mono_pos_r; [lia|]. nia.
  - symmetry. apply Z.compare_gt_iff.
    replace (e1 + 1074) with ((e1 - e2 - 1) + 1 + (e2 + 1074)) by lia.
    rewrite (Z.pow_add_r 2 (e1 - e2 - 1 + 1) (e2 + 1074)) by lia.
    rewrite (Z.pow_add_r 2 (e1 - e2 - 1) 1) by lia.
    pose proof (pow2_pos (e2 + 1074) ltac:(lia)).
    pose proof (pow2_pos (e1 - e2 - 1) ltac:(lia)).
    specialize (Hn1 ltac:(lia)).
    change (2 ^ 1) with 2. change (2 ^ 53) with 9007199254740992 in Hm2.
    change (2 ^ 52) with 4503599627370496 in Hn1.
    set (a := 2 ^ (e1 - e2 - 1)) in *. set (b := 2 ^ (e2 + 1074)) in *.
    rewrite Z.mul_assoc. apply Z.mul_lt_mono_pos_r; [lia|]. nia.
Qed.

Lemma percentage_mul_100 q :
  (q = S754_zero false \/
   exists m e, q = S754_finite false m e /\ e <= 0 /\ Z.pos m <= 2 ^ (- e)) ->
  percentage (float_mul_int q 100).
Proof. exact (mul_100_form q). Qed.

(** No percentage is greater than a number that 100 is not greater
    than. *)
Lemma percentage_not_above p pth :
  percentage p -> number_valid pth = true -> number_gt (NInt 100) pth = false ->
  float_gt_number p pth = false.
Proof.
  intros Hp Hv Hge. destruct pth as [n|g].
  - cbn in Hge. apply Z.ltb_ge in Hge. cbn [float_gt_number].
    destruct Hp as [->|(m & e & -> & He & Hm & _)].
    + cbn [Float64.compare_int]. destruct (Z.compare_spec 0 n); try reflexivity. lia.
    + cbn [Float64.compare_int cond_Zopp].
      destruct (Z.leb_spec 0 e) as [He0|He0].
      * replace e with 0 in * by lia. change (2 ^ 0) with 1. change (2 ^ (- 0)) with 1 in Hm.
        destruct (Z.compare_spec (Z.pos m * 1) n); try reflexivity. lia.
      * pose proof (pow2_pos (- e) ltac:(lia)).
        destruct (Z.compare_spec (Z.pos m) (n * 2 ^ (- e))); try reflexivity. nia.
  - cbn [float_gt_number]. cbn [number_gt] in Hge. cbn [number_valid] in Hv.
    unfold Float64.ltb, SFltb.
    destruct g as [s|s| |s m2 e2].
    + vm_compute in Hge. discriminate.
    + destruct s; [vm_compute in Hge; discriminate|].
      destruct Hp as [->|(m & e & -> & _)]; reflexivity.
    + destruct Hp as [->|(m & e & -> & _)]; reflexivity.
    + destruct s.
      { cbn [Float64.compare_int cond_Zopp] in Hge.
        destruct (Z.leb_spec 0 e2) as [He0|He0].
        - pose proof (pow2_pos e2 He0) as Hpe.
          destruct (Z.compare_spec (- Z.pos m2 * 2 ^ e2) 100) as [H|H|H];
            [nia|discriminate|nia].
        - pose proof (pow2_pos (- e2) ltac:(lia)) as Hpe.
          destruct (Z.compare_spec (- Z.pos m2) (100 * 2 ^ (- e2))) as [H|H|H];
            [lia|discriminate|lia]. }
      destruct Hp as [->|(m & e & -> & He & Hm & Hc)]; [reflexivity|].
      unfold valid_binary, bounded, canonical_mantissa in Hv.
      apply andb_prop in Hv as [Hc2 _]. apply Z.eqb_eq in Hc2.
      rewrite (SFcompare_canonical _ _ _ _ Hc2 Hc).
      destruct (canonical_bounds _ _ Hc2) as (He2 & _).
      destruct (canonical_bounds _ _ Hc) as (He1 & _).
      assert (Hlow : 100 * 2 ^ 1074 <= Z.pos m2 * 2 ^ (e2 + 1074)).
      { cbn [Float64.compare_int cond_Zopp] in Hge.
        destruct (Z.leb_spec 0 e2) as [He0|He0].
        - rewrite Z.pow_add_r by lia.
          pose proof (pow2_pos 1074 ltac:(lia)).
          destruct (Z.compare_spec (Z.pos m2 * 2 ^ e2) 100) as [H1|H1|H1];
            try discriminate; nia.
        - assert (Hs : 2 ^ 1074 = 2 ^ (- e2) * 2 ^ (e2 + 1074))
            by (rewrite <- Z.pow_add_r by lia; f_equal; lia).
          rewrite Hs.
          pose proof (pow2_pos (e2 + 1074) ltac:(lia)).
          destruct (Z.compare_spec (Z.pos m2) (100 * 2 ^ (- e2))) as [H1|H1|H1];
            try discriminate; nia. }
      assert (Hhigh : Z.pos m * 2 ^ (e + 1074) <= 100 * 2 ^ 1074).
      { assert (Hs : 2 ^ 1074 = 2 ^ (- e) * 2 ^ (e + 1074))
          by (rewrite <- Z.pow_add_r by lia; f_equal; lia).
        rewrite Hs.
        pose proof (pow2_pos (e + 1074) ltac:(lia)). nia. }
      destruct (Z.compare_spec (Z.pos m2 * 2 ^ (e2 + 1074)) (Z.pos m * 2 ^ (e + 1074)));
        try reflexivity. lia.
Qed.

(** Every percentage is greater than a number that 0 is greater than. *)
Lemma percentage_above_negative p pth :
  percentage p -> number_gt (NInt 0) pth = true -> float_gt_number p pth = true.
Proof.
  intros Hp Hlt. destruct pth as [n|g].
  - cbn in Hlt. apply Z.ltb_lt in Hlt. cbn [float_gt_number].
    destruct Hp as [->|(m & e & -> & He & Hm & _)].
    + cbn [Float64.compare_int]. destruct (Z.compare_spec 0 n); try reflexivity; lia.
    + cbn [Float64.compare_int cond_Zopp].
      destruct (Z.leb_spec 0 e) as [He0|He0].
      * pose proof (pow2_pos e He0).
        destruct (Z.compare_spec (Z.pos m * 2 ^ e) n); try reflexivity; nia.
      * pose proof (pow2_pos (- e) ltac:(lia)).
        destruct (Z.compare_spec (Z.pos m) (n * 2 ^ (- e))); try reflexivity; nia.
  - cbn [float_gt_number]. cbn [number_gt] in Hlt.
    unfold Float64.ltb, SFltb.
    destruct g as [s|s| |s m2 e2].
    + vm_compute in Hlt. discriminate.
    + destruct s; [|vm_compute in Hlt; discriminate].
      destruct Hp as [->|(m & e & -> & _)]; reflexivity.
    + vm_compute in Hlt. discriminate.
    + destruct s.
      { destruct Hp as [->|(m & e & -> & _)]; reflexivity. }
      cbn [Float64.compare_int cond_Zopp] in Hlt.
      destruct (Z.leb_spec 0 e2) as [He0|He0].
      * pose proof (pow2_pos e2 He0).
        destruct (Z.compare_spec (Z.pos m2 * 2 ^ e2) 0); try discriminate; nia.
      * change (0 * 2 ^ (- e2)) with 0 in Hlt.
        destruct (Z.compare_spec (Z.pos m2) 0); try discriminate; lia.
Qed.

(** 0.0 is not greater than a number that 0 is not greater than. *)
Lemma zero_not_above pth :
  number_gt (NInt 0) pth = false -> float_gt_number (S754_zero false) pth = false.
Proof.
  intros Hge. destruct pth as [n|g].
  - cbn in Hge. apply Z.ltb_ge in Hge. cbn [float_gt_number Float64.compare_int].
    destruct (Z.compare_spec 0 n); try reflexivity. lia.
  - cbn [number_gt] in Hge. cbn [float_gt_number]. unfold Float64.ltb, SFltb.
    destruct g as [s|s| |s m e]; try reflexivity.
    + destruct s; [vm_compute in Hge; discriminate|reflexivity].
    + destruct s; [|reflexivity]. exfalso.
      cbn [Float64.compare_int cond_Zopp] in Hge.
      destruct (Z.leb_spec 0 e) as [He|He].
      * pose proof (pow2_pos e He).
        destruct (Z.compare_spec (- Z.pos m * 2 ^ e) 0); [nia|discriminate|nia].
      * change (0 * 2 ^ (- e)) with 0 in Hge.
        destruct (Z.compare_spec (- Z.pos m) 0); [lia|discriminate|lia].
Qed.

Lemma percent_of_one :
  float_mul_int (S754_finite false 4503599627370496 (-52)) 100 = Float64.of_int 100.
Proof. reflexivity. Qed.

Lemma percent_of_zero : float_mul_int (S754_zero false) 100 = Float64.zero.
Proof. reflexivity. Qed.

Section CalendarArithmetic.

Import Datetime.

(** *** Bucket starts of bucket starts *)

Lemma datetime_eq_of_ordinal a b :
  valid a = true -> valid b = true ->
  toordinal a = toordinal b ->
  hour a = hour b -> minute a = minute b -> second a = second b ->
  microsecond a = microsecond b ->
  a = b.
Proof.
  intros Ha Hb Ho Hh Hmi Hs Hus.
  destruct (valid_fields a Ha) as (Hda & _).
  destruct (valid_fields b Hb) as (Hdb & _).
  destruct (ymd2ord_inj _ _ _ _ _ _ Hda Hdb Ho) as (Hy & Hm & Hd).
  destruct a, b; cbn in *. congruence.
Qed.

(** The week of a timestamp is decided by its date alone. *)
Lemma bucket_start_week_date t t' :
  valid t = true -> valid t' = true -> toordinal t = toordinal t' ->
  bucket_start "week" t = bucket_start "week" t'.
Proof.
  intros Hv Hv' Ho.
  destruct (bucket_start_week t Hv)
    as (s & Hs & Hvs & Hh & Hmi & Hse & Hus & _ & Hord & _).
  destruct (bucket_start_week t' Hv')
    as (s' & Hs' & Hvs' & Hh' & Hmi' & Hse' & Hus' & _ & Hord' & _).
  rewrite Hs, Hs'. f_equal.
  apply datetime_eq_of_ordinal; try congruence.
  rewrite Hord, Hord'. unfold weekday. now rewrite Ho.
Qed.

(** The start of a week is the start of its own week. *)
Lemma bucket_start_week_idem t start :
  valid t = true -> bucket_start "week" t = Ok start ->
  bucket_start "week" start = Ok start.
Proof.
  intros Hv Hs.
  destruct (bucket_start_week t Hv)
    as (s & Hs' & Hvs & Hh & Hmi & Hse & Hus & Hwd & Hord & _).
  rewrite Hs in Hs'. injection Hs' as <-.
  destruct (bucket_start_week start Hvs)
    as (s' & Hs' & Hvs' & Hh' & Hmi' & Hse' & Hus' & _ & Hord' & _).
  rewrite Hs'. f_equal.
  apply datetime_eq_of_ordinal; try congruence. lia.
Qed.

Lemma bucket_start_week_midnight t start :
  valid t = true -> bucket_start "week" t = Ok start ->
  replace_minute_second_microsecond start = start /\
  replace_hour_minute_second_microsecond start = start.
Proof.
  intros Hv Hs.
  destruct (bucket_start_week t Hv)
    as (s & Hs' & Hvs & Hh & Hmi & Hse & Hus & _).
  rewrite Hs in Hs'. injection Hs' as <-.
  destruct start; cbn in *; subst.
  split; reflexivity.
Qed.

(** The same for [bucket_of], as the grouping uses it. *)
Lemma bucket_of_week_of_day t :
  valid t = true ->
  bucket_of "week" (bucket_of "day" t) = bucket_of "week" t.
Proof.
  intros Hv. unfold bucket_of at 2. rewrite bucket_start_day.
  unfold bucket_of.
  rewrite (bucket_start_week_date (replace_hour_minute_second_microsecond t) t
             (valid_replace_day t Hv) Hv eq_refl).
  destruct (bucket_start_week t Hv) as (monday & -> & _). reflexivity.
Qed.

Lemma bucket_of_day_of_hour t :
  bucket_of "day" (bucket_of "hour" t) = bucket_of "day" t.
Proof. reflexivity. Qed.

End CalendarArithmetic.

(** ** More on the aggregator *)

(** X1.  Taking the bucket start of a bucket start
    gives the start of the coarser of the two intervals: hour, day and
    week buckets nest, and each truncation is idempotent.  The start of
    the week exists for every valid timestamp. *)
Theorem bucket_starts_compose t :
  Datetime.valid t = true ->
  let after i j := start ← bucket_start i t; bucket_start j start in
  (exists monday, bucket_start "week" t = Ok monday) /\
  after "hour" "hour" = bucket_start "hour" t /\
  after "hour" "day" = bucket_start "day" t /\
  after "hour" "week" = bucket_start "week" t /\
  after "day" "hour" = bucket_start "day" t /\
  after "day" "day" = bucket_start "day" t /\
  after "day" "week" = bucket_start "week" t /\
  after "week" "hour" = bucket_start "week" t /\
  after "week" "day" = bucket_start "week" t /\
  after "week" "week" = bucket_start "week" t.
Proof.
  intros Hv after. subst after. cbv beta.
  destruct (bucket_start_week t Hv) as (monday & Hmonday & _).
  destruct (bucket_start_week_midnight t monday Hv Hmonday) as [Hh Hd].
  split; [eauto|].
  rewrite !bucket_start_hour, !bucket_start_day, !bind_Ok.
  rewrite !bucket_start_hour, !bucket_start_day.
  do 2 (split; [reflexivity|]).
  split.
  { apply bucket_start_week_date; auto using valid_replace_hour. }
  do 2 (split; [reflexivity|]).
  split.
  { apply bucket_start_week_date; auto using valid_replace_day. }
  rewrite Hmonday, !bind_Ok, bucket_start_hour, bucket_start_day, Hh, Hd.
  do 2 (split; [reflexivity|]).
  exact (bucket_start_week_idem t monday Hv Hmonday).
Qed.

Lemma threshold_raise x e :
  number_truediv_int x 1000 = Raise e ->
  e = OverflowError /\ exists n, x = NInt n /\ 1000 * 2 ^ 1023 < Z.abs n.
Proof.
  destruct x as [n|f]; cbn [number_truediv_int].
  - intros Hr. split.
    + unfold Float64.int_truediv in Hr. change (1000 =? 0) with false in Hr.
      cbv iota in Hr. destruct (n =? 0); [discriminate|].
      destruct (Float64.div _ _); try discriminate. congruence.
    + exists n. split; [reflexivity|].
      destruct (Z.lt_ge_cases (1000 * 2 ^ 1023) (Z.abs n)) as [Hlt|Hge]; [exact Hlt|].
      destruct (int_truediv_defined n 1000 ltac:(lia) ltac:(lia)) as [q Hq]. congruence.
  - change (1000 =? 0) with false. discriminate.
Qed.

(** X2.  On records with valid timestamps
    the aggregator raises exactly when the input is not empty and
    [degraded_threshold / 1000] raises, and then with the same exception.
    Whenever it raises, the exception is an OverflowError and the
    configured threshold is an int beyond 1000 * 2^1023 in magnitude:
    with a float threshold, with none, or with an int up to that bound
    the aggregator returns.  (The converse is not stated: an int a little
    beyond the bound still divides.)  Nothing else in the function can
    fail: neither the grouping, nor the week arithmetic, nor a division
    by a length. *)
Theorem aggregate_raises_only_overflow sum records interval app_config :
  timestamps_valid records ->
  (forall e,
     aggregate_heartbeat_data sum records interval app_config = Raise e <->
     records <> [] /\
     number_truediv_int (dict_get app_config "degraded_threshold" (NInt 200)) 1000
     = Raise e) /\
  (forall e,
     aggregate_heartbeat_data sum records interval app_config = Raise e ->
     e = OverflowError /\
     exists n, app_config !! "degraded_threshold"%string = Some (NInt n) /\
               1000 * 2 ^ 1023 < Z.abs n).
Proof.
  intros Hvalid.
  assert (Hiff : forall e,
     aggregate_heartbeat_data sum records interval app_config = Raise e <->
     records <> [] /\
     number_truediv_int (dict_get app_config "degraded_threshold" (NInt 200)) 1000
     = Raise e).
  { intros e.
    destruct (number_truediv_int (dict_get app_config "degraded_threshold" (NInt 200)) 1000)
      as [th|e0] eqn:Hth.
    - split; [|intros [_ H]; discriminate].
      intros Hr. exfalso.
      destruct (String.eqb interval "all") eqn:Hall.
      + apply String.eqb_eq in Hall. subst interval.
        rewrite (aggregate_all sum records app_config th Hth) in Hr. discriminate.
      + destruct (aggregate_buckets sum records interval app_config th Hall
                    (starts_exist interval records Hvalid) Hth) as (out & keys & Hout & _).
        congruence.
    - destruct records as [|r records]; [split; [discriminate|intros [H _]; now destruct H]|].
      assert (Hagg : aggregate_heartbeat_data sum (r :: records) interval app_config = Raise e0).
      { unfold aggregate_heartbeat_data.
        destruct (String.eqb interval "all").
        - rewrite Hth. reflexivity.
        - destruct (for_each_group_record interval (r :: records)
                      (starts_exist interval (r :: records) Hvalid)) as (grouped & -> & _).
          rewrite bind_Ok, Hth. reflexivity. }
      rewrite Hagg. split; [intros [= ->]; split; [discriminate|reflexivity]|].
      intros [_ [= ->]]. reflexivity. }
  split; [exact Hiff|].
  intros e Hr. apply Hiff in Hr as [_ Hr].
  destruct (threshold_raise _ _ Hr) as (-> & n & Hn & Hbig).
  split; [reflexivity|]. exists n. split; [|exact Hbig].
  unfold dict_get in Hn.
  destruct (app_config !! "degraded_threshold"%string) as [x|]; cbn in Hn.
  - now subst x.
  - injection Hn as <-. change (2 ^ 1023) with (2 ^ 1023) in Hbig.
    exfalso. assert (0 < 2 ^ 1023) by (apply pow2_pos; lia). lia.
Qed.

Lemma filter_comm {A} (p q : A -> bool) l :
  List.filter p (List.filter q l) = List.filter q (List.filter p l).
Proof.
  induction l as [|x l IH]; [reflexivity|]. cbn [List.filter].
  destruct (q x) eqn:Hq, (p x) eqn:Hp; cbn [List.filter]; rewrite ?Hq, ?Hp, IH; reflexivity.
Qed.

Lemma sum_filtered_members (p : MonitorRecord -> bool) interval records keys :
  NoDup keys ->
  (forall r, r ∈ records -> bucket_key interval r ∈ keys) ->
  sum_ints (map (fun k => len (List.filter p (members interval records k))) keys)
  = len (List.filter p records).
Proof.
  intros Hnd Hcover.
  rewrite <- (sum_members interval (List.filter p records) keys Hnd).
  - f_equal. apply map_ext. intros k. unfold members. now rewrite filter_comm.
  - intros r Hin. apply Hcover.
    apply list_elem_of_In, List.filter_In in Hin as [Hin _]. now apply list_elem_of_In.
Qed.

Lemma down_count_len recs :
  down_count recs = len (List.filter (fun r => negb (is_up r)) recs).
Proof.
  unfold down_count. rewrite up_count_len. unfold len.
  induction recs as [|r recs IH]; [reflexivity|].
  cbn [List.filter length]. destruct (is_up r); cbn [negb length]; lia.
Qed.

Lemma sum_ints_map_ext {A} (f g : A -> Z) l :
  (forall x, f x = g x) -> sum_ints (map f l) = sum_ints (map g l).
Proof. intros H. f_equal. now apply map_ext. Qed.

Lemma sum_ints_indicators {A} (p : A -> bool) l :
  sum_ints (map (fun x => if p x then 1 else 0) l) = len (List.filter p l).
Proof.
  induction l as [|x l IH]; [reflexivity|].
  cbn [map List.filter]. rewrite sum_ints_cons, IH.
  unfold len. destruct (p x); cbn [length]; lia.
Qed.

(** X3.  At every interval, "all" and unknown ones
    included, the down_count fields of the result add up to the number of
    input records that are not up, and the degraded_count fields to the
    number of input records that are up and slower than the threshold: no
    failure is lost or counted twice. *)
Theorem issues_sum_to_input sum records interval app_config th :
  timestamps_valid records ->
  number_truediv_int (dict_get app_config "degraded_threshold" (NInt 200)) 1000 = Ok th ->
  exists out downs degradeds,
    aggregate_heartbeat_data sum records interval app_config = Ok out /\
    Forall2 (fun node n => node !! "down_count"%string = Some (VInt n)) out downs /\
    Forall2 (fun node n => node !! "degraded_count"%string = Some (VInt n)) out degradeds /\
    sum_ints downs = len (List.filter (fun r => negb (is_up r)) records) /\
    sum_ints degradeds
    = len (List.filter
             (fun r => is_up r && match response_time r with
                                  | Some t => Float64.ltb th t
                                  | None => false
                                  end) records).
Proof.
  intros Hvalid Hth.
  destruct (String.eqb interval "all") eqn:Hall.
  - apply String.eqb_eq in Hall. subst interval.
    exists (map (heartbeat_all th) records),
           (map (fun r => if negb (is_up r) then 1 else 0) records),
           (map (fun r => if is_degraded th r then 1 else 0) records).
    split; [now apply aggregate_all|].
    split; [|split; [|split]].
    + apply Forall2_fmap, Forall_Forall2_diag, Forall_forall. intros r _.
      destruct (is_up r) eqn:Hup; cbn [negb];
        unfold heartbeat_all; rewrite Hup; reflexivity.
    + apply Forall2_fmap, Forall_Forall2_diag, Forall_forall. intros r _. reflexivity.
    + apply sum_ints_indicators.
    + apply (sum_ints_indicators (is_degraded th)).
  - destruct (aggregate_buckets sum records interval app_config th Hall
                (starts_exist interval records Hvalid) Hth)
      as (out & keys & Hout & _ & Hnd & Hkeys & Hnodes).
    exists out,
           (map (fun k => down_count (members interval records k)) keys),
           (map (fun k => degraded_count th (members interval records k)) keys).
    split; [exact Hout|].
    assert (Hcover : forall r, r ∈ records -> bucket_key interval r ∈ keys)
      by (intros r Hin; apply Hkeys; eauto).
    split; [|split; [|split]].
    + apply Forall2_fmap_r, Forall2_flip.
      eapply Forall2_impl; [exact Hnodes|]. intros key node [Hne Hnode].
      destruct (heartbeat_node_fields _ _ _ _ _ _ Hne Hnode)
        as (avg & ip & _ & _ & _ & _ & _ & _ & _ & _ & _ & Hdown & _). exact Hdown.
    + apply Forall2_fmap_r, Forall2_flip.
      eapply Forall2_impl; [exact Hnodes|]. intros key node [Hne Hnode].
      destruct (heartbeat_node_fields _ _ _ _ _ _ Hne Hnode)
        as (avg & ip & _ & _ & _ & _ & _ & _ & _ & _ & Hdeg & _). exact Hdeg.
    + rewrite (sum_ints_map_ext _
                 (fun k => len (List.filter (fun r => negb (is_up r))
                                  (members interval records k))))
        by (intros k; apply down_count_len).
      now apply sum_filtered_members.
    + rewrite (sum_ints_map_ext _
                 (fun k => len (List.filter (is_degraded th)
                                  (members interval records k))))
        by (intros k; apply degraded_count_len).
      now apply (sum_filtered_members (is_degraded th)).
Qed.

(** Keys that a coarser function makes of the same list are fewer. *)
Lemma fewer_keys {A} (f1 f2 : A -> string) (l : list A) (keys1 keys2 : list string) :
  NoDup keys2 ->
  (forall k, k ∈ keys1 <-> exists r, r ∈ l /\ f1 r = k) ->
  (forall k, k ∈ keys2 <-> exists r, r ∈ l /\ f2 r = k) ->
  (forall r r', r ∈ l -> r' ∈ l -> f1 r = f1 r' -> f2 r = f2 r') ->
  (length keys2 <= length keys1)%nat.
Proof.
  intros Hnd H1 H2 Hcoarse.
  set (h := fun k1 => match List.find (fun r => String.eqb (f1 r) k1) l with
                      | Some r => f2 r
                      | None => EmptyString
                      end).
  rewrite <- (List.length_map h keys1).
  apply submseteq_length, NoDup_submseteq; [exact Hnd|].
  intros k2 Hin. apply H2 in Hin as (r & Hr & <-).
  apply list_elem_of_In, List.in_map_iff. exists (f1 r). split.
  - unfold h. destruct (List.find _ l) as [r'|] eqn:Hfind.
    + apply List.find_some in Hfind as [Hr' Heq]. apply String.eqb_eq in Heq.
      apply Hcoarse; [now apply list_elem_of_In|exact Hr|exact Heq].
    + exfalso. pose proof (List.find_none _ _ Hfind r (proj1 (list_elem_of_In _ _) Hr)) as Hn.
      cbv beta in Hn. rewrite String.eqb_refl in Hn. discriminate.
  - apply list_elem_of_In, H1. eauto.
Qed.

Lemma keys_at_most_records {A} (f : A -> string) (l : list A) (keys : list string) :
  NoDup keys ->
  (forall k, k ∈ keys <-> exists r, r ∈ l /\ f r = k) ->
  (length keys <= length l)%nat.
Proof.
  intros Hnd H. rewrite <- (List.length_map f l).
  apply submseteq_length, NoDup_submseteq; [exact Hnd|].
  intros k Hin. apply H in Hin as (r & Hr & <-).
  apply list_elem_of_In, List.in_map, list_elem_of_In, Hr.
Qed.

Lemma same_hour_same_day r r' :
  Datetime.valid (timestamp r) = true -> Datetime.valid (timestamp r') = true ->
  bucket_key "hour" r = bucket_key "hour" r' -> bucket_key "day" r = bucket_key "day" r'.
Proof.
  intros Hv Hv' Heq. unfold bucket_key in *.
  apply isoformat_inj in Heq.
  - rewrite <- (bucket_of_day_of_hour (timestamp r)),
            <- (bucket_of_day_of_hour (timestamp r')). now rewrite Heq.
  - now apply valid_replace_hour.
  - now apply valid_replace_hour.
Qed.

Lemma same_day_same_week r r' :
  Datetime.valid (timestamp r) = true -> Datetime.valid (timestamp r') = true ->
  bucket_key "day" r = bucket_key "day" r' -> bucket_key "week" r = bucket_key "week" r'.
Proof.
  intros Hv Hv' Heq. unfold bucket_key in *.
  apply isoformat_inj in Heq.
  - rewrite <- (bucket_of_week_of_day (timestamp r)),
            <- (bucket_of_week_of_day (timestamp r')) by assumption. now rewrite Heq.
  - now apply valid_replace_day.
  - now apply valid_replace_day.
Qed.

(** X4.  On the same records a coarser
    interval never gives more nodes: week gives at most as many as day,
    day at most as many as hour, hour at most as many as "all", and "all"
    one per record. *)
Theorem coarser_interval_fewer_buckets sum records app_config th :
  timestamps_valid records ->
  number_truediv_int (dict_get app_config "degraded_threshold" (NInt 200)) 1000 = Ok th ->
  exists out_all out_hour out_day out_week,
    aggregate_heartbeat_data sum records "all" app_config = Ok out_all /\
    aggregate_heartbeat_data sum records "hour" app_config = Ok out_hour /\
    aggregate_heartbeat_data sum records "day" app_config = Ok out_day /\
    aggregate_heartbeat_data sum records "week" app_config = Ok out_week /\
    (length out_week <= length out_day)%nat /\
    (length out_day <= length out_hour)%nat /\
    (length out_hour <= length out_all)%nat /\
    length out_all = length records.
Proof.
  intros Hvalid Hth.
  destruct (aggregate_buckets sum records "hour" app_config th eq_refl
              (starts_exist "hour" records Hvalid) Hth)
    as (out_hour & keys_hour & Hout_hour & _ & Hnd_hour & Hkeys_hour & Hnodes_hour).
  destruct (aggregate_buckets sum records "day" app_config th eq_refl
              (starts_exist "day" records Hvalid) Hth)
    as (out_day & keys_day & Hout_day & _ & Hnd_day & Hkeys_day & Hnodes_day).
  destruct (aggregate_buckets sum records "week" app_config th eq_refl
              (starts_exist "week" records Hvalid) Hth)
    as (out_week & keys_week & Hout_week & _ & Hnd_week & Hkeys_week & Hnodes_week).
  exists (map (heartbeat_all th) records), out_hour, out_day, out_week.
  split; [now apply aggregate_all|]. do 3 (split; [assumption|]).
  rewrite <- (Forall2_length _ _ _ Hnodes_hour), <- (Forall2_length _ _ _ Hnodes_day),
          <- (Forall2_length _ _ _ Hnodes_week), List.length_map.
  assert (Hv : forall r, r ∈ records -> Datetime.valid (timestamp r) = true)
    by (intros r Hin; exact (proj1 (Forall_forall _ _) Hvalid r Hin)).
  split; [|split; [|split; [|reflexivity]]].
  - apply (fewer_keys (bucket_key "day") (bucket_key "week") records); auto.
    intros r r' Hr Hr'. apply same_day_same_week; auto.
  - apply (fewer_keys (bucket_key "hour") (bucket_key "day") records); auto.
    intros r r' Hr Hr'. apply same_hour_same_day; auto.
  - apply (keys_at_most_records (bucket_key "hour") records); auto.
Qed.

(** The node of a group, with its issue_percentage as a percentage. *)
Lemma heartbeat_node_percentage sum th pth key recs node :
  recs <> [] ->
  heartbeat_node sum th pth key recs = Ok node ->
  exists q,
    Float64.int_truediv (down_count recs + degraded_count th recs) (len recs) = Ok q /\
    percentage (float_mul_int q 100) /\
    node !! "issue_percentage"%string = Some (VFloat (float_mul_int q 100)) /\
    node !! "down_count"%string = Some (VInt (down_count recs)) /\
    node !! "degraded_count"%string = Some (VInt (degraded_count th recs)) /\
    node !! "count"%string = Some (VInt (len recs)) /\
    node !! "status"%string
    = Some (VStr (if 0 <? down_count recs then "down"
                  else if float_gt_number (float_mul_int q 100) pth then "degraded"
                  else "up")) /\
    node !! "is_up"%string
    = Some (VBool (String.eqb
                     (if 0 <? down_count recs then "down"
                      else if float_gt_number (float_mul_int q 100) pth then "degraded"
                      else "up") "up")).
Proof.
  intros Hne Hnode.
  destruct (heartbeat_node_fields _ _ _ _ _ _ Hne Hnode)
    as (avg & ip & _ & Hip & _ & Hisup & Hstatus & _ & Hcount & _ & Hdeg & Hdown & Hpct).
  destruct (issue_percentage_ok th recs Hne) as (q & Hq & Hform & Hip').
  rewrite Hip' in Hip. injection Hip as <-.
  exists q. split; [exact Hq|]. split; [now apply percentage_mul_100|].
  repeat split; assumption.
Qed.

(** X5.  When the configured
    degraded_percentage_threshold is a number that 100 is not greater
    than, no bucket is ever "degraded": a bucket is "down" if it has a down
    record and "up" otherwise, however many of its checks are slow. *)
Theorem no_degraded_from_100 sum records interval app_config th :
  interval <> "all"%string ->
  timestamps_valid records ->
  number_truediv_int (dict_get app_config "degraded_threshold" (NInt 200)) 1000 = Ok th ->
  number_valid (dict_get app_config "degraded_percentage_threshold" (NInt 10)) = true ->
  number_gt (NInt 100) (dict_get app_config "degraded_percentage_threshold" (NInt 10))
  = false ->
  exists out,
    aggregate_heartbeat_data sum records interval app_config = Ok out /\
    Forall (fun node =>
      exists down,
        node !! "down_count"%string = Some (VInt down) /\
        node !! "status"%string = Some (VStr (if 0 <? down then "down" else "up")) /\
        node !! "is_up"%string = Some (VBool (negb (0 <? down)))) out.
Proof.
  intros Hall Hvalid Hth Hpv Hp100. apply String.eqb_neq in Hall.
  destruct (aggregate_buckets sum records interval app_config th Hall
              (starts_exist interval records Hvalid) Hth)
    as (out & keys & Hout & _ & _ & _ & Hnodes).
  exists out. split; [exact Hout|].
  refine (Forall2_Forall_transfer _ (fun _ => True) _ _ _ _ Hnodes
            (Forall_true _ _ (fun _ => I))).
  intros key node [Hne Hnode] _.
  destruct (heartbeat_node_percentage _ _ _ _ _ _ Hne Hnode)
    as (q & _ & Hform & _ & Hdown & _ & _ & Hstatus & Hisup).
  rewrite (percentage_not_above _ _ Hform Hpv Hp100) in Hstatus, Hisup.
  exists (down_count (members interval records key)).
  split; [exact Hdown|]. split; [exact Hstatus|].
  rewrite Hisup. destruct (0 <? down_count (members interval records key)); reflexivity.
Qed.

(** X6.  When the configured
    degraded_percentage_threshold is a number that 0 is greater than, no
    bucket is ever "up": a bucket without a down record is "degraded",
    even if none of its checks is slow, and is_up is False in every
    node. *)
Theorem never_up_below_zero sum records interval app_config th :
  interval <> "all"%string ->
  timestamps_valid records ->
  number_truediv_int (dict_get app_config "degraded_threshold" (NInt 200)) 1000 = Ok th ->
  number_gt (NInt 0) (dict_get app_config "degraded_percentage_threshold" (NInt 10))
  = true ->
  exists out,
    aggregate_heartbeat_data sum records interval app_config = Ok out /\
    Forall (fun node =>
      exists down,
        node !! "down_count"%string = Some (VInt down) /\
        node !! "status"%string = Some (VStr (if 0 <? down then "down" else "degraded")) /\
        node !! "is_up"%string = Some (VBool false)) out.
Proof.
  intros Hall Hvalid Hth Hp0. apply String.eqb_neq in Hall.
  destruct (aggregate_buckets sum records interval app_config th Hall
              (starts_exist interval records Hvalid) Hth)
    as (out & keys & Hout & _ & _ & _ & Hnodes).
  exists out. split; [exact Hout|].
  refine (Forall2_Forall_transfer _ (fun _ => True) _ _ _ _ Hnodes
            (Forall_true _ _ (fun _ => I))).
  intros key node [Hne Hnode] _.
  destruct (heartbeat_node_percentage _ _ _ _ _ _ Hne Hnode)
    as (q & _ & Hform & _ & Hdown & _ & _ & Hstatus & Hisup).
  rewrite (percentage_above_negative _ _ Hform Hp0) in Hstatus, Hisup.
  exists (down_count (members interval records key)).
  split; [exact Hdown|]. split; [exact Hstatus|].
  rewrite Hisup. destruct (0 <? down_count (members interval records key)); reflexivity.
Qed.

Lemma issues_len th recs :
  down_count recs + degraded_count th recs
  = len (List.filter (fun r => negb (is_up r) || is_degraded th r) recs).
Proof.
  rewrite down_count_len, degraded_count_len. unfold len.
  induction recs as [|r recs IH]; [reflexivity|].
  cbn [List.filter].
  destruct (is_degraded th r) eqn:Hd.
  - rewrite (is_degraded_is_up th r Hd). cbn [negb orb length]. lia.
  - destruct (is_up r); cbn [negb orb length]; lia.
Qed.

Lemma filter_all {A} (p : A -> bool) l :
  Forall (fun x => p x = true) l -> List.filter p l = l.
Proof.
  induction 1 as [|x l Hx _ IH]; [reflexivity|]. cbn [List.filter]. now rewrite Hx, IH.
Qed.

Lemma filter_none {A} (p : A -> bool) l :
  Forall (fun x => p x = false) l -> List.filter p l = [].
Proof.
  induction 1 as [|x l Hx _ IH]; [reflexivity|]. cbn [List.filter]. now rewrite Hx, IH.
Qed.

(** X7.  A bucket in which every record is
    down or slow has issue_percentage exactly 100.0, and a bucket in which
    no record is down or slow has exactly 0.0 and, unless 0 is greater
    than the configured percentage threshold, the status "up". *)
Theorem issue_percentage_extremes sum records interval app_config th :
  interval <> "all"%string ->
  timestamps_valid records ->
  number_truediv_int (dict_get app_config "degraded_threshold" (NInt 200)) 1000 = Ok th ->
  exists out keys,
    aggregate_heartbeat_data sum records interval app_config = Ok out /\
    Forall2 (fun key node =>
      let ms := members interval records key in
      node !! "timestamp"%string = Some (VStr key) /\
      (Forall (fun r => negb (is_up r) || is_degraded th r = true) ms ->
       node !! "issue_percentage"%string = Some (VFloat (Float64.of_int 100))) /\
      (Forall (fun r => negb (is_up r) || is_degraded th r = false) ms ->
       node !! "issue_percentage"%string = Some (VFloat Float64.zero) /\
       (number_gt (NInt 0)
          (dict_get app_config "degraded_percentage_threshold" (NInt 10)) = false ->
        node !! "status"%string = Some (VStr "up") /\
        node !! "is_up"%string = Some (VBool true))))
      keys out.
Proof.
  intros Hall Hvalid Hth. apply String.eqb_neq in Hall.
  destruct (aggregate_buckets sum records interval app_config th Hall
              (starts_exist interval records Hvalid) Hth)
    as (out & keys & Hout & _ & _ & _ & Hnodes).
  exists out, keys. split; [exact Hout|].
  eapply Forall2_impl; [exact Hnodes|]. intros key node [Hne Hnode]. cbv zeta.
  destruct (heartbeat_node_fields _ _ _ _ _ _ Hne Hnode) as (_ & _ & _ & _ & Hts & _).
  destruct (heartbeat_node_percentage _ _ _ _ _ _ Hne Hnode)
    as (q & Hq & _ & Hpct & _ & _ & _ & Hstatus & Hisup).
  pose proof (len_pos _ Hne) as Hlen.
  rewrite issues_len in Hq.
  split; [exact Hts|]. split.
  - intros Hevery. rewrite (filter_all _ _ Hevery), int_truediv_self in Hq by exact Hlen.
    injection Hq as <-. rewrite Hpct, percent_of_one. reflexivity.
  - intros Hno.
    assert (Hdown : down_count (members interval records key) = 0).
    { pose proof (issues_len th (members interval records key)) as Hi.
      rewrite (filter_none _ _ Hno) in Hi.
      pose proof (counts_bounds th (members interval records key)) as Hb.
      unfold down_count in *. change (len []) with 0 in Hi. lia. }
    rewrite (filter_none _ _ Hno) in Hq.
    unfold Float64.int_truediv in Hq.
    replace (len (members interval records key) =? 0) with false in Hq
      by (symmetry; apply Z.eqb_neq; lia).
    replace (len (members interval records key) <? 0) with false in Hq
      by (symmetry; apply Z.ltb_ge; lia).
    change (len [] =? 0) with true in Hq. cbv iota in Hq. injection Hq as <-.
    rewrite percent_of_zero in *.
    split; [exact Hpct|]. intros Hp0.
    rewrite Hdown in Hstatus, Hisup. change (0 <? 0) with false in Hstatus, Hisup.
    cbv iota in Hstatus, Hisup.
    unfold Float64.zero in Hstatus, Hisup.
    rewrite (zero_not_above _ Hp0) in Hstatus, Hisup.
    split; assumption.
Qed.

(** X8.  The two thresholds of the
    configuration decide degraded_count, issue_percentage, status and
    is_up only: under any two configurations the same records give nodes
    with the same timestamps in the same order, and with the same count,
    down_count and mean response time. *)
Theorem thresholds_leave_grouping sum records interval app_config1 app_config2 th1 th2 :
  timestamps_valid records ->
  number_truediv_int (dict_get app_config1 "degraded_threshold" (NInt 200)) 1000 = Ok th1 ->
  number_truediv_int (dict_get app_config2 "degraded_threshold" (NInt 200)) 1000 = Ok th2 ->
  exists out1 out2,
    aggregate_heartbeat_data sum records interval app_config1 = Ok out1 /\
    aggregate_heartbeat_data sum records interval app_config2 = Ok out2 /\
    Forall2 (fun node1 node2 : gmap string pyval =>
      is_Some (node1 !! "timestamp"%string) /\
      node1 !! "timestamp"%string = node2 !! "timestamp"%string /\
      node1 !! "count"%string = node2 !! "count"%string /\
      node1 !! "down_count"%string = node2 !! "down_count"%string /\
      node1 !! "avg_response_time"%string = node2 !! "avg_response_time"%string /\
      node1 !! "response_time"%string = node2 !! "response_time"%string)
      out1 out2.
Proof.
  intros Hvalid Hth1 Hth2.
  destruct (String.eqb interval "all") eqn:Hall.
  - apply String.eqb_eq in Hall. subst interval.
    exists (map (heartbeat_all th1) records), (map (heartbeat_all th2) records).
    split; [now apply aggregate_all|]. split; [now apply aggregate_all|].
    apply Forall2_fmap, Forall_Forall2_diag, Forall_forall. intros r _.
    repeat split; try reflexivity. eexists. reflexivity.
  - destruct (aggregate_buckets sum records interval app_config1 th1 Hall
                (starts_exist interval records Hvalid) Hth1)
      as (out1 & keys1 & Hout1 & Hs1 & Hnd1 & Hkeys1 & Hnodes1).
    destruct (aggregate_buckets sum records interval app_config2 th2 Hall
                (starts_exist interval records Hvalid) Hth2)
      as (out2 & keys2 & Hout2 & Hs2 & Hnd2 & Hkeys2 & Hnodes2).
    assert (keys1 = keys2) as <-.
    { apply keys_unique; auto. intros k. now rewrite Hkeys1, Hkeys2. }
    exists out1, out2. split; [exact Hout1|]. split; [exact Hout2|].
    refine (Forall2_same_left _ _ _ _ _ _ _ Hnodes1 Hnodes2).
    intros key node1 node2 [Hne Hnode1] [_ Hnode2].
    destruct (heartbeat_node_fields _ _ _ _ _ _ Hne Hnode1)
      as (avg1 & ip1 & Havg1 & _ & Hts1 & _ & _ & Hrt1 & Hc1 & Ha1 & _ & Hd1 & _).
    destruct (heartbeat_node_fields _ _ _ _ _ _ Hne Hnode2)
      as (avg2 & ip2 & Havg2 & _ & Hts2 & _ & _ & Hrt2 & Hc2 & Ha2 & _ & Hd2 & _).
    assert (avg1 = avg2) as <- by congruence.
    rewrite Hts1, Hts2, Hc1, Hc2, Hd1, Hd2, Ha1, Ha2, Hrt1, Hrt2.
    repeat split; eauto.
Qed.

(** X9.  At every interval other than "all", unknown
    ones included, the result has exactly one node for each distinct
    bucket key of the input, and the nodes come in strictly ascending
    order of their timestamp strings, whatever the order of the input. *)
Theorem one_node_per_key sum records interval app_config th :
  interval <> "all"%string ->
  timestamps_valid records ->
  number_truediv_int (dict_get app_config "degraded_threshold" (NInt 200)) 1000 = Ok th ->
  exists out keys,
    aggregate_heartbeat_data sum records interval app_config = Ok out /\
    Forall2 (fun key node => node !! "timestamp"%string = Some (VStr key)) keys out /\
    StronglySorted str_lt keys /\
    NoDup keys /\
    (forall key,
       key ∈ keys <->
       exists r start,
         r ∈ records /\ bucket_start interval (timestamp r) = Ok start /\
         Datetime.isoformat start = key).
Proof.
  intros Hall Hvalid Hth. apply String.eqb_neq in Hall.
  destruct (aggregate_buckets sum records interval app_config th Hall
              (starts_exist interval records Hvalid) Hth)
    as (out & keys & Hout & Hsorted & Hnd & Hkeys & Hnodes).
  exists out, keys. split; [exact Hout|]. split; [|split; [|split; [exact Hnd|]]].
  - eapply Forall2_impl; [exact Hnodes|]. intros key node [Hne Hnode].
    destruct (heartbeat_node_fields _ _ _ _ _ _ Hne Hnode) as (_ & _ & _ & _ & Hts & _).
    exact Hts.
  - now apply sorted_nodup_strict.
  - intros key. rewrite Hkeys. split.
    + intros (r & Hr & <-).
      destruct (proj1 (Forall_forall _ _) (starts_exist interval records Hvalid) r Hr)
        as [start Hstart].
      exists r, start. split; [exact Hr|]. split; [exact Hstart|].
      unfold bucket_key, bucket_of. now rewrite Hstart.
    + intros (r & start & Hr & Hstart & <-). exists r. split; [exact Hr|].
      unfold bucket_key, bucket_of. now rewrite Hstart.
Qed.

Lemma int_at_spec (name : string) (f : string -> Z) keys out key :
  Forall2 (fun k (node : gmap string pyval) =>
             node !! "timestamp"%string = Some (VStr k) /\
             node !! name = Some (VInt (f k))) keys out ->
  int_at name key out = if decide (key ∈ keys) then f key else 0.
Proof.
  unfold int_at. induction 1 as [|k node keys out [Hts Hname] _ IH].
  - cbn. destruct (decide (key ∈ [])) as [Hin|_]; [now apply elem_of_nil in Hin|reflexivity].
  - cbn [List.find]. rewrite Hts.
    destruct (String.eqb_spec k key) as [->|Hne].
    + rewrite Hname. destruct (decide (key ∈ key :: keys)) as [_|Hn]; [reflexivity|].
      exfalso. apply Hn. now left.
    + rewrite IH.
      destruct (decide (key ∈ keys)) as [Hin|Hn], (decide (key ∈ k :: keys)) as [Hin'|Hn'];
        try reflexivity.
      * exfalso. apply Hn'. now right.
      * exfalso. apply elem_of_cons in Hin' as [->|Hin']; [now apply Hne|now apply Hn].
Qed.

Lemma int_at_members sum records interval app_config th out keys
    (name : string) (p : MonitorRecord -> bool) key :
  (forall k, k ∈ keys <-> exists r, r ∈ records /\ bucket_key interval r = k) ->
  Forall2 (fun k node =>
             members interval records k <> [] /\
             heartbeat_node sum th
               (dict_get app_config "degraded_percentage_threshold" (NInt 10))
               k (members interval records k) = Ok node) keys out ->
  (forall k node,
     members interval records k <> [] ->
     heartbeat_node sum th
       (dict_get app_config "degraded_percentage_threshold" (NInt 10))
       k (members interval records k) = Ok node ->
     node !! name = Some (VInt (len (List.filter p (members interval records k))))) ->
  int_at name key out = len (List.filter p (members interval records key)).
Proof.
  intros Hkeys Hnodes Hfield.
  rewrite (int_at_spec name
             (fun k => len (List.filter p (members interval records k))) keys out key).
  - destruct (decide (key ∈ keys)) as [_|Hn]; [reflexivity|].
    destruct (members interval records key) as [|r ms] eqn:Hms; [reflexivity|].
    exfalso. apply Hn, Hkeys.
    apply members_nonempty. rewrite Hms. discriminate.
  - eapply Forall2_impl; [exact Hnodes|]. intros k node [Hne Hnode]. split.
    + destruct (heartbeat_node_fields _ _ _ _ _ _ Hne Hnode) as (_ & _ & _ & _ & Hts & _).
      exact Hts.
    + now apply Hfield.
Qed.

Lemma members_app interval records1 records2 key :
  members interval (records1 ++ records2) key
  = members interval records1 key ++ members interval records2 key.
Proof. unfold members. apply List.filter_app. Qed.

Lemma len_filter_app {A} (p : A -> bool) l1 l2 :
  len (List.filter p (l1 ++ l2)) = len (List.filter p l1) + len (List.filter p l2).
Proof. unfold len. rewrite List.filter_app, List.length_app. lia. Qed.

(** X10.  Aggregating two batches of records
    separately and adding, timestamp by timestamp, the count, down_count
    and degraded_count of their nodes (0 where a batch has no node for a
    timestamp) gives the count, down_count and degraded_count of the
    nodes of the two batches aggregated together. *)
Theorem counts_add_over_batches sum records1 records2 interval app_config th :
  interval <> "all"%string ->
  timestamps_valid records1 ->
  timestamps_valid records2 ->
  number_truediv_int (dict_get app_config "degraded_threshold" (NInt 200)) 1000 = Ok th ->
  exists out1 out2 out,
    aggregate_heartbeat_data sum records1 interval app_config = Ok out1 /\
    aggregate_heartbeat_data sum records2 interval app_config = Ok out2 /\
    aggregate_heartbeat_data sum (records1 ++ records2) interval app_config = Ok out /\
    forall key,
      int_at "count" key out = int_at "count" key out1 + int_at "count" key out2 /\
      int_at "down_count" key out
      = int_at "down_count" key out1 + int_at "down_count" key out2 /\
      int_at "degraded_count" key out
      = int_at "degraded_count" key out1 + int_at "degraded_count" key out2.
Proof.
  intros Hall Hv1 Hv2 Hth. apply String.eqb_neq in Hall.
  assert (Hv : timestamps_valid (records1 ++ records2)) by (apply Forall_app; auto).
  destruct (aggregate_buckets sum records1 interval app_config th Hall
              (starts_exist interval records1 Hv1) Hth)
    as (out1 & keys1 & Hout1 & _ & _ & Hkeys1 & Hnodes1).
  destruct (aggregate_buckets sum records2 interval app_config th Hall
              (starts_exist interval records2 Hv2) Hth)
    as (out2 & keys2 & Hout2 & _ & _ & Hkeys2 & Hnodes2).
  destruct (aggregate_buckets sum (records1 ++ records2) interval app_config th Hall
              (starts_exist interval (records1 ++ records2) Hv) Hth)
    as (out & keys & Hout & _ & _ & Hkeys & Hnodes).
  exists out1, out2, out. do 3 (split; [assumption|]).
  assert (Hcount : forall records k node,
    members interval records k <> [] ->
    heartbeat_node sum th (dict_get app_config "degraded_percentage_threshold" (NInt 10))
      k (members interval records k) = Ok node ->
    node !! "count"%string
    = Some (VInt (len (List.filter (fun _ => true) (members interval records k))))).
  { intros records k node Hne Hnode.
    destruct (heartbeat_node_fields _ _ _ _ _ _ Hne Hnode)
      as (_ & _ & _ & _ & _ & _ & _ & _ & Hc & _).
    rewrite Hc. do 3 f_equal. symmetry. apply filter_all, Forall_true. reflexivity. }
  assert (Hdown : forall records k node,
    members interval records k <> [] ->
    heartbeat_node sum th (dict_get app_config "degraded_percentage_threshold" (NInt 10))
      k (members interval records k) = Ok node ->
    node !! "down_count"%string
    = Some (VInt (len (List.filter (fun r => negb (is_up r)) (members interval records k))))).
  { intros records k node Hne Hnode.
    destruct (heartbeat_node_fields _ _ _ _ _ _ Hne Hnode)
      as (_ & _ & _ & _ & _ & _ & _ & _ & _ & _ & _ & Hd & _).
    rewrite Hd. now rewrite down_count_len. }
  assert (Hdeg : forall records k node,
    members interval records k <> [] ->
    heartbeat_node sum th (dict_get app_config "degraded_percentage_threshold" (NInt 10))
      k (members interval records k) = Ok node ->
    node !! "degraded_count"%string
    = Some (VInt (len (List.filter (is_degraded th) (members interval records k))))).
  { intros records k node Hne Hnode.
    destruct (heartbeat_node_fields _ _ _ _ _ _ Hne Hnode)
      as (_ & _ & _ & _ & _ & _ & _ & _ & _ & _ & Hd & _).
    rewrite Hd. now rewrite degraded_count_len. }
  intros key. split; [|split].
  - rewrite (int_at_members _ _ _ _ _ _ _ _ _ key Hkeys Hnodes (Hcount _)),
            (int_at_members _ _ _ _ _ _ _ _ _ key Hkeys1 Hnodes1 (Hcount _)),
            (int_at_members _ _ _ _ _ _ _ _ _ key Hkeys2 Hnodes2 (Hcount _)).
    rewrite members_app. apply len_filter_app.
  - rewrite (int_at_members _ _ _ _ _ _ _ _ _ key Hkeys Hnodes (Hdown _)),
            (int_at_members _ _ _ _ _ _ _ _ _ key Hkeys1 Hnodes1 (Hdown _)),
            (int_at_members _ _ _ _ _ _ _ _ _ key Hkeys2 Hnodes2 (Hdown _)).
    rewrite members_app. apply len_filter_app.
  - rewrite (int_at_members _ _ _ _ _ _ _ _ _ key Hkeys Hnodes (Hdeg _)),
            (int_at_members _ _ _ _ _ _ _ _ _ key Hkeys1 Hnodes1 (Hdeg _)),
            (int_at_members _ _ _ _ _ _ _ _ _ key Hkeys2 Hnodes2 (Hdeg _)).
    rewrite members_app. apply len_filter_app.
Qed.

(** ** More on the status endpoints *)

Lemma cutoff_ok now hours cutoff_time :
  Datetime.valid now = true ->
  cutoff now hours = Ok cutoff_time ->
  Datetime.valid cutoff_time = true /\
  instant cutoff_time = instant now - hours * 3600 * 1000000.
Proof.
  intros Hv Hc. destruct (cutoff_spec now hours Hv) as [Hok Hraise].
  destruct (decide (1 <= (instant now - hours * 3600 * 1000000) / Datetime.US_PER_DAY
                    <= Datetime.MAXORDINAL)) as [Hr|Hr].
  - destruct (Hok Hr) as (c & Hc' & Hvc & Hi). rewrite Hc in Hc'. injection Hc' as <-. auto.
  - rewrite (Hraise Hr) in Hc. discriminate.
Qed.

(** A longer look-back has an earlier cutoff. *)
Lemma cutoff_mono now hours1 hours2 c1 c2 :
  Datetime.valid now = true -> hours1 <= hours2 ->
  cutoff now hours1 = Ok c1 -> cutoff now hours2 = Ok c2 ->
  Datetime.leb c2 c1 = true.
Proof.
  intros Hv Hle H1 H2.
  destruct (cutoff_ok _ _ _ Hv H1) as [Hv1 Hi1].
  destruct (cutoff_ok _ _ _ Hv H2) as [Hv2 Hi2].
  apply leb_instant; auto. lia.
Qed.

Lemma filter_submseteq {A} (p q : A -> bool) l :
  (forall x, p x = true -> q x = true) -> List.filter p l ⊆+ List.filter q l.
Proof.
  intros Hpq. induction l as [|x l IH]; [constructor|].
  cbn [List.filter]. destruct (p x) eqn:Hp.
  - rewrite (Hpq x Hp). now constructor.
  - destruct (q x); [now apply submseteq_cons|exact IH].
Qed.

Lemma matches_earlier monitor c1 c2 r :
  Datetime.leb c2 c1 = true -> matches monitor c1 r = true -> matches monitor c2 r = true.
Proof.
  intros Hle. unfold matches. rewrite !andb_true_iff. intros [Hn Hc].
  split; [exact Hn|]. eapply datetime_leb_trans; eauto.
Qed.

(** What get_all_status does once the cutoff exists: it answers when
    every configured monitor has a name and a url, and raises the
    KeyError of the first monitor that lacks one otherwise. *)
Lemma get_all_status_in_range (monitors_config : list (gmap string pyval)) db now now'
    hours cutoff_time :
  cutoff now hours = Ok cutoff_time ->
  (Forall (fun monitor : gmap string pyval =>
             is_Some (monitor !! "name"%string) /\ is_Some (monitor !! "url"%string))
     monitors_config ->
   exists response, get_all_status monitors_config db now now' hours = Ok response) /\
  ((exists response, get_all_status monitors_config db now now' hours = Ok response) \/
   get_all_status monitors_config db now now' hours = Raise (KeyError "name") \/
   get_all_status monitors_config db now now' hours = Raise (KeyError "url")).
Proof.
  intros Hc. split.
  - intros Hconfig.
    assert (exists monitors,
              Forall2 (fun monitor entry => monitor_data db cutoff_time monitor = Ok entry)
                monitors_config monitors) as [monitors Hmonitors].
    { induction Hconfig as [|monitor l [[name Hname] [url Hurl]] _ [monitors IH]].
      - exists []. constructor.
      - eexists (_ :: monitors). constructor; [|exact IH].
        exact (monitor_data_ok db cutoff_time monitor name url Hname Hurl). }
    eexists. exact (get_all_status_ok _ _ _ _ _ _ _ Hc Hmonitors).
  - unfold get_all_status. rewrite Hc, bind_Ok.
    destruct (for_each _ [] monitors_config) as [monitors|e] eqn:Hloop.
    + left. eexists. reflexivity.
    + right.
      destruct (for_each_collect (monitor_data db cutoff_time) monitors_config [])
        as [_ Hraise].
      apply (proj1 (Hraise e)) in Hloop as (l1 & monitor & l2 & _ & _ & Hm).
      apply monitor_data_raise in Hm as [[_ ->]|(_ & _ & ->)]; [left|right]; reflexivity.
Qed.

(** X11.  The look-back [hours] is not checked: when
    the instant [hours] hours before now lies outside the years 1 to 9999,
    both endpoints raise OverflowError before any query is made, rather
    than a 404 or an empty answer.  This is so for every
    [hours >= 24 * now.toordinal()].  When the instant lies inside,
    the cutoff is exactly that instant, get_monitor_status returns or
    raises its 404, and get_all_status returns when every configured
    monitor has a name and a url; it raises nothing but the KeyError of
    a monitor that lacks one. *)
Theorem lookback_out_of_range (monitors_config : list (gmap string pyval)) db now now'
    monitor hours :
  Datetime.valid now = true ->
  let days := (instant now - hours * 3600 * 1000000) / Datetime.US_PER_DAY in
  (1 <= days <= Datetime.MAXORDINAL ->
   exists cutoff_time,
     cutoff now hours = Ok cutoff_time /\
     Datetime.valid cutoff_time = true /\
     instant cutoff_time = instant now - hours * 3600 * 1000000 /\
     (Forall (fun configured : gmap string pyval =>
                is_Some (configured !! "name"%string) /\
                is_Some (configured !! "url"%string)) monitors_config ->
      exists response, get_all_status monitors_config db now now' hours = Ok response) /\
     ((exists response, get_all_status monitors_config db now now' hours = Ok response) \/
      get_all_status monitors_config db now now' hours = Raise (KeyError "name") \/
      get_all_status monitors_config db now now' hours = Raise (KeyError "url")) /\
     ((exists response, get_monitor_status db now monitor hours = Ok response) \/
      get_monitor_status db now monitor hours
      = Raise (HTTPException 404 ("Monitor '" ++ monitor ++ "' not found")))) /\
  (~ 1 <= days <= Datetime.MAXORDINAL ->
   get_monitor_status db now monitor hours = Raise OverflowError /\
   get_all_status monitors_config db now now' hours = Raise OverflowError) /\
  (24 * Datetime.toordinal now <= hours -> ~ 1 <= days <= Datetime.MAXORDINAL).
Proof.
  intros Hv days. destruct (cutoff_spec now hours Hv) as [Hok Hraise].
  fold days in Hok, Hraise.
  split; [|split].
  - intros Hr. destruct (Hok Hr) as (c & Hc & Hvc & Hi).
    destruct (get_all_status_in_range monitors_config db now now' hours c Hc) as [Hall Hcases].
    exists c. do 3 (split; [assumption|]). split; [exact Hall|]. split; [exact Hcases|].
    unfold get_monitor_status. rewrite Hc, bind_Ok.
    destruct (query_records db (VStr monitor) c Descending); [right; reflexivity|left; eauto].
  - intros Hr. specialize (Hraise Hr).
    unfold get_monitor_status, get_all_status. rewrite Hraise. split; reflexivity.
  - intros Hh. destruct (instant_split now Hv) as (_ & tod & Htod & Hi & _).
    unfold days. rewrite Hi. unfold Datetime.US_PER_DAY in *.
    Z.div_mod_to_equations. lia.
Qed.

(** The answers of the store for one name under two cutoffs. *)
Lemma earlier_cutoff_more_rows db table (monitor : string) cutoff1 cutoff2 o o' :
  answers table db ->
  Datetime.leb cutoff2 cutoff1 = true ->
  map status_record (query_records db (VStr monitor) cutoff1 o)
  ⊆+ map status_record (query_records db (VStr monitor) cutoff2 o').
Proof.
  intros Hdb Hcut. apply fmap_submseteq.
  destruct (Hdb monitor cutoff1 o) as [Hp1 _].
  destruct (Hdb monitor cutoff2 o') as [Hp2 _].
  rewrite Hp1, Hp2.
  apply filter_submseteq. intros r. now apply matches_earlier.
Qed.

(** X12.  A longer look-back only adds, as long
    as both look-backs end within the years 1 to 9999: then, with
    [hours1 <= hours2] and a configuration whose monitors each have a
    name, a str, and a url, every monitor's history for [hours1] is
    contained, entry for entry, in its history for [hours2], and a
    monitor that get_monitor_status answers for [hours1] is answered for
    [hours2], with at least the same records.  When the longer look-back
    ends before year 1, both endpoints raise OverflowError for it,
    whatever they answer for the shorter one; and when the shorter one
    ends after year 9999, both raise OverflowError for that one. *)
Theorem history_grows_with_hours (monitors_config : list (gmap string pyval)) db table
    now now' hours1 hours2 :
  answers table db ->
  Datetime.valid now = true ->
  hours1 <= hours2 ->
  Forall (fun configured : gmap string pyval =>
            exists (configured_name : string) (url : pyval),
              configured !! "name"%string = Some (VStr configured_name) /\
              configured !! "url"%string = Some url) monitors_config ->
  let days1 := (instant now - hours1 * 3600 * 1000000) / Datetime.US_PER_DAY in
  let days2 := (instant now - hours2 * 3600 * 1000000) / Datetime.US_PER_DAY in
  days2 <= days1 /\
  (1 <= days2 -> days1 <= Datetime.MAXORDINAL ->
   (exists response1 response2 monitors1 monitors2,
      get_all_status monitors_config db now now' hours1 = Ok response1 /\
      get_all_status monitors_config db now now' hours2 = Ok response2 /\
      response1 !! "monitors"%string = Some (VList monitors1) /\
      response2 !! "monitors"%string = Some (VList monitors2) /\
      Forall2 (fun entry1 entry2 =>
        exists data1 data2 history1 history2,
          entry1 = VDict data1 /\ entry2 = VDict data2 /\
          is_Some (data1 !! "name"%string) /\
          data1 !! "name"%string = data2 !! "name"%string /\
          data1 !! "history"%string = Some (VList history1) /\
          data2 !! "history"%string = Some (VList history2) /\
          history1 ⊆+ history2)
        monitors1 monitors2) /\
   (forall monitor response1 records1,
      get_monitor_status db now monitor hours1 = Ok response1 ->
      response1 !! "records"%string = Some (VList records1) ->
      exists response2 records2,
        get_monitor_status db now monitor hours2 = Ok response2 /\
        response2 !! "records"%string = Some (VList records2) /\
        records1 ⊆+ records2)) /\
  (days2 < 1 ->
   get_all_status monitors_config db now now' hours2 = Raise OverflowError /\
   forall monitor, get_monitor_status db now monitor hours2 = Raise OverflowError) /\
  (Datetime.MAXORDINAL < days1 ->
   get_all_status monitors_config db now now' hours1 = Raise OverflowError /\
   forall monitor, get_monitor_status db now monitor hours1 = Raise OverflowError).
Proof.
  intros Hdb Hv Hle Hconfig days1 days2.
  destruct (cutoff_spec now hours1 Hv) as [Hok1 Hraise1].
  destruct (cutoff_spec now hours2 Hv) as [Hok2 Hraise2].
  fold days1 in Hok1, Hraise1. fold days2 in Hok2, Hraise2.
  assert (Hdays : days2 <= days1).
  { unfold days1, days2. apply Z.div_le_mono; [unfold Datetime.US_PER_DAY; lia|lia]. }
  split; [exact Hdays|]. split; [|split].
  - intros H2 H1.
    destruct (Hok1 ltac:(lia)) as (c1 & Hc1 & Hv1 & Hi1).
    destruct (Hok2 ltac:(lia)) as (c2 & Hc2 & Hv2 & Hi2).
    assert (Hcut : Datetime.leb c2 c1 = true) by (apply leb_instant; auto; lia).
    split.
    + destruct (monitors_status_exist db c1 monitors_config Hconfig) as (monitors1 & Hm1).
      destruct (monitors_status_exist db c2 monitors_config Hconfig) as (monitors2 & Hm2).
      eexists _, _, monitors1, monitors2.
      split.
      { apply (get_all_status_ok _ _ _ _ _ c1); [exact Hc1|].
        eapply Forall2_impl; [exact Hm1|]. intros m e (n & u & _ & _ & Hd & _). exact Hd. }
      split.
      { apply (get_all_status_ok _ _ _ _ _ c2); [exact Hc2|].
        eapply Forall2_impl; [exact Hm2|]. intros m e (n & u & _ & _ & Hd & _). exact Hd. }
      split; [reflexivity|]. split; [reflexivity|].
      refine (Forall2_same_left _ _ _ _ _ _ _ Hm1 Hm2).
      intros m e1 e2 (n1 & u1 & Hn1 & Hu1 & _ & ->) (n2 & u2 & Hn2 & Hu2 & _ & ->).
      assert (n2 = n1) as -> by congruence.
      eexists _, _, _, _. split; [reflexivity|]. split; [reflexivity|].
      split; [eexists; reflexivity|]. split; [reflexivity|].
      split; [reflexivity|]. split; [reflexivity|].
      now apply (earlier_cutoff_more_rows db table).
    + intros monitor response1 records1 Hr1 Hrecords1.
      unfold get_monitor_status in *. rewrite Hc1, bind_Ok in Hr1. rewrite Hc2, bind_Ok.
      pose proof (earlier_cutoff_more_rows db table monitor c1 c2 Descending Descending
                    Hdb Hcut) as Hsub.
      destruct (query_records db (VStr monitor) c1 Descending) as [|r1 l1] eqn:Hq1;
        [discriminate|].
      injection Hr1 as <-.
      change (Some (VList (map status_record (r1 :: l1))) = Some (VList records1))
        in Hrecords1.
      injection Hrecords1 as <-.
      destruct (query_records db (VStr monitor) c2 Descending) as [|r2 l2] eqn:Hq2.
      * apply submseteq_nil_r in Hsub. discriminate.
      * eexists _, _. split; [reflexivity|]. split; [reflexivity|]. exact Hsub.
  - intros H2. specialize (Hraise2 ltac:(lia)).
    split; [now apply get_all_status_overflow|].
    intros monitor. unfold get_monitor_status. now rewrite Hraise2.
  - intros H1. specialize (Hraise1 ltac:(lia)).
    split; [now apply get_all_status_overflow|].
    intros monitor. unfold get_monitor_status. now rewrite Hraise1.
Qed.

Lemma StronglySorted_rev {A} (R : relation A) l :
  StronglySorted R l -> StronglySorted (flip R) (rev l).
Proof.
  induction 1 as [|x l Hl IH Hx]; [constructor|].
  cbn [rev]. apply StronglySorted_app. split; [|split; [exact IH|repeat constructor]].
  intros x1 x2 H1 H2. apply list_elem_of_singleton in H2. subst x2.
  unfold flip. apply list_elem_of_In, List.in_rev, list_elem_of_In in H1.
  exact (proj1 (Forall_forall _ _) Hx x1 H1).
Qed.

Lemma NoDup_fmap_eq {A B} (f : A -> B) l x y :
  NoDup (map f l) -> x ∈ l -> y ∈ l -> f x = f y -> x = y.
Proof.
  induction l as [|z l IH]; intros Hnd Hx Hy Heq; [now apply elem_of_nil in Hx|].
  cbn [map] in Hnd. apply NoDup_cons in Hnd as [Hz Hnd].
  apply elem_of_cons in Hx as [->|Hx]; apply elem_of_cons in Hy as [->|Hy].
  - reflexivity.
  - exfalso. apply Hz. rewrite Heq. apply list_elem_of_In, List.in_map, list_elem_of_In, Hy.
  - exfalso. apply Hz. rewrite <- Heq. apply list_elem_of_In, List.in_map, list_elem_of_In, Hx.
  - now apply IH.
Qed.

Lemma leb_antisym a b :
  Datetime.leb a b = true -> Datetime.leb b a = true -> a = b.
Proof.
  unfold Datetime.leb, Datetime.compare. intros Hab Hba.
  rewrite datetime_compare_fields_antisym in Hba.
  apply datetime_compare_eq. unfold Datetime.compare.
  destruct (Datetime.compare_fields (Datetime.fields a) (Datetime.fields b));
    [reflexivity|discriminate|discriminate].
Qed.

(** Rows with distinct timestamps have one ascending order, and the
    descending order is its reverse. *)
Lemma descending_is_reverse (asc desc : list MonitorRecord) :
  desc ≡ₚ asc ->
  NoDup (map timestamp asc) ->
  Sorted (in_order Ascending) asc ->
  Sorted (in_order Descending) desc ->
  desc = rev asc.
Proof.
  intros Hperm Hnd Hasc Hdesc.
  rewrite <- (rev_involutive desc). f_equal.
  apply (StronglySorted_unique_strong (in_order Ascending)).
  - intros x1 x2 H1 H2 H12 H21.
    apply (NoDup_fmap_eq timestamp asc); auto.
    + apply list_elem_of_In, List.in_rev, list_elem_of_In in H1. now rewrite <- Hperm.
    + apply leb_antisym; apply Is_true_true; assumption.
  - apply (StronglySorted_rev (in_order Descending)).
    now apply (Sorted_StronglySorted (in_order Descending) (Transitive0 := in_order_trans _)).
  - now apply (Sorted_StronglySorted (in_order Ascending) (Transitive0 := in_order_trans _)).
  - rewrite <- Hperm. symmetry. apply Permutation_rev.
Qed.

(** X13.  For a configured monitor the two
    endpoints answer with the same records: the records of
    get_monitor_status are a permutation of the history that
    get_all_status gives, exactly its reverse when the monitor's rows in
    the window have distinct timestamps, and get_monitor_status raises
    its 404 exactly when that history is empty. *)
Theorem status_is_reversed_history (monitors_config : list (gmap string pyval)) db table
    now now' hours cutoff_time (monitor : gmap string pyval) (name : string) :
  answers table db ->
  cutoff now hours = Ok cutoff_time ->
  Forall (fun configured : gmap string pyval =>
            exists (configured_name : string) (url : pyval),
              configured !! "name"%string = Some (VStr configured_name) /\
              configured !! "url"%string = Some url) monitors_config ->
  monitor ∈ monitors_config ->
  monitor !! "name"%string = Some (VStr name) ->
  exists response monitors data history,
    get_all_status monitors_config db now now' hours = Ok response /\
    response !! "monitors"%string = Some (VList monitors) /\
    VDict data ∈ monitors /\
    data !! "name"%string = Some (VStr name) /\
    data !! "history"%string = Some (VList history) /\
    match history with
    | [] =>
        get_monitor_status db now name hours
        = Raise (HTTPException 404 ("Monitor '" ++ name ++ "' not found"))
    | _ =>
        exists records,
          get_monitor_status db now name hours
          = Ok (list_to_map
              [ ("monitor_name", VStr name);
                ("records", VList records) ]%string) /\
          records ≡ₚ history /\
          (NoDup (map timestamp
                    (List.filter (matches name cutoff_time) table)) ->
           records = rev history)
    end.
Proof.
  intros Hdb Hc Hconfig Hin Hname.
  destruct (monitors_status_exist db cutoff_time monitors_config Hconfig)
    as (monitors & Hmonitors).
  destruct (Forall2_elem_of_l _ _ _ _ Hmonitors Hin)
    as (entry & Hentry & name' & url & Hname' & Hurl & _ & ->).
  assert (name' = name) as -> by congruence.
  eexists _, monitors, _, _.
  split.
  { apply (get_all_status_ok _ _ _ _ _ cutoff_time); [exact Hc|].
    eapply Forall2_impl; [exact Hmonitors|]. intros m e (n & u & _ & _ & Hd & _). exact Hd. }
  split; [reflexivity|]. split; [exact Hentry|].
  split; [reflexivity|]. split; [reflexivity|].
  destruct (Hdb name cutoff_time Ascending) as [Hpa Hsa].
  destruct (Hdb name cutoff_time Descending) as [Hpd Hsd].
  assert (Hperm : query_records db (VStr name) cutoff_time Descending
                  ≡ₚ query_records db (VStr name) cutoff_time Ascending)
    by (now rewrite Hpa, Hpd).
  unfold get_monitor_status. rewrite Hc, bind_Ok.
  destruct (query_records db (VStr name) cutoff_time Ascending) as [|a asc] eqn:Hqa.
  - apply Permutation_nil_r in Hperm. rewrite Hperm. reflexivity.
  - cbn [map].
    destruct (query_records db (VStr name) cutoff_time Descending) as [|d desc] eqn:Hqd.
    + symmetry in Hperm. apply Permutation_nil_r in Hperm. discriminate.
    + eexists. split; [reflexivity|]. split.
      * change (status_record a :: map status_record asc)
          with (map status_record (a :: asc)).
        now apply Permutation_map.
      * intros Hnd.
        change (status_record a :: map status_record asc)
          with (map status_record (a :: asc)).
        rewrite <- List.map_rev. f_equal.
        apply descending_is_reverse; auto.
        now rewrite (Permutation_map timestamp Hpa).
Qed.

Lemma ltb_not_leb a b : Datetime.ltb a b = true -> Datetime.leb b a = false.
Proof.
  unfold Datetime.ltb, Datetime.leb, Datetime.compare.
  rewrite (datetime_compare_fields_antisym (Datetime.fields b) (Datetime.fields a)).
  destruct (Datetime.compare_fields (Datetime.fields a) (Datetime.fields b));
    [discriminate|reflexivity|discriminate].
Qed.

(** X14.  With [hours <= 0] the cutoff is not before
    now, so rows stamped before now are never returned: over a table whose
    rows are all older than now, and while the cutoff stays within year
    9999, get_monitor_status raises its 404 for every monitor, and
    get_all_status reports every monitor of a configuration whose
    monitors each have a name, a str, and a url, with an empty history
    and no current status.  When the cutoff passes year 9999 both raise
    OverflowError instead. *)
Theorem no_lookback_no_past (monitors_config : list (gmap string pyval)) db table
    now now' hours monitor :
  answers table db ->
  Datetime.valid now = true ->
  hours <= 0 ->
  Forall (fun r => Datetime.ltb (timestamp r) now = true) table ->
  Forall (fun configured : gmap string pyval =>
            exists (configured_name : string) (url : pyval),
              configured !! "name"%string = Some (VStr configured_name) /\
              configured !! "url"%string = Some url) monitors_config ->
  let days := (instant now - hours * 3600 * 1000000) / Datetime.US_PER_DAY in
  1 <= days /\
  (days <= Datetime.MAXORDINAL ->
   exists cutoff_time,
     cutoff now hours = Ok cutoff_time /\
     Datetime.leb now cutoff_time = true /\
     get_monitor_status db now monitor hours
     = Raise (HTTPException 404 ("Monitor '" ++ monitor ++ "' not found")) /\
     exists response monitors,
       get_all_status monitors_config db now now' hours = Ok response /\
       response !! "monitors"%string = Some (VList monitors) /\
       Forall2 (fun (configured : gmap string pyval) entry =>
         exists (name : string) data,
           configured !! "name"%string = Some (VStr name) /\
           entry = VDict data /\
           data !! "name"%string = Some (VStr name) /\
           data !! "current_status"%string = Some unknown_status /\
           data !! "history"%string = Some (VList []))
         monitors_config monitors) /\
  (Datetime.MAXORDINAL < days ->
   get_monitor_status db now monitor hours = Raise OverflowError /\
   get_all_status monitors_config db now now' hours = Raise OverflowError).
Proof.
  intros Hdb Hv Hh Hold Hconfig days.
  destruct (cutoff_spec now hours Hv) as [Hok Hraise]. fold days in Hok, Hraise.
  assert (Hdays : 1 <= days).
  { destruct (instant_split now Hv) as (Hord & tod & Htod & Hi & _).
    unfold days. rewrite Hi. unfold Datetime.US_PER_DAY in *.
    Z.div_mod_to_equations. nia. }
  split; [exact Hdays|]. split.
  2:{ intros Hr. specialize (Hraise ltac:(lia)).
      split; [|now apply get_all_status_overflow].
      unfold get_monitor_status. now rewrite Hraise. }
  intros Hr. destruct (Hok ltac:(lia)) as (cutoff_time & Hc & Hvc & Hi).
  exists cutoff_time. split; [exact Hc|].
  assert (Hle : Datetime.leb now cutoff_time = true) by (apply leb_instant; auto; lia).
  assert (Hnone : forall (m : string) o, query_records db (VStr m) cutoff_time o = []).
  { intros m o. destruct (Hdb m cutoff_time o) as [Hp _].
    apply Permutation_nil_r. rewrite Hp.
    rewrite filter_none; [reflexivity|]. apply Forall_forall. intros r Hrow.
    pose proof (proj1 (Forall_forall _ _) Hold r Hrow) as Hlt. cbv beta in Hlt.
    unfold matches. apply andb_false_iff. right.
    destruct (Datetime.leb cutoff_time (timestamp r)) eqn:Hcr; [|reflexivity].
    pose proof (datetime_leb_trans _ _ _ Hle Hcr) as Hnr.
    rewrite (ltb_not_leb _ _ Hlt) in Hnr. discriminate. }
  split; [exact Hle|]. split.
  - unfold get_monitor_status. rewrite Hc, bind_Ok, Hnone. reflexivity.
  - destruct (monitors_status_exist db cutoff_time monitors_config Hconfig)
      as (monitors & Hmonitors).
    eexists _, monitors. split.
    { apply (get_all_status_ok _ _ _ _ _ cutoff_time); [exact Hc|].
      eapply Forall2_impl; [exact Hmonitors|]. intros m e (n & u & _ & _ & Hd & _). exact Hd. }
    split; [reflexivity|].
    eapply Forall2_impl; [exact Hmonitors|].
    intros m e (n & u & Hn & Hu & _ & ->).
    exists n. eexists. split; [exact Hn|]. split; [reflexivity|].
    unfold latest_of. rewrite Hnone. repeat split; reflexivity.
Qed.

(** ** The list of monitors and the response models *)

Lemma get_monitors_loop (monitors_config : list (gmap string pyval)) :
  forall monitors,
    (forall out,
       for_each (fun monitors m =>
                   name ← dict_item m "name";
                   Ok (monitors ++ [ {[ "name"%string := name ]} ]))
         monitors monitors_config = Ok out <->
       exists listed,
         out = monitors ++ listed /\
         Forall2 (fun (m entry : gmap string pyval) =>
                    exists name, m !! "name"%string = Some name /\
                                 entry = {[ "name"%string := name ]})
           monitors_config listed) /\
    (forall e,
       for_each (fun monitors m =>
                   name ← dict_item m "name";
                   Ok (monitors ++ [ {[ "name"%string := name ]} ]))
         monitors monitors_config = Raise e <->
       e = KeyError "name" /\
       Exists (fun m : gmap string pyval => m !! "name"%string = None) monitors_config).
Proof.
  induction monitors_config as [|m l IH]; intros monitors.
  - split.
    + intros out. cbn [for_each]. split.
      * intros [= <-]. exists []. split; [now rewrite app_nil_r|constructor].
      * intros (listed & -> & H). apply Forall2_nil_inv_l in H. subst.
        now rewrite app_nil_r.
    + intros e. cbn [for_each]. split; [discriminate|].
      intros [_ H]. now apply Exists_nil in H.
  - cbn [for_each].
    destruct (m !! "name"%string) as [name|] eqn:Hname.
    + replace (dict_item m "name") with (Ok name) by (unfold dict_item; now rewrite Hname).
      rewrite !bind_Ok.
      destruct (IH (monitors ++ [ {[ "name"%string := name ]} ])) as [IHok IHraise].
      split.
      * intros out. rewrite IHok. split.
        -- intros (listed & -> & H). exists ({[ "name"%string := name ]} :: listed).
           split; [now rewrite <- app_assoc|]. constructor; eauto.
        -- intros (listed & -> & H).
           apply Forall2_cons_inv_l in H as (entry & listed' & (n & Hn & ->) & H & ->).
           assert (n = name) as -> by congruence.
           exists listed'. split; [now rewrite <- app_assoc|exact H].
      * intros e. rewrite IHraise. split.
        -- intros [-> H]. split; [reflexivity|now apply Exists_cons_tl].
        -- intros [-> H]. split; [reflexivity|].
           apply Exists_cons in H as [H|H]; [congruence|exact H].
    + replace (dict_item m "name") with (@Raise pyval (KeyError "name"))
        by (unfold dict_item; now rewrite Hname).
      rewrite !bind_Raise. split.
      * intros out. split; [discriminate|].
        intros (listed & _ & H).
        apply Forall2_cons_inv_l in H as (entry & listed' & (n & Hn & _) & _).
        congruence.
      * intros e. split.
        -- intros [= <-]. split; [reflexivity|now apply Exists_cons_hd].
        -- intros [-> _]. reflexivity.
Qed.

Lemma get_monitors_ok (monitors_config out : list (gmap string pyval)) :
  Forall2 (fun (m entry : gmap string pyval) =>
             exists name, m !! "name"%string = Some name /\
                          entry = {[ "name"%string := name ]})
    monitors_config out ->
  get_monitors monitors_config = Ok out.
Proof.
  intros H. unfold get_monitors.
  apply (proj1 (get_monitors_loop monitors_config [])). exists out. split; [reflexivity|exact H].
Qed.

(** X15.  get_monitors answers with one dict per
    configured monitor, in configuration order, each holding the
    monitor's name under "name" and nothing else (no url, no interval); it
    raises, with KeyError 'name', exactly when some configured monitor has
    no "name". *)
Theorem get_monitors_names (monitors_config : list (gmap string pyval)) :
  (forall out,
     get_monitors monitors_config = Ok out <->
     Forall2 (fun (m entry : gmap string pyval) =>
                exists name, m !! "name"%string = Some name /\
                             entry = {[ "name"%string := name ]})
       monitors_config out) /\
  (forall e,
     get_monitors monitors_config = Raise e <->
     e = KeyError "name" /\
     Exists (fun m : gmap string pyval => m !! "name"%string = None) monitors_config).
Proof.
  destruct (get_monitors_loop monitors_config []) as [Hok Hraise].
  split; [|exact Hraise].
  intros out. unfold get_monitors. rewrite Hok. split.
  - intros (listed & -> & H). exact H.
  - intros H. exists out. split; [reflexivity|exact H].
Qed.

Lemma Forall2_join_left {A B C} (P : A -> B -> Prop) (Q : A -> C -> Prop)
    (R : B -> C -> Prop) l k1 k2 :
  (forall x y1 y2, P x y1 -> Q x y2 -> R y1 y2) ->
  Forall2 P l k1 -> Forall2 Q l k2 -> Forall2 R k1 k2.
Proof.
  intros HR H1. revert k2. induction H1 as [|x y1 l k1 Hxy _ IH]; intros k2 H2.
  - apply Forall2_nil_inv_l in H2. subst. constructor.
  - apply Forall2_cons_inv_l in H2. destruct H2 as (y2 & k2' & Hy2 & Hk2 & ->).
    constructor; [eapply HR; eauto|apply IH, Hk2].
Qed.

(** X16.  The two listings agree: whenever
    get_all_status answers, get_monitors answers over the same
    configuration, and the two give the same monitors, as many, under
    the same names and in the same order.  (get_monitors may answer where
    get_all_status raises: it asks for no url and no look-back.) *)
Theorem listed_monitors_are_reported (monitors_config : list (gmap string pyval)) db
    now now' hours response :
  get_all_status monitors_config db now now' hours = Ok response ->
  exists listed reported,
    get_monitors monitors_config = Ok listed /\
    response !! "monitors"%string = Some (VList reported) /\
    length listed = length monitors_config /\
    Forall2 (fun (entry : gmap string pyval) monitor =>
               exists name data,
                 entry = {[ "name"%string := name ]} /\
                 monitor = VDict data /\
                 data !! "name"%string = Some name)
      listed reported /\
    Forall2 (fun (configured entry : gmap string pyval) =>
               configured !! "name"%string = entry !! "name"%string)
      monitors_config listed.
Proof.
  unfold get_all_status. intros Hresponse.
  destruct (cutoff now hours) as [cutoff_time|] eqn:Hc; [|discriminate].
  rewrite bind_Ok in Hresponse.
  destruct (for_each _ [] monitors_config) as [reported|] eqn:Hloop; [|discriminate].
  rewrite bind_Ok in Hresponse. injection Hresponse as <-.
  destruct (for_each_collect (monitor_data db cutoff_time) monitors_config []) as [Hok _].
  apply (proj1 (Hok reported)) in Hloop as (reported' & -> & Hreported).
  cbn [app].
  assert (Hnames : Forall2 (fun (configured : gmap string pyval) monitor =>
                              exists name data,
                                configured !! "name"%string = Some name /\
                                monitor = VDict data /\
                                data !! "name"%string = Some name)
                     monitors_config reported').
  { eapply Forall2_impl; [exact Hreported|]. intros configured monitor Hdata.
    unfold monitor_data, dict_item in Hdata.
    destruct (configured !! "name"%string) as [name|]; [|discriminate].
    destruct (configured !! "url"%string) as [url|]; [|discriminate].
    cbn in Hdata. injection Hdata as <-. eexists _, _. repeat split; reflexivity. }
  assert (exists listed,
            Forall2 (fun (configured entry : gmap string pyval) =>
                       exists name, configured !! "name"%string = Some name /\
                                    entry = {[ "name"%string := name ]})
              monitors_config listed) as [listed Hlisted].
  { clear Hreported Hok. induction Hnames as [|configured monitor l k (name & _ & Hn & _) _ IH].
    - exists []. constructor.
    - destruct IH as [listed IH]. exists ({[ "name"%string := name ]} :: listed).
      constructor; eauto. }
  exists listed, reported'. split; [now apply get_monitors_ok|].
  split; [reflexivity|]. split; [symmetry; eapply Forall2_length; exact Hlisted|].
  split.
  - refine (Forall2_join_left _ _ _ _ _ _ _ Hlisted Hnames).
    intros configured entry monitor (name & Hn & ->) (name' & data & Hn' & -> & Hd).
    exists name, data. split; [reflexivity|]. split; [reflexivity|]. congruence.
  - eapply Forall2_impl; [exact Hlisted|].
    intros configured entry (name & Hn & ->). rewrite Hn. symmetry. apply lookup_singleton_eq.
Qed.

Lemma status_record_instance r : instance_of StatusRecord (status_record r) = true.
Proof.
  unfold status_record. destruct (status_code r), (response_time r); reflexivity.
Qed.

Lemma current_status_instance latest :
  instance_of CurrentStatus (current_status latest) = true.
Proof.
  unfold current_status. destruct latest as [l|]; [|reflexivity].
  destruct (status_code l), (response_time l); reflexivity.
Qed.

Lemma forallb_map_true {A B} (p : B -> bool) (f : A -> B) l :
  (forall x, p (f x) = true) -> forallb p (map f l) = true.
Proof. intros H. induction l as [|x l IH]; [reflexivity|]. cbn. now rewrite H, IH. Qed.

Lemma monitor_data_instance db cutoff_time (monitor : gmap string pyval) (name : string)
    entry :
  monitor !! "name"%string = Some (VStr name) ->
  monitor_data db cutoff_time monitor = Ok entry ->
  instance_of MonitorStatusDetail entry = true.
Proof.
  intros Hname Hdata.
  destruct (monitor !! "url"%string) as [url|] eqn:Hurl.
  - rewrite (monitor_data_ok db cutoff_time monitor (VStr name) url Hname Hurl) in Hdata.
    injection Hdata as <-.
    set (records := query_records db (VStr name) cutoff_time Ascending).
    match goal with |- instance_of _ (VDict ?d) = true => set (data := d) end.
    assert (Hn : data !! "name"%string = Some (VStr name)) by reflexivity.
    assert (Hcurrent : data !! "current_status"%string
                       = Some (current_status (latest_of records))) by reflexivity.
    assert (Hhistory : data !! "history"%string
                       = Some (VList (map status_record records))) by reflexivity.
    clearbody data.
    cbn [instance_of MonitorStatusDetail forallb].
    rewrite Hn, Hcurrent, Hhistory.
    rewrite current_status_instance.
    cbn [instance_of].
    rewrite (forallb_map_true _ _ _ status_record_instance). reflexivity.
  - unfold monitor_data, dict_item in Hdata. rewrite Hname, Hurl in Hdata. discriminate.
Qed.

Lemma forallb_Forall2 {A B} (P : A -> Prop) (R : A -> B -> Prop) (p : B -> bool) l k :
  (forall x y, P x -> R x y -> p y = true) ->
  Forall P l -> Forall2 R l k -> forallb p k = true.
Proof.
  intros H HP HR. induction HR as [|x y l k Hxy _ IH]; [reflexivity|].
  apply Forall_cons in HP as [Hx HP]. cbn [forallb].
  now rewrite (H x y Hx Hxy), IH.
Qed.

(** X17.  Whatever get_all_status returns, over a
    configuration whose monitors are named by strs, is an
    AllStatusResponse as api/models.py declares it: every field of the
    declared type and every required field present, at every depth.
    Whatever get_monitor_status returns names the monitor asked for and
    holds at least one record, each a StatusRecord. *)
Theorem responses_fit_models (monitors_config : list (gmap string pyval)) db now now'
    hours :
  (forall response,
     get_all_status monitors_config db now now' hours = Ok response ->
     Forall (fun configured : gmap string pyval =>
               exists name : string, configured !! "name"%string = Some (VStr name))
       monitors_config ->
     instance_of AllStatusResponse (VDict response) = true) /\
  (forall monitor response,
     get_monitor_status db now monitor hours = Ok response ->
     response !! "monitor_name"%string = Some (VStr monitor) /\
     exists records,
       response !! "records"%string = Some (VList records) /\
       records <> [] /\
       forallb (instance_of StatusRecord) records = true).
Proof.
  split.
  - unfold get_all_status. intros response Hresponse Hnames.
    destruct (cutoff now hours) as [cutoff_time|] eqn:Hc; [|discriminate].
    rewrite bind_Ok in Hresponse.
    destruct (for_each _ [] monitors_config) as [reported|] eqn:Hloop; [|discriminate].
    rewrite bind_Ok in Hresponse. injection Hresponse as <-.
    destruct (for_each_collect (monitor_data db cutoff_time) monitors_config []) as [Hok _].
    apply (proj1 (Hok reported)) in Hloop as (reported' & -> & Hreported).
    cbn [app].
    match goal with |- instance_of _ (VDict ?d) = true => set (data := d) end.
    assert (Htimestamp : data !! "timestamp"%string
                         = Some (VStr (Datetime.isoformat now'))) by reflexivity.
    assert (Hmonitors : data !! "monitors"%string = Some (VList reported'))
      by reflexivity.
    clearbody data.
    cbn [instance_of AllStatusResponse forallb].
    rewrite Htimestamp, Hmonitors.
    cbn [instance_of].
    assert (Hfit : forall (configured : gmap string pyval) entry,
              (exists name : string, configured !! "name"%string = Some (VStr name)) ->
              monitor_data db cutoff_time configured = Ok entry ->
              instance_of MonitorStatusDetail entry = true).
    { intros configured entry [name Hname] Hdata.
      exact (monitor_data_instance db cutoff_time configured name entry Hname Hdata). }
    rewrite (forallb_Forall2 _ _ (instance_of MonitorStatusDetail) _ _
               Hfit Hnames Hreported).
    reflexivity.
  - intros monitor response Hresponse. unfold get_monitor_status in Hresponse.
    destruct (cutoff now hours) as [cutoff_time|]; [|discriminate].
    rewrite bind_Ok in Hresponse.
    destruct (query_records db (VStr monitor) cutoff_time Descending) as [|r l];
      [discriminate|].
    injection Hresponse as <-.
    split; [reflexivity|]. eexists. split; [reflexivity|]. split; [discriminate|].
    apply (forallb_map_true _ _ (r :: l) status_record_instance).
Qed.

(** *** Examples of the edges *)

(** An int threshold of 2^1040 ms cannot be divided by 1000 as a float. *)
Example huge_threshold_overflows :
  aggregate_heartbeat_data Float64.sum_neumaier scenario_records "hour"
    {[ "degraded_threshold"%string := NInt (2 ^ 1040) ]}
  = Raise OverflowError /\
  aggregate_heartbeat_data Float64.sum_neumaier [] "hour"
    {[ "degraded_threshold"%string := NInt (2 ^ 1040) ]}
  = Ok [].
Proof. split; vm_compute; reflexivity. Qed.

(** From noon on 2026-11-03 a look-back of 17758140 hours ends at the
    first instant of year 1, and one of 17758152 hours before it. *)
Example lookback_to_year_one :
  24 * Datetime.toordinal noon = 17758152 /\
  cutoff noon 17758152 = Raise OverflowError /\
  cutoff noon 17758140 = Ok (Datetime.mkdatetime 1 1 1 0 0 0 0) /\
  get_monitor_status (table_session scenario_records) noon "api" 17758152
  = Raise OverflowError.
Proof. repeat split; vm_compute; reflexivity. Qed.

(** With the percentage threshold 100 a bucket whose only check is slow
    is "up", at 100.0 percent of issues. *)
Example all_slow_yet_up :
  field "issue_percentage"
    (aggregate_heartbeat_data Float64.sum_neumaier
       [record_at 0 (S754_finite false 5404319552844595 (-54))] "hour" lenient_config)
  = Ok [Some (VFloat (Float64.of_int 100))] /\
  field "status"
    (aggregate_heartbeat_data Float64.sum_neumaier
       [record_at 0 (S754_finite false 5404319552844595 (-54))] "hour" lenient_config)
  = Ok [Some (VStr "up")] /\
  field "status"
    (aggregate_heartbeat_data Float64.sum_neumaier
       [record_at 0 (S754_finite false 5404319552844595 (-54))] "hour" default_config)
  = Ok [Some (VStr "degraded")].
Proof. repeat split; vm_compute; reflexivity. Qed.

(** A monitor without a name in the configuration. *)
Example unnamed_monitor :
  get_monitors [ {[ "name"%string := VStr "api" ]};
                 {[ "url"%string := VStr "https://www.example.org/" ]} ]
  = Raise (KeyError "name").
Proof. vm_compute. reflexivity. Qed.

(** A monitor with a name and no url is listed by get_monitors and makes
    get_all_status raise. *)
Example listed_but_not_reported :
  get_monitors [ {[ "name"%string := VStr "api" ]} ]
  = Ok [ {[ "name"%string := VStr "api" ]} ] /\
  get_all_status [ {[ "name"%string := VStr "api" ]} ] (table_session scenario_records)
    noon noon 24
  = Raise (KeyError "url").
Proof. split; vm_compute; reflexivity. Qed.

(** The answer for [two_monitors] over [scenario_records] is an
    AllStatusResponse; with a monitor named by an int the answer is not
    one. *)
Example scenario_status_fits :
  get_all_status (map config_dict two_monitors) (table_session scenario_records)
    noon noon 24
  = Ok scenario_status /\
  instance_of AllStatusResponse (VDict scenario_status) = true /\
  (exists response,
     get_all_status [ list_to_map [ ("name"%string, VInt 7);
                                    ("url"%string, VStr "https://www.example.org/") ] ]
       (table_session scenario_records) noon noon 24
     = Ok response /\
     instance_of AllStatusResponse (VDict response) = false).
Proof.
  split; [vm_compute; reflexivity|]. split; [vm_compute; reflexivity|].
  eexists. split; [reflexivity|]. vm_compute. reflexivity.
Qed.

(** *** The further theorems at concrete inputs *)

Lemma bucket_starts_compose_witness :
  Datetime.valid noon = true /\
  (let after i j := start ← bucket_start i noon; bucket_start j start in
  (exists monday, bucket_start "week" noon = Ok monday) /\
  after "hour" "hour" = bucket_start "hour" noon /\
  after "hour" "day" = bucket_start "day" noon /\
  after "hour" "week" = bucket_start "week" noon /\
  after "day" "hour" = bucket_start "day" noon /\
  after "day" "day" = bucket_start "day" noon /\
  after "day" "week" = bucket_start "week" noon /\
  after "week" "hour" = bucket_start "week" noon /\
  after "week" "day" = bucket_start "week" noon /\
  after "week" "week" = bucket_start "week" noon).
Proof.
  split; [reflexivity|].
  apply (bucket_starts_compose noon); reflexivity.
Defined.

Lemma aggregate_raises_only_overflow_witness :
  timestamps_valid scenario_records /\
  ((forall e,
     aggregate_heartbeat_data Float64.sum_neumaier scenario_records "week"%string default_config = Raise e <->
     scenario_records <> [] /\
     number_truediv_int (dict_get default_config "degraded_threshold" (NInt 200)) 1000
     = Raise e) /\
  (forall e,
     aggregate_heartbeat_data Float64.sum_neumaier scenario_records "week"%string default_config = Raise e ->
     e = OverflowError /\
     exists n, default_config !! "degraded_threshold"%string = Some (NInt n) /\
               1000 * 2 ^ 1023 < Z.abs n)).
Proof.
  split; [repeat constructor|].
  apply (aggregate_raises_only_overflow Float64.sum_neumaier scenario_records "week"%string default_config); repeat constructor.
Defined.

Lemma issues_sum_to_input_witness :
  timestamps_valid scenario_records /\
  number_truediv_int (dict_get default_config "degraded_threshold" (NInt 200)) 1000 = Ok threshold_200ms /\
  (exists out downs degradeds,
    aggregate_heartbeat_data Float64.sum_neumaier scenario_records "day"%string default_config = Ok out /\
    Forall2 (fun node n => node !! "down_count"%string = Some (VInt n)) out downs /\
    Forall2 (fun node n => node !! "degraded_count"%string = Some (VInt n)) out degradeds /\
    sum_ints downs = len (List.filter (fun r => negb (is_up r)) scenario_records) /\
    sum_ints degradeds
    = len (List.filter
             (fun r => is_up r && match response_time r with
                                  | Some t => Float64.ltb threshold_200ms t
                                  | None => false
                                  end) scenario_records)).
Proof.
  split; [repeat constructor|].
  split; [vm_compute; reflexivity|].
  apply (issues_sum_to_input Float64.sum_neumaier scenario_records "day"%string default_config threshold_200ms);
    [repeat constructor | vm_compute; reflexivity].
Defined.

Lemma coarser_interval_fewer_buckets_witness :
  timestamps_valid scenario_records /\
  number_truediv_int (dict_get default_config "degraded_threshold" (NInt 200)) 1000 = Ok threshold_200ms /\
  (exists out_all out_hour out_day out_week,
    aggregate_heartbeat_data Float64.sum_neumaier scenario_records "all" default_config = Ok out_all /\
    aggregate_heartbeat_data Float64.sum_neumaier scenario_records "hour" default_config = Ok out_hour /\
    aggregate_heartbeat_data Float64.sum_neumaier scenario_records "day" default_config = Ok out_day /\
    aggregate_heartbeat_data Float64.sum_neumaier scenario_records "week" default_config = Ok out_week /\
    (length out_week <= length out_day)%nat /\
    (length out_day <= length out_hour)%nat /\
    (length out_hour <= length out_all)%nat /\
    length out_all = length scenario_records).
Proof.
  split; [repeat constructor|].
  split; [vm_compute; reflexivity|].
  apply (coarser_interval_fewer_buckets Float64.sum_neumaier scenario_records default_config threshold_200ms);
    [repeat constructor | vm_compute; reflexivity].
Defined.

Lemma no_degraded_from_100_witness :
  "hour"%string <> "all"%string /\
  timestamps_valid slow_records /\
  number_truediv_int (dict_get lenient_config "degraded_threshold" (NInt 200)) 1000 = Ok threshold_200ms /\
  number_valid (dict_get lenient_config "degraded_percentage_threshold" (NInt 10)) = true /\
  number_gt (NInt 100) (dict_get lenient_config "degraded_percentage_threshold" (NInt 10)) = false /\
  (exists out,
    aggregate_heartbeat_data Float64.sum_neumaier slow_records "hour"%string lenient_config = Ok out /\
    Forall (fun node =>
      exists down,
        node !! "down_count"%string = Some (VInt down) /\
        node !! "status"%string = Some (VStr (if 0 <? down then "down" else "up")) /\
        node !! "is_up"%string = Some (VBool (negb (0 <? down)))) out).
Proof.
  split; [discriminate|].
  split; [repeat constructor|].
  split; [vm_compute; reflexivity|].
  split; [reflexivity|].
  split; [reflexivity|].
  apply (no_degraded_from_100 Float64.sum_neumaier slow_records "hour"%string lenient_config threshold_200ms);
    [discriminate | repeat constructor | vm_compute; reflexivity | reflexivity | reflexivity].
Defined.

Lemma never_up_below_zero_witness :
  "hour"%string <> "all"%string /\
  timestamps_valid slow_records /\
  number_truediv_int (dict_get strict_config "degraded_threshold" (NInt 200)) 1000 = Ok threshold_200ms /\
  number_gt (NInt 0) (dict_get strict_config "degraded_percentage_threshold" (NInt 10)) = true /\
  (exists out,
    aggregate_heartbeat_data Float64.sum_neumaier slow_records "hour"%string strict_config = Ok out /\
    Forall (fun node =>
      exists down,
        node !! "down_count"%string = Some (VInt down) /\
        node !! "status"%string = Some (VStr (if 0 <? down then "down" else "degraded")) /\
        node !! "is_up"%string = Some (VBool false)) out).
Proof.
  split; [discriminate|].
  split; [repeat constructor|].
  split; [vm_compute; reflexivity|].
  split; [reflexivity|].
  apply (never_up_below_zero Float64.sum_neumaier slow_records "hour"%string strict_config threshold_200ms);
    [discriminate | repeat constructor | vm_compute; reflexivity | reflexivity].
Defined.

Lemma issue_percentage_extremes_witness :
  "hour"%string <> "all"%string /\
  timestamps_valid scenario_records /\
  number_truediv_int (dict_get default_config "degraded_threshold" (NInt 200)) 1000 = Ok threshold_200ms /\
  (exists out keys,
    aggregate_heartbeat_data Float64.sum_neumaier scenario_records "hour"%string default_config = Ok out /\
    Forall2 (fun key node =>
      let ms := members "hour"%string scenario_records key in
      node !! "timestamp"%string = Some (VStr key) /\
      (Forall (fun r => negb (is_up r) || is_degraded threshold_200ms r = true) ms ->
       node !! "issue_percentage"%string = Some (VFloat (Float64.of_int 100))) /\
      (Forall (fun r => negb (is_up r) || is_degraded threshold_200ms r = false) ms ->
       node !! "issue_percentage"%string = Some (VFloat Float64.zero) /\
       (number_gt (NInt 0)
          (dict_get default_config "degraded_percentage_threshold" (NInt 10)) = false ->
        node !! "status"%string = Some (VStr "up") /\
        node !! "is_up"%string = Some (VBool true))))
      keys out).
Proof.
  split; [discriminate|].
  split; [repeat constructor|].
  split; [vm_compute; reflexivity|].
  apply (issue_percentage_extremes Float64.sum_neumaier scenario_records "hour"%string default_config threshold_200ms);
    [discriminate | repeat constructor | vm_compute; reflexivity].
Defined.

Lemma thresholds_leave_grouping_witness :
  timestamps_valid scenario_records /\
  number_truediv_int (dict_get default_config "degraded_threshold" (NInt 200)) 1000 = Ok threshold_200ms /\
  number_truediv_int (dict_get lenient_config "degraded_threshold" (NInt 200)) 1000 = Ok threshold_200ms /\
  (exists out1 out2,
    aggregate_heartbeat_data Float64.sum_neumaier scenario_records "day"%string default_config = Ok out1 /\
    aggregate_heartbeat_data Float64.sum_neumaier scenario_records "day"%string lenient_config = Ok out2 /\
    Forall2 (fun node1 node2 : gmap string pyval =>
      is_Some (node1 !! "timestamp"%string) /\
      node1 !! "timestamp"%string = node2 !! "timestamp"%string /\
      node1 !! "count"%string = node2 !! "count"%string /\
      node1 !! "down_count"%string = node2 !! "down_count"%string /\
      node1 !! "avg_response_time"%string = node2 !! "avg_response_time"%string /\
      node1 !! "response_time"%string = node2 !! "response_time"%string)
      out1 out2).
Proof.
  split; [repeat constructor|].
  split; [vm_compute; reflexivity|].
  split; [vm_compute; reflexivity|].
  apply (thresholds_leave_grouping Float64.sum_neumaier scenario_records "day"%string default_config lenient_config threshold_200ms threshold_200ms);
    [repeat constructor | vm_compute; reflexivity | vm_compute; reflexivity].
Defined.

Lemma one_node_per_key_witness :
  "minute"%string <> "all"%string /\
  timestamps_valid scenario_records /\
  number_truediv_int (dict_get default_config "degraded_threshold" (NInt 200)) 1000 = Ok threshold_200ms /\
  (exists out keys,
    aggregate_heartbeat_data Float64.sum_neumaier scenario_records "minute"%string default_config = Ok out /\
    Forall2 (fun key node => node !! "timestamp"%string = Some (VStr key)) keys out /\
    StronglySorted str_lt keys /\
    NoDup keys /\
    (forall key,
       key ∈ keys <->
       exists r start,
         r ∈ scenario_records /\ bucket_start "minute"%string (timestamp r) = Ok start /\
         Datetime.isoformat start = key)).
Proof.
  split; [discriminate|].
  split; [repeat constructor|].
  split; [vm_compute; reflexivity|].
  apply (one_node_per_key Float64.sum_neumaier scenario_records "minute"%string default_config threshold_200ms);
    [discriminate | repeat constructor | vm_compute; reflexivity].
Defined.

Lemma counts_add_over_batches_witness :
  "hour"%string <> "all"%string /\
  timestamps_valid scenario_records /\
  timestamps_valid slow_records /\
  number_truediv_int (dict_get default_config "degraded_threshold" (NInt 200)) 1000 = Ok threshold_200ms /\
  (exists out1 out2 out,
    aggregate_heartbeat_data Float64.sum_neumaier scenario_records "hour"%string default_config = Ok out1 /\
    aggregate_heartbeat_data Float64.sum_neumaier slow_records "hour"%string default_config = Ok out2 /\
    aggregate_heartbeat_data Float64.sum_neumaier (scenario_records ++ slow_records) "hour"%string default_config = Ok out /\
    forall key,
      int_at "count" key out = int_at "count" key out1 + int_at "count" key out2 /\
      int_at "down_count" key out
      = int_at "down_count" key out1 + int_at "down_count" key out2 /\
      int_at "degraded_count" key out
      = int_at "degraded_count" key out1 + int_at "degraded_count" key out2).
Proof.
  split; [discriminate|].
  split; [repeat constructor|].
  split; [repeat constructor|].
  split; [vm_compute; reflexivity|].
  apply (counts_add_over_batches Float64.sum_neumaier scenario_records slow_records "hour"%string default_config threshold_200ms);
    [discriminate | repeat constructor | repeat constructor | vm_compute; reflexivity].
Defined.

Lemma lookback_out_of_range_witness :
  Datetime.valid noon = true /\
  (let days := (instant noon - 24 * 3600 * 1000000) / Datetime.US_PER_DAY in
  (1 <= days <= Datetime.MAXORDINAL ->
   exists cutoff_time,
     cutoff noon 24 = Ok cutoff_time /\
     Datetime.valid cutoff_time = true /\
     instant cutoff_time = instant noon - 24 * 3600 * 1000000 /\
     (Forall (fun configured : gmap string pyval =>
                is_Some (configured !! "name"%string) /\
                is_Some (configured !! "url"%string)) (map config_dict two_monitors) ->
      exists response, get_all_status (map config_dict two_monitors) (table_session scenario_records) noon noon 24 = Ok response) /\
     ((exists response, get_all_status (map config_dict two_monitors) (table_session scenario_records) noon noon 24 = Ok response) \/
      get_all_status (map config_dict two_monitors) (table_session scenario_records) noon noon 24 = Raise (KeyError "name") \/
      get_all_status (map config_dict two_monitors) (table_session scenario_records) noon noon 24 = Raise (KeyError "url")) /\
     ((exists response, get_monitor_status (table_session scenario_records) noon "api"%string 24 = Ok response) \/
      get_monitor_status (table_session scenario_records) noon "api"%string 24
      = Raise (HTTPException 404 ("Monitor '" ++ "api"%string ++ "' not found")))) /\
  (~ 1 <= days <= Datetime.MAXORDINAL ->
   get_monitor_status (table_session scenario_records) noon "api"%string 24 = Raise OverflowError /\
   get_all_status (map config_dict two_monitors) (table_session scenario_records) noon noon 24 = Raise OverflowError) /\
  (24 * Datetime.toordinal noon <= 24 -> ~ 1 <= days <= Datetime.MAXORDINAL)).
Proof.
  split; [reflexivity|].
  apply (lookback_out_of_range (map config_dict two_monitors) (table_session scenario_records) noon noon "api"%string 24); reflexivity.
Defined.

Lemma history_grows_with_hours_witness :
  answers scenario_records (table_session scenario_records) /\
  Datetime.valid noon = true /\
  24 <= 48 /\
  Forall (fun configured : gmap string pyval => exists (configured_name : string) (url : pyval), configured !! "name"%string = Some (VStr configured_name) /\ configured !! "url"%string = Some url) (map config_dict two_monitors) /\
  (let days1 := (instant noon - 24 * 3600 * 1000000) / Datetime.US_PER_DAY in
  let days2 := (instant noon - 48 * 3600 * 1000000) / Datetime.US_PER_DAY in
  days2 <= days1 /\
  (1 <= days2 -> days1 <= Datetime.MAXORDINAL ->
   (exists response1 response2 monitors1 monitors2,
      get_all_status (map config_dict two_monitors) (table_session scenario_records) noon noon 24 = Ok response1 /\
      get_all_status (map config_dict two_monitors) (table_session scenario_records) noon noon 48 = Ok response2 /\
      response1 !! "monitors"%string = Some (VList monitors1) /\
      response2 !! "monitors"%string = Some (VList monitors2) /\
      Forall2 (fun entry1 entry2 =>
        exists data1 data2 history1 history2,
          entry1 = VDict data1 /\ entry2 = VDict data2 /\
          is_Some (data1 !! "name"%string) /\
          data1 !! "name"%string = data2 !! "name"%string /\
          data1 !! "history"%string = Some (VList history1) /\
          data2 !! "history"%string = Some (VList history2) /\
          history1 ⊆+ history2)
        monitors1 monitors2) /\
   (forall monitor response1 records1,
      get_monitor_status (table_session scenario_records) noon monitor 24 = Ok response1 ->
      response1 !! "records"%string = Some (VList records1) ->
      exists response2 records2,
        get_monitor_status (table_session scenario_records) noon monitor 48 = Ok response2 /\
        response2 !! "records"%string = Some (VList records2) /\
        records1 ⊆+ records2)) /\
  (days2 < 1 ->
   get_all_status (map config_dict two_monitors) (table_session scenario_records) noon noon 48 = Raise OverflowError /\
   forall monitor, get_monitor_status (table_session scenario_records) noon monitor 48 = Raise OverflowError) /\
  (Datetime.MAXORDINAL < days1 ->
   get_all_status (map config_dict two_monitors) (table_session scenario_records) noon noon 24 = Raise OverflowError /\
   forall monitor, get_monitor_status (table_session scenario_records) noon monitor 24 = Raise OverflowError)).
Proof.
  split; [apply table_session_answers|].
  split; [reflexivity|].
  split; [lia|].
  split; [repeat constructor; eexists _, _; split; reflexivity|].
  apply (history_grows_with_hours (map config_dict two_monitors) (table_session scenario_records) scenario_records noon noon 24 48);
    [apply table_session_answers | reflexivity | lia | repeat constructor; eexists _, _; split; reflexivity].
Defined.

Lemma status_is_reversed_history_witness :
  answers scenario_records (table_session scenario_records) /\
  cutoff noon 24 = Ok noon_the_day_before /\
  Forall (fun configured : gmap string pyval => exists (configured_name : string) (url : pyval), configured !! "name"%string = Some (VStr configured_name) /\ configured !! "url"%string = Some url) (map config_dict two_monitors) /\
  (config_dict (mkMonitorConfig "api" "https://api.example.org/health")) ∈ (map config_dict two_monitors) /\
  (config_dict (mkMonitorConfig "api" "https://api.example.org/health")) !! "name"%string = Some (VStr "api"%string) /\
  (exists response monitors data history,
    get_all_status (map config_dict two_monitors) (table_session scenario_records) noon noon 24 = Ok response /\
    response !! "monitors"%string = Some (VList monitors) /\
    VDict data ∈ monitors /\
    data !! "name"%string = Some (VStr "api"%string) /\
    data !! "history"%string = Some (VList history) /\
    match history with
    | [] =>
        get_monitor_status (table_session scenario_records) noon "api"%string 24
        = Raise (HTTPException 404 ("Monitor '" ++ "api"%string ++ "' not found"))
    | _ =>
        exists records,
          get_monitor_status (table_session scenario_records) noon "api"%string 24
          = Ok (list_to_map
              [ ("monitor_name", VStr "api"%string);
                ("records", VList records) ]%string) /\
          records ≡ₚ history /\
          (NoDup (map timestamp
                    (List.filter (matches "api"%string noon_the_day_before) scenario_records)) ->
           records = rev history)
    end).
Proof.
  split; [apply table_session_answers|].
  split; [vm_compute; reflexivity|].
  split; [repeat constructor; eexists _, _; split; reflexivity|].
  split; [constructor|].
  split; [reflexivity|].
  apply (status_is_reversed_history (map config_dict two_monitors) (table_session scenario_records) scenario_records noon noon 24 noon_the_day_before (config_dict (mkMonitorConfig "api" "https://api.example.org/health")) "api"%string);
    [apply table_session_answers | vm_compute; reflexivity | repeat constructor; eexists _, _; split; reflexivity | constructor | reflexivity].
Defined.

Lemma no_lookback_no_past_witness :
  answers scenario_records (table_session scenario_records) /\
  Datetime.valid noon = true /\
  0 <= 0 /\
  Forall (fun r => Datetime.ltb (timestamp r) noon = true) scenario_records /\
  Forall (fun configured : gmap string pyval => exists (configured_name : string) (url : pyval), configured !! "name"%string = Some (VStr configured_name) /\ configured !! "url"%string = Some url) (map config_dict two_monitors) /\
  (let days := (instant noon - 0 * 3600 * 1000000) / Datetime.US_PER_DAY in
  1 <= days /\
  (days <= Datetime.MAXORDINAL ->
   exists cutoff_time,
     cutoff noon 0 = Ok cutoff_time /\
     Datetime.leb noon cutoff_time = true /\
     get_monitor_status (table_session scenario_records) noon "api"%string 0
     = Raise (HTTPException 404 ("Monitor '" ++ "api"%string ++ "' not found")) /\
     exists response monitors,
       get_all_status (map config_dict two_monitors) (table_session scenario_records) noon noon 0 = Ok response /\
       response !! "monitors"%string = Some (VList monitors) /\
       Forall2 (fun (configured : gmap string pyval) entry =>
         exists (name : string) data,
           configured !! "name"%string = Some (VStr name) /\
           entry = VDict data /\
           data !! "name"%string = Some (VStr name) /\
           data !! "current_status"%string = Some unknown_status /\
           data !! "history"%string = Some (VList []))
         (map config_dict two_monitors) monitors) /\
  (Datetime.MAXORDINAL < days ->
   get_monitor_status (table_session scenario_records) noon "api"%string 0 = Raise OverflowError /\
   get_all_status (map config_dict two_monitors) (table_session scenario_records) noon noon 0 = Raise OverflowError)).
Proof.
  split; [apply table_session_answers|].
  split; [reflexivity|].
  split; [lia|].
  split; [repeat constructor|].
  split; [repeat constructor; eexists _, _; split; reflexivity|].
  apply (no_lookback_no_past (map config_dict two_monitors) (table_session scenario_records) scenario_records noon noon 0 "api"%string);
    [apply table_session_answers | reflexivity | lia | repeat constructor | repeat constructor; eexists _, _; split; reflexivity].
Defined.

Lemma listed_monitors_are_reported_witness :
  get_all_status (map config_dict two_monitors) (table_session scenario_records) noon noon 24 = Ok scenario_status /\
  (exists listed reported,
    get_monitors (map config_dict two_monitors) = Ok listed /\
    scenario_status !! "monitors"%string = Some (VList reported) /\
    length listed = length (map config_dict two_monitors) /\
    Forall2 (fun (entry : gmap string pyval) monitor =>
               exists name data,
                 entry = {[ "name"%string := name ]} /\
                 monitor = VDict data /\
                 data !! "name"%string = Some name)
      listed reported /\
    Forall2 (fun (configured entry : gmap string pyval) =>
               configured !! "name"%string = entry !! "name"%string)
      (map config_dict two_monitors) listed).
Proof.
  split; [vm_compute; reflexivity|].
  apply (listed_monitors_are_reported (map config_dict two_monitors) (table_session scenario_records) noon noon 24 scenario_status); vm_compute; reflexivity.
Defined.
